(** * Risk scoring of a fingerprint session

    A shallow embedding of the risk calculator of the fingerprint demo
    ([calculateRiskScore], file [utils/risk-calculator.ts], in its two
    versions) together with the storage helpers it calls
    ([getStoredFingerprints], [getDeviceCount], [getIPCount], file
    [utils/storage.client.ts]) and the data contracts of
    [types/fingerprint.ts].

    Conventions of the embedding:
    - a JavaScript [number] is an exact rational ([Q]): a finite value,
      computed without rounding.  Results that the code rounds are integers
      ([Z]).  [NaN] and the infinities are values of module [IEEE] below,
      which embeds the current calculator once more with them;
    - a [string] is a sequence of 8-bit characters; [toLowerCase] acts on
      the letters [A]..[Z];
    - [localStorage] is an explicit argument of every function that reads
      it; an exception is an [option] result ([None] = thrown). *)

From Stdlib Require Import ZArith QArith Qround Qminmax Lia Lqa List String Ascii Bool.
From stdpp Require Import base option list gmap strings.
Import ListNotations.

Local Open Scope string_scope.
Local Open Scope list_scope.
Local Open Scope Q_scope.

(** ** JavaScript primitives used by the calculator *)

Abbreviation number := Q.

(** [x < y] and [x > y] on numbers. *)
Definition num_lt (x y : number) : bool := negb (Qle_bool y x).
Definition num_gt (x y : number) : bool := num_lt y x.
(** [x >= y] on the rounded (integer) score. *)
Definition int_ge (x y : Z) : bool := (y <=? x)%Z.

(** [Math.round]: the nearest integer, halves going up. *)
Definition Math_round (x : number) : Z := Qfloor (x + (1 # 2)).
(** [Math.min] and [Math.max] on integers. *)
Definition Math_min (x y : Z) : Z := Z.min x y.
Definition Math_max (x y : Z) : Z := Z.max x y.

(** [Array.prototype.length] as a number. *)
Definition js_length {A} (l : list A) : number := inject_Z (Z.of_nat (List.length l)).

(** [Array.prototype.includes] on an array of strings. *)
Definition arr_includes (l : list string) (x : string) : bool :=
  existsb (String.eqb x) l.

(** [String.prototype.toLowerCase], on ASCII letters. *)
Definition lower_ascii (c : ascii) : ascii :=
  let n := nat_of_ascii c in
  if (65 <=? n)%nat && (n <=? 90)%nat then ascii_of_nat (n + 32) else c.

Fixpoint toLowerCase (s : string) : string :=
  match s with
  | EmptyString => EmptyString
  | String c s' => String (lower_ascii c) (toLowerCase s')
  end.

(** [String.prototype.includes]: [sub] occurs somewhere in [s]. *)
Fixpoint includes (s sub : string) : bool :=
  String.prefix sub s ||
  match s with
  | EmptyString => false
  | String _ s' => includes s' sub
  end.

(** Truthiness of a string ([!s] is [negb (truthy s)]). *)
Definition truthy (s : string) : bool := negb (String.eqb s "").

(** ** Data contracts ([types/fingerprint.ts])

    The fields of type [Record<string, any>] ([components], [details]) are
    read by no function below and are left out. *)

Module DeviceFingerprint.
Record t := mk {
  visitorId : string;
  confidence : number;
  timestamp : number
}.
End DeviceFingerprint.

Module IncognitoDetection.
Record t := mk {
  isIncognito : bool;
  confidence : number;
  method : string
}.
End IncognitoDetection.

Module IPAnalysis.
Record t := mk {
  ip : string;
  country : string;
  region : string;
  city : string;
  isp : string;
  isVPN : bool;
  isTor : bool;
  isProxy : bool;
  riskScore : number;
  threatTypes : list string
}.
End IPAnalysis.

Module BehaviorAnalysis.
Record t := mk {
  mouseMovements : number;
  keystrokes : number;
  scrollEvents : number;
  timeOnPage : number;
  interactionSpeed : number;
  suspiciousPatterns : list string
}.
End BehaviorAnalysis.

Inductive RiskLevel := LOW | MEDIUM | HIGH | CRITICAL.

(** [Omit<FingerprintSession, 'riskScore' | 'riskLevel'>]: the argument of
    the calculator.  [ipAnalysis] is [IPAnalysis | null]; every other field
    is mandatory.  The record is generic in the type of
    [incognitoDetection], so that the same shape also describes an object
    that lacks this property (see [UncheckedSession]). *)
Record SessionOf {Inc : Type} := mkSession {
  id : string;
  deviceFingerprint : DeviceFingerprint.t;
  incognitoDetection : Inc;
  ipAnalysis : option IPAnalysis.t;
  behaviorAnalysis : BehaviorAnalysis.t;
  timestamp : number;
  userAgent : string;
  screenResolution : string;
  timezone : string;
  language : string
}.
Arguments mkSession {Inc}.

(** A session as the declared type has it. *)
Abbreviation Session := (@SessionOf IncognitoDetection.t).

(** An object of the same shape on which nothing enforces the declared
    type: [incognitoDetection] is [None] when the property is missing. *)
Abbreviation UncheckedSession := (@SessionOf (option IncognitoDetection.t)).

(** ** The history store ([utils/storage.client.ts])

    [localStorage] holds at most one item under [STORAGE_KEY].  What
    [JSON.parse] gives back is not checked against [StoredFingerprints], so
    each history map may be missing from the parsed value. *)

Record StoredFingerprints := mkStored {
  deviceHistory : option (gmap string number);
  ipHistory : option (gmap string number)
}.

Inductive LocalStorage :=
| GetItemThrows                       (* storage not accessible *)
| NoItem                              (* nothing under the key *)
| BadJson                             (* the item does not parse *)
| Item (v : StoredFingerprints).      (* the parsed item *)

(** The value returned when nothing usable is stored. *)
Definition emptyStored : StoredFingerprints :=
  {| deviceHistory := Some ∅; ipHistory := Some ∅ |}.

(** [getStoredFingerprints]: both failures are caught inside. *)
Definition getStoredFingerprints (ls : LocalStorage) : StoredFingerprints :=
  match ls with
  | Item v => v
  | GetItemThrows | NoItem | BadJson => emptyStored
  end.

(** [h[key] || 0], which throws when [h] is [undefined].  The maps hold
    the properties that are numbers.  Under a name that every object
    inherits ([toString], [constructor], ...) and that the object does not
    have of its own, the code reads a function; every test of the two
    calculators compares it with [>], which is false as it is for 0, the
    value read here. *)
Definition countOf (h : option (gmap string number)) (key : string)
  : option number :=
  match h with
  | None => None
  | Some m => Some (default 0 (m !! key))
  end.

Definition getDeviceCount (ls : LocalStorage) (deviceId : string) : option number :=
  countOf (deviceHistory (getStoredFingerprints ls)) deviceId.

Definition getIPCount (ls : LocalStorage) (ip : string) : option number :=
  countOf (ipHistory (getStoredFingerprints ls)) ip.

(** ** The calculator ([calculateRiskScore], current version)

    The function keeps two locals, [score] and [riskFactors]; each block of
    the source is a transformer of that pair, and the function is their
    composition in source order, followed by the clamp and the level. *)

Record Acc := mkAcc { score : number; riskFactors : list string }.

(** [score += pts] *)
Definition add (pts : number) (a : Acc) : Acc :=
  mkAcc (score a + pts) (riskFactors a).
(** [riskFactors.push(label)] *)
Definition push (label : string) (a : Acc) : Acc :=
  mkAcc (score a) (riskFactors a ++ [label]).
(** [score += pts; riskFactors.push(label)] *)
Definition flag (pts : number) (label : string) (a : Acc) : Acc :=
  push label (add pts a).
(** [if (c) { score += pts; riskFactors.push(label) }] *)
Definition flag_if (c : bool) (pts : number) (label : string) (a : Acc) : Acc :=
  if c then flag pts label a else a.

Definition init : Acc := mkAcc 0 [].

(** Device fingerprint confidence. *)
Definition stepFingerprint (s : Session) (a : Acc) : Acc :=
  let fpConfidence := DeviceFingerprint.confidence (deviceFingerprint s) in
  if num_lt fpConfidence 0.3 then flag 40 "very-low-fingerprint-confidence" a
  else if num_lt fpConfidence 0.5 then flag 25 "low-fingerprint-confidence" a
  else if num_lt fpConfidence 0.7 then flag 10 "medium-fingerprint-confidence" a
  else a.

(** Incognito mode detection. *)
Definition stepIncognito (s : Session) (a : Acc) : Acc :=
  if IncognitoDetection.isIncognito (incognitoDetection s) then
    let confidence := IncognitoDetection.confidence (incognitoDetection s) in
    if num_gt confidence 0.8 then flag 35 "confirmed-incognito" a
    else if num_gt confidence 0.5 then flag 25 "likely-incognito" a
    else flag 15 "possible-incognito" a
  else a.

(** IP analysis. *)
Definition stepIP (s : Session) (a : Acc) : Acc :=
  match ipAnalysis s with
  | Some ipA =>
    let ipRisk := IPAnalysis.riskScore ipA in
    let a := add (ipRisk * 0.4) a in
    let a := flag_if (IPAnalysis.isVPN ipA) 30 "vpn-detected" a in
    let a := flag_if (IPAnalysis.isTor ipA) 50 "tor-detected" a in
    let a := flag_if (IPAnalysis.isProxy ipA) 20 "proxy-detected" a in
    let threats := IPAnalysis.threatTypes ipA in
    let a := flag_if (arr_includes threats "hosting-provider") 15 "hosting-provider" a in
    let a := flag_if (arr_includes threats "known-vpn") 25 "known-vpn-service" a in
    let a := flag_if (arr_includes threats "blacklisted") 40 "blacklisted-ip" a in
    let a := flag_if (arr_includes threats "high-risk") 30 "high-risk-ip" a in
    a
  | None => a
  end.

(** Suspicious patterns of the behavior analysis. *)
Definition stepPatterns (s : Session) (a : Acc) : Acc :=
  let suspiciousPatterns := BehaviorAnalysis.suspiciousPatterns (behaviorAnalysis s) in
  let a := add (js_length suspiciousPatterns * 12) a in
  let a := flag_if (arr_includes suspiciousPatterns "inhuman-mouse-speed")
             20 "bot-like-mouse-movement" a in
  let a := flag_if (arr_includes suspiciousPatterns "inhuman-typing-speed")
             25 "bot-like-typing" a in
  let a := flag_if (arr_includes suspiciousPatterns "consistent-keystroke-timing")
             30 "automated-input" a in
  let a := flag_if (arr_includes suspiciousPatterns "straight-mouse-lines")
             15 "scripted-mouse-movement" a in
  a.

(** Interaction speed. *)
Definition stepSpeed (s : Session) (a : Acc) : Acc :=
  let interactionSpeed := BehaviorAnalysis.interactionSpeed (behaviorAnalysis s) in
  if num_gt interactionSpeed 2000 then flag 25 "superhuman-interaction-speed" a
  else if num_gt interactionSpeed 1000 then flag 15 "very-fast-interactions" a
  else a.

Definition totalInteractions (b : BehaviorAnalysis.t) : number :=
  BehaviorAnalysis.mouseMovements b + BehaviorAnalysis.keystrokes b
  + BehaviorAnalysis.scrollEvents b.

(** Time on page against interactions: the burst ladder. *)
Definition stepBurst (s : Session) (a : Acc) : Acc :=
  let timeOnPage := BehaviorAnalysis.timeOnPage (behaviorAnalysis s) in
  let total := totalInteractions (behaviorAnalysis s) in
  if num_lt timeOnPage 3000 && num_gt total 100 then
    flag 35 "rapid-fire-interactions" a
  else if num_lt timeOnPage 5000 && num_gt total 50 then
    flag 20 "fast-interaction-burst" a
  else a.

(** Lack of human-like behavior. *)
Definition stepMinimal (s : Session) (a : Acc) : Acc :=
  let timeOnPage := BehaviorAnalysis.timeOnPage (behaviorAnalysis s) in
  let total := totalInteractions (behaviorAnalysis s) in
  flag_if (num_gt timeOnPage 30000 && num_lt total 5) 20 "minimal-interaction" a.

(** Historical data: the [try] block.  An exception of [getDeviceCount]
    leaves the block before anything is added; an exception of [getIPCount]
    leaves it after the device adjustment.  The [catch] is empty. *)
Definition stepHistory (ls : LocalStorage) (s : Session) (a : Acc) : Acc :=
  let deviceId := DeviceFingerprint.visitorId (deviceFingerprint s) in
  match getDeviceCount ls deviceId with
  | None => a
  | Some deviceCount =>
    let a :=
      if num_gt deviceCount 20 then flag 25 "frequent-device-reuse" a
      else if num_gt deviceCount 10 then flag 15 "repeated-device-usage" a
      else a in
    match ipAnalysis s with
    | Some ipA =>
      match getIPCount ls (IPAnalysis.ip ipA) with
      | None => a
      | Some ipCount =>
        if num_gt ipCount 50 then flag 30 "ip-abuse-pattern" a
        else if num_gt ipCount 20 then flag 20 "frequent-ip-usage" a
        else a
      end
    | None => a
    end
  end.

(** The four tests on the lowercased user agent. *)
Definition isHeadless (ua : string) : bool :=
  includes ua "headless" || includes ua "phantom" || includes ua "selenium"
  || includes ua "chromedriver".
Definition isAutomationTool (ua : string) : bool :=
  includes ua "puppeteer" || includes ua "playwright" || includes ua "webdriver".
Definition isBotAgent (ua : string) : bool :=
  includes ua "bot" || includes ua "crawler" || includes ua "spider".
Definition isOutdated (ua : string) : bool :=
  includes ua "msie" || includes ua "internet explorer".

Definition stepHeadless (s : Session) (a : Acc) : Acc :=
  let ua := toLowerCase (userAgent s) in
  flag_if (isHeadless ua) 60 "headless-browser" a.

Definition stepAutomation (s : Session) (a : Acc) : Acc :=
  let ua := toLowerCase (userAgent s) in
  flag_if (isAutomationTool ua) 55 "automation-tool" a.

Definition stepBotAgent (s : Session) (a : Acc) : Acc :=
  let ua := toLowerCase (userAgent s) in
  flag_if (isBotAgent ua) 40 "bot-user-agent" a.

Definition stepOutdated (s : Session) (a : Acc) : Acc :=
  let ua := toLowerCase (userAgent s) in
  flag_if (isOutdated ua) 10 "outdated-browser" a.

(** Device consistency. *)
Definition stepScreen (s : Session) (a : Acc) : Acc :=
  let screenRes := screenResolution s in
  flag_if (String.eqb screenRes "0x0" || String.eqb screenRes "1x1")
    45 "invalid-screen-resolution" a.

(** Timezone consistency. *)
Definition stepTimezone (s : Session) (a : Acc) : Acc :=
  let timezone := timezone s in
  flag_if (negb (truthy timezone) || String.eqb timezone "UTC")
    10 "suspicious-timezone" a.

(** Language consistency: points, and no label. *)
Definition stepLanguage (s : Session) (a : Acc) : Acc :=
  let language := language s in
  if negb (truthy language) || String.eqb language "en" || String.eqb language "en-US"
  then add 2 a else a.

(** The blocks in source order. *)
Definition steps (ls : LocalStorage) : list (Session -> Acc -> Acc) :=
  [ stepFingerprint; stepIncognito; stepIP; stepPatterns; stepSpeed;
    stepBurst; stepMinimal; stepHistory ls; stepHeadless; stepAutomation;
    stepBotAgent; stepOutdated; stepScreen; stepTimezone; stepLanguage ].

(** Running a list of blocks from the initial values of the locals. *)
Definition runBlocks (l : list (Session -> Acc -> Acc)) (s : Session) : Acc :=
  fold_left (fun a step => step s a) l init.

(** The two locals when control reaches the clamp. *)
Definition scoring (s : Session) (ls : LocalStorage) : Acc :=
  runBlocks (steps ls) s.

(** [Math.max(0, Math.min(100, Math.round(score)))] *)
Definition clampScore (x : number) : Z :=
  Math_max 0 (Math_min 100 (Math_round x)).

Definition levelOf (score : Z) : RiskLevel :=
  if int_ge score 85 then CRITICAL
  else if int_ge score 65 then HIGH
  else if int_ge score 35 then MEDIUM
  else LOW.

(** The returned object: [{ riskScore: score, riskLevel }]. *)
Record RiskResult := mkResult { riskScore : Z; riskLevel : RiskLevel }.

(** The end of the function: clamp, level, return. *)
Definition resultOf (a : Acc) : RiskResult :=
  let score := clampScore (score a) in
  {| riskScore := score; riskLevel := levelOf score |}.

Definition calculateRiskScore (s : Session) (ls : LocalStorage) : RiskResult :=
  resultOf (scoring s ls).

(** ** The calculator, earlier version

    The other [risk-calculator.ts] of the repository: fewer rules, other
    weights and thresholds, no rounding and no factor list. *)

Module Baseline.

Record RiskResult := mkResult { riskScore : number; riskLevel : RiskLevel }.

(** The local [score] when control reaches the clamp. *)
Definition scoring (s : Session) (ls : LocalStorage) : number :=
  let score := 0 in
  let fpConfidence := DeviceFingerprint.confidence (deviceFingerprint s) in
  let score :=
    if num_lt fpConfidence 0.5 then score + 30
    else if num_lt fpConfidence 0.7 then score + 15
    else score in
  let score :=
    if IncognitoDetection.isIncognito (incognitoDetection s)
    then score + 25 else score in
  let score :=
    match ipAnalysis s with
    | Some ipA =>
      let score := score + IPAnalysis.riskScore ipA * 0.3 in
      let score := if IPAnalysis.isVPN ipA then score + 20 else score in
      let score := if IPAnalysis.isTor ipA then score + 40 else score in
      let score := if IPAnalysis.isProxy ipA then score + 15 else score in
      score
    | None => score
    end in
  let behavior := behaviorAnalysis s in
  let score := score + js_length (BehaviorAnalysis.suspiciousPatterns behavior) * 10 in
  let score :=
    if num_gt (BehaviorAnalysis.interactionSpeed behavior) 1000
    then score + 20 else score in
  let score :=
    if num_lt (BehaviorAnalysis.interactionSpeed behavior) 10
       && num_gt (BehaviorAnalysis.timeOnPage behavior) 30000
    then score + 15 else score in
  let score :=
    if num_lt (BehaviorAnalysis.timeOnPage behavior) 5000
       && num_gt (BehaviorAnalysis.mouseMovements behavior
                  + BehaviorAnalysis.keystrokes behavior) 50
    then score + 25 else score in
  let score :=
    match getDeviceCount ls (DeviceFingerprint.visitorId (deviceFingerprint s)) with
    | None => score
    | Some deviceCount =>
      let score := if num_gt deviceCount 5 then score + 10 else score in
      match ipAnalysis s with
      | Some ipA =>
        match getIPCount ls (IPAnalysis.ip ipA) with
        | None => score
        | Some ipCount => if num_gt ipCount 10 then score + 15 else score
        end
      | None => score
      end
    end in
  let ua := toLowerCase (userAgent s) in
  let score :=
    if includes ua "headless" || includes ua "phantom" || includes ua "selenium"
    then score + 50 else score in
  score.

(** [Math.max(0, Math.min(100, score))], on numbers. *)
Definition clampScore (x : number) : number := Qmax 0 (Qmin 100 x).

Definition levelOf (score : number) : RiskLevel :=
  if Qle_bool 80 score then CRITICAL
  else if Qle_bool 60 score then HIGH
  else if Qle_bool 30 score then MEDIUM
  else LOW.

Definition calculateRiskScore (s : Session) (ls : LocalStorage) : RiskResult :=
  let score := clampScore (scoring s ls) in
  {| riskScore := score; riskLevel := levelOf score |}.

End Baseline.

(** ** The calculator on doubles

    The numbers of the code are IEEE doubles.  Besides the finite values,
    which the embedding above takes as exact rationals, a double is [NaN]
    or one of the two infinities, and nothing keeps a session from carrying
    them in its number fields.  This section embeds [calculateRiskScore]
    once more, block by block, with these values.  Finite values are still
    computed exactly.  The counts of the history store are only compared
    with thresholds, and stay the finite numbers of the embedding above. *)

Module IEEE.

Inductive double := Num (q : number) | NaN | PosInfinity | NegInfinity.

(** [x < y] and [x > y]: false as soon as one side is [NaN]. *)
Definition lt (x y : double) : bool :=
  match x, y with
  | Num a, Num b => num_lt a b
  | NaN, _ | _, NaN => false
  | NegInfinity, (Num _ | PosInfinity) => true
  | Num _, PosInfinity => true
  | _, _ => false
  end.
Definition gt (x y : double) : bool := lt y x.

(** [x >= y] *)
Definition ge (x y : double) : bool :=
  match x, y with
  | Num a, Num b => Qle_bool b a
  | NaN, _ | _, NaN => false
  | PosInfinity, _ | _, NegInfinity => true
  | _, _ => false
  end.

(** [x + y] *)
Definition plus (x y : double) : double :=
  match x, y with
  | Num a, Num b => Num (a + b)
  | NaN, _ | _, NaN => NaN
  | PosInfinity, NegInfinity | NegInfinity, PosInfinity => NaN
  | PosInfinity, _ | _, PosInfinity => PosInfinity
  | NegInfinity, _ | _, NegInfinity => NegInfinity
  end.

(** An infinity times a finite number: the sign decides, and zero gives
    [NaN]. *)
Definition scaled (positive : bool) (b : number) : double :=
  match 0 ?= b with
  | Lt => if positive then PosInfinity else NegInfinity
  | Gt => if positive then NegInfinity else PosInfinity
  | Eq => NaN
  end.

(** [x * y] *)
Definition times (x y : double) : double :=
  match x, y with
  | Num a, Num b => Num (a * b)
  | NaN, _ | _, NaN => NaN
  | PosInfinity, Num b | Num b, PosInfinity => scaled true b
  | NegInfinity, Num b | Num b, NegInfinity => scaled false b
  | PosInfinity, PosInfinity | NegInfinity, NegInfinity => PosInfinity
  | PosInfinity, NegInfinity | NegInfinity, PosInfinity => NegInfinity
  end.

(** [Math.round], [Math.min] and [Math.max]: each gives [NaN] on [NaN]. *)
Definition round (x : double) : double :=
  match x with
  | Num q => Num (inject_Z (Math_round q))
  | NaN | PosInfinity | NegInfinity => x
  end.
Definition min (x y : double) : double :=
  match x, y with
  | NaN, _ | _, NaN => NaN
  | _, _ => if lt y x then y else x
  end.
Definition max (x y : double) : double :=
  match x, y with
  | NaN, _ | _, NaN => NaN
  | _, _ => if lt x y then y else x
  end.

(** The data contracts of [types/fingerprint.ts], with doubles for
    numbers. *)
Module DeviceFingerprint.
Record t := mk {
  visitorId : string;
  confidence : double;
  timestamp : double
}.
End DeviceFingerprint.

Module IncognitoDetection.
Record t := mk {
  isIncognito : bool;
  confidence : double;
  method : string
}.
End IncognitoDetection.

Module IPAnalysis.
Record t := mk {
  ip : string;
  country : string;
  region : string;
  city : string;
  isp : string;
  isVPN : bool;
  isTor : bool;
  isProxy : bool;
  riskScore : double;
  threatTypes : list string
}.
End IPAnalysis.

Module BehaviorAnalysis.
Record t := mk {
  mouseMovements : double;
  keystrokes : double;
  scrollEvents : double;
  timeOnPage : double;
  interactionSpeed : double;
  suspiciousPatterns : list string
}.
End BehaviorAnalysis.

Record Session := mkSession {
  id : string;
  deviceFingerprint : DeviceFingerprint.t;
  incognitoDetection : IncognitoDetection.t;
  ipAnalysis : option IPAnalysis.t;
  behaviorAnalysis : BehaviorAnalysis.t;
  timestamp : double;
  userAgent : string;
  screenResolution : string;
  timezone : string;
  language : string
}.

(** The two locals. *)
Record Acc := mkAcc { score : double; riskFactors : list string }.

Definition add (pts : double) (a : Acc) : Acc :=
  mkAcc (plus (score a) pts) (riskFactors a).
Definition push (label : string) (a : Acc) : Acc :=
  mkAcc (score a) (riskFactors a ++ [label]).
Definition flag (pts : number) (label : string) (a : Acc) : Acc :=
  push label (add (Num pts) a).
Definition flag_if (c : bool) (pts : number) (label : string) (a : Acc) : Acc :=
  if c then flag pts label a else a.

Definition init : Acc := mkAcc (Num 0) [].

Definition stepFingerprint (s : Session) (a : Acc) : Acc :=
  let fpConfidence := DeviceFingerprint.confidence (deviceFingerprint s) in
  if lt fpConfidence (Num 0.3) then flag 40 "very-low-fingerprint-confidence" a
  else if lt fpConfidence (Num 0.5) then flag 25 "low-fingerprint-confidence" a
  else if lt fpConfidence (Num 0.7) then flag 10 "medium-fingerprint-confidence" a
  else a.

Definition stepIncognito (s : Session) (a : Acc) : Acc :=
  if IncognitoDetection.isIncognito (incognitoDetection s) then
    let confidence := IncognitoDetection.confidence (incognitoDetection s) in
    if gt confidence (Num 0.8) then flag 35 "confirmed-incognito" a
    else if gt confidence (Num 0.5) then flag 25 "likely-incognito" a
    else flag 15 "possible-incognito" a
  else a.

Definition stepIP (s : Session) (a : Acc) : Acc :=
  match ipAnalysis s with
  | Some ipA =>
    let ipRisk := IPAnalysis.riskScore ipA in
    let a := add (times ipRisk (Num 0.4)) a in
    let a := flag_if (IPAnalysis.isVPN ipA) 30 "vpn-detected" a in
    let a := flag_if (IPAnalysis.isTor ipA) 50 "tor-detected" a in
    let a := flag_if (IPAnalysis.isProxy ipA) 20 "proxy-detected" a in
    let threats := IPAnalysis.threatTypes ipA in
    let a := flag_if (arr_includes threats "hosting-provider") 15 "hosting-provider" a in
    let a := flag_if (arr_includes threats "known-vpn") 25 "known-vpn-service" a in
    let a := flag_if (arr_includes threats "blacklisted") 40 "blacklisted-ip" a in
    let a := flag_if (arr_includes threats "high-risk") 30 "high-risk-ip" a in
    a
  | None => a
  end.

Definition stepPatterns (s : Session) (a : Acc) : Acc :=
  let suspiciousPatterns := BehaviorAnalysis.suspiciousPatterns (behaviorAnalysis s) in
  let a := add (times (Num (js_length suspiciousPatterns)) (Num 12)) a in
  let a := flag_if (arr_includes suspiciousPatterns "inhuman-mouse-speed")
             20 "bot-like-mouse-movement" a in
  let a := flag_if (arr_includes suspiciousPatterns "inhuman-typing-speed")
             25 "bot-like-typing" a in
  let a := flag_if (arr_includes suspiciousPatterns "consistent-keystroke-timing")
             30 "automated-input" a in
  let a := flag_if (arr_includes suspiciousPatterns "straight-mouse-lines")
             15 "scripted-mouse-movement" a in
  a.

Definition stepSpeed (s : Session) (a : Acc) : Acc :=
  let interactionSpeed := BehaviorAnalysis.interactionSpeed (behaviorAnalysis s) in
  if gt interactionSpeed (Num 2000) then flag 25 "superhuman-interaction-speed" a
  else if gt interactionSpeed (Num 1000) then flag 15 "very-fast-interactions" a
  else a.

Definition totalInteractions (b : BehaviorAnalysis.t) : double :=
  plus (plus (BehaviorAnalysis.mouseMovements b) (BehaviorAnalysis.keystrokes b))
    (BehaviorAnalysis.scrollEvents b).

Definition stepBurst (s : Session) (a : Acc) : Acc :=
  let timeOnPage := BehaviorAnalysis.timeOnPage (behaviorAnalysis s) in
  let total := totalInteractions (behaviorAnalysis s) in
  if lt timeOnPage (Num 3000) && gt total (Num 100) then
    flag 35 "rapid-fire-interactions" a
  else if lt timeOnPage (Num 5000) && gt total (Num 50) then
    flag 20 "fast-interaction-burst" a
  else a.

Definition stepMinimal (s : Session) (a : Acc) : Acc :=
  let timeOnPage := BehaviorAnalysis.timeOnPage (behaviorAnalysis s) in
  let total := totalInteractions (behaviorAnalysis s) in
  flag_if (gt timeOnPage (Num 30000) && lt total (Num 5)) 20 "minimal-interaction" a.

Definition stepHistory (ls : LocalStorage) (s : Session) (a : Acc) : Acc :=
  let deviceId := DeviceFingerprint.visitorId (deviceFingerprint s) in
  match getDeviceCount ls deviceId with
  | None => a
  | Some deviceCount =>
    let a :=
      if num_gt deviceCount 20 then flag 25 "frequent-device-reuse" a
      else if num_gt deviceCount 10 then flag 15 "repeated-device-usage" a
      else a in
    match ipAnalysis s with
    | Some ipA =>
      match getIPCount ls (IPAnalysis.ip ipA) with
      | None => a
      | Some ipCount =>
        if num_gt ipCount 50 then flag 30 "ip-abuse-pattern" a
        else if num_gt ipCount 20 then flag 20 "frequent-ip-usage" a
        else a
      end
    | None => a
    end
  end.

Definition stepHeadless (s : Session) (a : Acc) : Acc :=
  let ua := toLowerCase (userAgent s) in
  flag_if (isHeadless ua) 60 "headless-browser" a.

Definition stepAutomation (s : Session) (a : Acc) : Acc :=
  let ua := toLowerCase (userAgent s) in
  flag_if (isAutomationTool ua) 55 "automation-tool" a.

Definition stepBotAgent (s : Session) (a : Acc) : Acc :=
  let ua := toLowerCase (userAgent s) in
  flag_if (isBotAgent ua) 40 "bot-user-agent" a.

Definition stepOutdated (s : Session) (a : Acc) : Acc :=
  let ua := toLowerCase (userAgent s) in
  flag_if (isOutdated ua) 10 "outdated-browser" a.

Definition stepScreen (s : Session) (a : Acc) : Acc :=
  let screenRes := screenResolution s in
  flag_if (String.eqb screenRes "0x0" || String.eqb screenRes "1x1")
    45 "invalid-screen-resolution" a.

Definition stepTimezone (s : Session) (a : Acc) : Acc :=
  let timezone := timezone s in
  flag_if (negb (truthy timezone) || String.eqb timezone "UTC")
    10 "suspicious-timezone" a.

Definition stepLanguage (s : Session) (a : Acc) : Acc :=
  let language := language s in
  if negb (truthy language) || String.eqb language "en" || String.eqb language "en-US"
  then add (Num 2) a else a.

(** The blocks before, and after, the block on the network signal. *)
Definition stepsBeforeIP : list (Session -> Acc -> Acc) :=
  [ stepFingerprint; stepIncognito ].
Definition stepsAfterIP (ls : LocalStorage) : list (Session -> Acc -> Acc) :=
  [ stepPatterns; stepSpeed; stepBurst; stepMinimal; stepHistory ls; stepHeadless;
    stepAutomation; stepBotAgent; stepOutdated; stepScreen; stepTimezone;
    stepLanguage ].

(** The blocks in source order. *)
Definition steps (ls : LocalStorage) : list (Session -> Acc -> Acc) :=
  stepsBeforeIP ++ [ stepIP ] ++ stepsAfterIP ls.

Definition runBlocks (l : list (Session -> Acc -> Acc)) (s : Session) (a : Acc) : Acc :=
  fold_left (fun a step => step s a) l a.

Definition scoring (s : Session) (ls : LocalStorage) : Acc :=
  runBlocks (steps ls) s init.

(** [Math.max(0, Math.min(100, Math.round(score)))] *)
Definition clampScore (x : double) : double :=
  max (Num 0) (min (Num 100) (round x)).

Definition levelOf (score : double) : RiskLevel :=
  if ge score (Num 85) then CRITICAL
  else if ge score (Num 65) then HIGH
  else if ge score (Num 35) then MEDIUM
  else LOW.

(** The returned object; its [riskScore] is a double. *)
Record RiskResult := mkResult { riskScore : double; riskLevel : RiskLevel }.

Definition resultOf (a : Acc) : RiskResult :=
  let score := clampScore (score a) in
  {| riskScore := score; riskLevel := levelOf score |}.

Definition calculateRiskScore (s : Session) (ls : LocalStorage) : RiskResult :=
  resultOf (scoring s ls).



End IEEE.

(** A session of finite numbers, and a result, as doubles. *)
Definition ipAsDoubles (i : IPAnalysis.t) : IEEE.IPAnalysis.t :=
  IEEE.IPAnalysis.mk (IPAnalysis.ip i) (IPAnalysis.country i) (IPAnalysis.region i)
    (IPAnalysis.city i) (IPAnalysis.isp i) (IPAnalysis.isVPN i) (IPAnalysis.isTor i)
    (IPAnalysis.isProxy i) (IEEE.Num (IPAnalysis.riskScore i)) (IPAnalysis.threatTypes i).

Definition behaviorAsDoubles (b : BehaviorAnalysis.t) : IEEE.BehaviorAnalysis.t :=
  IEEE.BehaviorAnalysis.mk
    (IEEE.Num (BehaviorAnalysis.mouseMovements b))
    (IEEE.Num (BehaviorAnalysis.keystrokes b))
    (IEEE.Num (BehaviorAnalysis.scrollEvents b))
    (IEEE.Num (BehaviorAnalysis.timeOnPage b))
    (IEEE.Num (BehaviorAnalysis.interactionSpeed b))
    (BehaviorAnalysis.suspiciousPatterns b).

Definition asDoubles (s : Session) : IEEE.Session :=
  IEEE.mkSession (id s)
    (IEEE.DeviceFingerprint.mk
       (DeviceFingerprint.visitorId (deviceFingerprint s))
       (IEEE.Num (DeviceFingerprint.confidence (deviceFingerprint s)))
       (IEEE.Num (DeviceFingerprint.timestamp (deviceFingerprint s))))
    (IEEE.IncognitoDetection.mk
       (IncognitoDetection.isIncognito (incognitoDetection s))
       (IEEE.Num (IncognitoDetection.confidence (incognitoDetection s)))
       (IncognitoDetection.method (incognitoDetection s)))
    (option_map ipAsDoubles (ipAnalysis s))
    (behaviorAsDoubles (behaviorAnalysis s))
    (IEEE.Num (timestamp s)) (userAgent s) (screenResolution s) (timezone s)
    (language s).

Definition accAsDoubles (a : Acc) : IEEE.Acc :=
  IEEE.mkAcc (IEEE.Num (score a)) (riskFactors a).

Definition resultAsDoubles (r : RiskResult) : IEEE.RiskResult :=
  IEEE.mkResult (IEEE.Num (inject_Z (riskScore r))) (riskLevel r).


(** ** Calling the calculator on an object

    The first statement that touches the privacy signal is
    [session.incognitoDetection.isIncognito]: reading a property of
    [undefined] throws a [TypeError], which nothing in the function
    catches.  [None] is that exception; nothing else in the function can
    throw, the exceptions of the storage helpers being caught. *)

Definition checked (u : UncheckedSession) : option Session :=
  match incognitoDetection u with
  | Some inc =>
    Some (mkSession (id u) (deviceFingerprint u) inc (ipAnalysis u)
            (behaviorAnalysis u) (timestamp u) (userAgent u)
            (screenResolution u) (timezone u) (language u))
  | None => None
  end.

Definition calculateRiskScore_unchecked (u : UncheckedSession) (ls : LocalStorage)
  : option RiskResult :=
  match checked u with
  | Some s => Some (calculateRiskScore s ls)
  | None => None
  end.

(** A session of the declared type, as the object that is passed. *)
Definition asObject (s : Session) : UncheckedSession :=
  mkSession (id s) (deviceFingerprint s) (Some (incognitoDetection s)) (ipAnalysis s)
    (behaviorAnalysis s) (timestamp s) (userAgent s) (screenResolution s)
    (timezone s) (language s).

(** ** Field updates used to state the properties *)

Definition withDevice (d : DeviceFingerprint.t) (s : Session) : Session :=
  mkSession (id s) d (incognitoDetection s) (ipAnalysis s) (behaviorAnalysis s)
    (timestamp s) (userAgent s) (screenResolution s) (timezone s) (language s).

Definition withIP (i : option IPAnalysis.t) (s : Session) : Session :=
  mkSession (id s) (deviceFingerprint s) (incognitoDetection s) i
    (behaviorAnalysis s) (timestamp s) (userAgent s) (screenResolution s)
    (timezone s) (language s).

Definition withBehavior (b : BehaviorAnalysis.t) (s : Session) : Session :=
  mkSession (id s) (deviceFingerprint s) (incognitoDetection s) (ipAnalysis s)
    b (timestamp s) (userAgent s) (screenResolution s) (timezone s) (language s).

Definition withUserAgent (ua : string) (s : Session) : Session :=
  mkSession (id s) (deviceFingerprint s) (incognitoDetection s) (ipAnalysis s)
    (behaviorAnalysis s) (timestamp s) ua (screenResolution s) (timezone s)
    (language s).

(** The network signal with another [riskScore]. *)
Definition setRiskScore (r : number) (i : IPAnalysis.t) : IPAnalysis.t :=
  IPAnalysis.mk (IPAnalysis.ip i) (IPAnalysis.country i) (IPAnalysis.region i)
    (IPAnalysis.city i) (IPAnalysis.isp i) (IPAnalysis.isVPN i)
    (IPAnalysis.isTor i) (IPAnalysis.isProxy i) r (IPAnalysis.threatTypes i).

Definition withReputation (r : number) (s : Session) : Session :=
  withIP (option_map (setRiskScore r) (ipAnalysis s)) s.

(** Clamping a number into [[lo, hi]], and from below. *)
Definition clampTo (lo hi x : number) : number := Qmax lo (Qmin hi x).
Definition atLeast0 (x : number) : number := Qmax 0 x.

(** The device confidence clamped into [[0, 1]]. *)
Definition clampConfidence (s : Session) : Session :=
  let d := deviceFingerprint s in
  withDevice (DeviceFingerprint.mk (DeviceFingerprint.visitorId d)
                (clampTo 0 1 (DeviceFingerprint.confidence d))
                (DeviceFingerprint.timestamp d)) s.

(** The event counts clamped to be non-negative. *)
Definition clampCounts (s : Session) : Session :=
  let b := behaviorAnalysis s in
  withBehavior (BehaviorAnalysis.mk
                  (atLeast0 (BehaviorAnalysis.mouseMovements b))
                  (atLeast0 (BehaviorAnalysis.keystrokes b))
                  (atLeast0 (BehaviorAnalysis.scrollEvents b))
                  (BehaviorAnalysis.timeOnPage b)
                  (BehaviorAnalysis.interactionSpeed b)
                  (BehaviorAnalysis.suspiciousPatterns b)) s.

(** The network [riskScore] clamped into [[0, 100]]. *)
Definition clampReputation (s : Session) : Session :=
  withIP (option_map (fun i => setRiskScore (clampTo 0 100 (IPAnalysis.riskScore i)) i)
            (ipAnalysis s)) s.

(** All declared ranges at once. *)
Definition clampSignals (s : Session) : Session :=
  clampReputation (clampCounts (clampConfidence s)).

(** ** Notions used to state the properties *)

(** A transformer is [additive] when what it adds to [score] and what it
    appends to [riskFactors] do not depend on the values the locals had. *)

Definition additive (f : Acc -> Acc) : Prop :=
  forall a, score (f a) == score a + score (f init)
            /\ riskFactors (f a) = riskFactors a ++ riskFactors (f init).

(** What a block adds, and what it appends, on a given session. *)
Definition pointsOf (step : Session -> Acc -> Acc) (s : Session) : number :=
  score (step s init).
Definition labelsOf (step : Session -> Acc -> Acc) (s : Session) : list string :=
  riskFactors (step s init).

Definition Qsum (l : list number) : number := fold_right Qplus 0 l.

(** The labelled additions of the source, block by block and in source
    order: each label with the points added in the same breath. *)
Definition factorCatalog : list (list (string * number)) :=
  [ [ ("very-low-fingerprint-confidence", 40); ("low-fingerprint-confidence", 25);
      ("medium-fingerprint-confidence", 10) ];
    [ ("confirmed-incognito", 35); ("likely-incognito", 25);
      ("possible-incognito", 15) ];
    [ ("vpn-detected", 30); ("tor-detected", 50); ("proxy-detected", 20);
      ("hosting-provider", 15); ("known-vpn-service", 25); ("blacklisted-ip", 40);
      ("high-risk-ip", 30) ];
    [ ("bot-like-mouse-movement", 20); ("bot-like-typing", 25);
      ("automated-input", 30); ("scripted-mouse-movement", 15) ];
    [ ("superhuman-interaction-speed", 25); ("very-fast-interactions", 15) ];
    [ ("rapid-fire-interactions", 35); ("fast-interaction-burst", 20) ];
    [ ("minimal-interaction", 20) ];
    [ ("frequent-device-reuse", 25); ("repeated-device-usage", 15);
      ("ip-abuse-pattern", 30); ("frequent-ip-usage", 20) ];
    [ ("headless-browser", 60) ];
    [ ("automation-tool", 55) ];
    [ ("bot-user-agent", 40) ];
    [ ("outdated-browser", 10) ];
    [ ("invalid-screen-resolution", 45) ];
    [ ("suspicious-timezone", 10) ];
    [ ] ].

(** The labels of one block, and all labels in source order. *)
Definition blockLabels (b : list (string * number)) : list string := map fst b.
Definition factorLabels : list string := concat (map blockLabels factorCatalog).

(** The points that go with a label. *)
Definition labelPoints (l : string) : number :=
  match find (fun e => String.eqb (fst e) l) (concat factorCatalog) with
  | Some e => snd e
  | None => 0
  end.

(** The three additions of the source that push no label: the scaled
    network risk, twelve points per suspicious pattern, and two points for
    a default language. *)
Definition unlabelledPoints (s : Session) : number :=
  match ipAnalysis s with
  | Some ipA => IPAnalysis.riskScore ipA * 0.4
  | None => 0
  end
  + js_length (BehaviorAnalysis.suspiciousPatterns (behaviorAnalysis s)) * 12
  + (if negb (truthy (language s)) || String.eqb (language s) "en"
        || String.eqb (language s) "en-US"
     then 2 else 0).

(** A transformer is [accounted] by the labels [b] and the points [u] when
    it is additive, appends a sub-sequence of [b], and adds the points of
    the labels it appends plus [u]. *)
Definition accounted (f : Acc -> Acc) (b : list string) (u : number) : Prop :=
  additive f
  /\ sublist (riskFactors (f init)) b
  /\ score (f init) == u + Qsum (map labelPoints (riskFactors (f init))).

(** The blocks of the calculator, without the block on the privacy
    signal and/or without the block on the network signal. *)
Definition stepsWithout (privacy network : bool) (ls : LocalStorage)
  : list (Session -> Acc -> Acc) :=
  [ stepFingerprint ]
  ++ (if privacy then [] else [ stepIncognito ])
  ++ (if network then [] else [ stepIP ])
  ++ [ stepPatterns; stepSpeed; stepBurst; stepMinimal; stepHistory ls;
       stepHeadless; stepAutomation; stepBotAgent; stepOutdated; stepScreen;
       stepTimezone; stepLanguage ].

(** No test of either version of the calculator succeeds, and no
    suspicious pattern is listed (each one weighs 12 points in one version
    and 10 in the other, whatever its name). *)
Definition noRuleFires (s : Session) (ls : LocalStorage) : bool :=
  let b := behaviorAnalysis s in
  let ua := toLowerCase (userAgent s) in
  negb (num_lt (DeviceFingerprint.confidence (deviceFingerprint s)) 0.7)
  && negb (IncognitoDetection.isIncognito (incognitoDetection s))
  && match ipAnalysis s with None => true | Some _ => false end
  && match BehaviorAnalysis.suspiciousPatterns b with [] => true | _ => false end
  && negb (num_gt (BehaviorAnalysis.interactionSpeed b) 1000)
  && negb (num_lt (BehaviorAnalysis.interactionSpeed b) 10
           && num_gt (BehaviorAnalysis.timeOnPage b) 30000)
  && negb (num_lt (BehaviorAnalysis.timeOnPage b) 5000
           && num_gt (totalInteractions b) 50)
  && negb (num_lt (BehaviorAnalysis.timeOnPage b) 5000
           && num_gt (BehaviorAnalysis.mouseMovements b
                      + BehaviorAnalysis.keystrokes b) 50)
  && negb (num_gt (BehaviorAnalysis.timeOnPage b) 30000
           && num_lt (totalInteractions b) 5)
  && match getDeviceCount ls (DeviceFingerprint.visitorId (deviceFingerprint s)) with
     | Some deviceCount => negb (num_gt deviceCount 5)
     | None => true
     end
  && negb (isHeadless ua) && negb (isAutomationTool ua)
  && negb (isBotAgent ua) && negb (isOutdated ua)
  && negb (String.eqb (screenResolution s) "0x0"
           || String.eqb (screenResolution s) "1x1")
  && negb (negb (truthy (timezone s)) || String.eqb (timezone s) "UTC")
  && negb (negb (truthy (language s)) || String.eqb (language s) "en"
           || String.eqb (language s) "en-US").

(** The user agent, the screen, the timezone and the language trigger
    nothing in the current version. *)
Definition plainEnvironment (s : Session) : bool :=
  let ua := toLowerCase (userAgent s) in
  negb (isHeadless ua) && negb (isAutomationTool ua)
  && negb (isBotAgent ua) && negb (isOutdated ua)
  && negb (String.eqb (screenResolution s) "0x0"
           || String.eqb (screenResolution s) "1x1")
  && negb (negb (truthy (timezone s)) || String.eqb (timezone s) "UTC")
  && negb (negb (truthy (language s)) || String.eqb (language s) "en"
           || String.eqb (language s) "en-US").

(** The points of the flags and threat types of a network signal. *)
Definition networkFlagPoints (i : IPAnalysis.t) : number :=
  (if IPAnalysis.isVPN i then 30 else 0)
  + (if IPAnalysis.isTor i then 50 else 0)
  + (if IPAnalysis.isProxy i then 20 else 0)
  + (if arr_includes (IPAnalysis.threatTypes i) "hosting-provider" then 15 else 0)
  + (if arr_includes (IPAnalysis.threatTypes i) "known-vpn" then 25 else 0)
  + (if arr_includes (IPAnalysis.threatTypes i) "blacklisted" then 40 else 0)
  + (if arr_includes (IPAnalysis.threatTypes i) "high-risk" then 30 else 0).

(** The order of the levels. *)
Definition levelRank (l : RiskLevel) : nat :=
  match l with LOW => 0 | MEDIUM => 1 | HIGH => 2 | CRITICAL => 3 end.

(** ** Sample sessions and stores *)

Module Sample.

Definition device (c : number) : DeviceFingerprint.t :=
  DeviceFingerprint.mk "7f3a9c" c 0.

(** What the caller substitutes when the incognito producer fails. *)
Definition noIncognito : IncognitoDetection.t :=
  IncognitoDetection.mk false 0 "error".

(** Ten interactions in one minute. *)
Definition calm : BehaviorAnalysis.t :=
  BehaviorAnalysis.mk 6 4 0 60000 10 [].

Definition firefox : string :=
  "Mozilla/5.0 (X11; Linux x86_64; rv:120.0) Gecko/20100101 Firefox/120.0".

(** Device confidence 0.2 and nothing else that is suspicious. *)
Definition lowConfidence : Session :=
  mkSession "k2j9x" (device 0.2) noIncognito None calm 0
    firefox "1920x1080" "Europe/Paris" "fr-FR".

(** A headless browser that announces nothing else. *)
Definition headlessChrome : string :=
  "Mozilla/5.0 (X11; Linux x86_64) AppleWebKit/537.36 (KHTML, like Gecko) HeadlessChrome/120.0.0.0 Safari/537.36".

(** An address with the given risk score and no flag. *)
Definition address (r : number) : IPAnalysis.t :=
  IPAnalysis.mk "203.0.113.7" "Unknown" "Unknown" "Unknown" "Unknown"
    false false false r [].

(** The same visitor with a browser set to US English. *)
Definition lowConfidenceEnUS : Session :=
  mkSession "k2j9x" (device 0.2) noIncognito None calm 0
    firefox "1920x1080" "Europe/Paris" "en-US".

(** A headless browser that also announces a crawler. *)
Definition headlessGooglebot : string :=
  "Mozilla/5.0 (compatible; Googlebot/2.1) HeadlessChrome/120.0.0.0 Safari/537.36".

(** High device confidence, and event counts of -100, 200 and 0 in two
    seconds. *)
Definition negativeCounts : Session :=
  mkSession "m4t7z" (device 0.9) noIncognito None
    (BehaviorAnalysis.mk (-100) 200 0 2000 10 []) 0
    firefox "1920x1080" "Europe/Paris" "fr-FR".


(** High device confidence, an address on a blacklist. *)
Definition blacklisted : Session :=
  mkSession "p8w3q" (device 0.9) noIncognito
    (Some (IPAnalysis.mk "203.0.113.7" "Unknown" "Unknown" "Unknown" "Unknown"
             false false false 0 ["blacklisted"]))
    calm 0 firefox "1920x1080" "Europe/Paris" "fr-FR".

(** Low device confidence, and a network risk score of 150. *)
Definition wildReputation : Session :=
  mkSession "k2j9x" (device 0.2) noIncognito
    (Some (IPAnalysis.mk "203.0.113.7" "Unknown" "Unknown" "Unknown" "Unknown"
             false false false 150 []))
    calm 0 firefox "1920x1080" "Europe/Paris" "fr-FR".

(** A store that has seen another device, and this address twice. *)
Definition seenOthers : LocalStorage :=
  Item {| deviceHistory := Some {[ "c41d22" := 30 ]};
          ipHistory := Some {[ "203.0.113.7" := 2 ]} |}.

(** A store that has seen this address twice. *)
Definition seenAddress : LocalStorage :=
  Item {| deviceHistory := Some ∅;
          ipHistory := Some {[ "203.0.113.7" := 2 ]} |}.

(** A store that has seen the device eleven times. *)
Definition seenEleven : LocalStorage :=
  Item {| deviceHistory := Some {[ "7f3a9c" := 11 ]}; ipHistory := Some ∅ |}.

End Sample.

(** * The rest of the demo

    The storage helpers that write, the recommendations, the producers of
    the privacy, network and behavior signals, and the caller that puts a
    session together. *)

(** ** The history store, written ([utils/storage.client.ts]) *)

(** A stored session: [{ ...sessionData, riskScore, riskLevel }]. *)
Module FingerprintSession.
Record t := mk {
  data : Session;
  riskScore : number;
  riskLevel : RiskLevel
}.
End FingerprintSession.

Module Storage.

(** The names of the properties that every object inherits from
    [Object.prototype]. *)
Definition objectPrototypeNames : list string :=
  [ "constructor"; "hasOwnProperty"; "isPrototypeOf"; "propertyIsEnumerable";
    "toLocaleString"; "toString"; "valueOf"; "__defineGetter__";
    "__defineSetter__"; "__lookupGetter__"; "__lookupSetter__"; "__proto__" ].

Definition inherited (key : string) : bool :=
  arr_includes objectPrototypeNames key.

(** A property of a history object: a number, as [Record<string, number>]
    declares it, or a text that is no numeral, which is what the code
    itself writes under an inherited name (see [bump]). *)
Inductive Entry := Count (n : number) | Text.

Abbreviation History := (gmap string Entry).

(** What [JSON.parse] gives back for the item, property by property.  The
    item is of the declared type [StoredFingerprints], except that a
    property may be missing (or [null]), which is [None], and that a
    history may hold the texts just mentioned.  Items of another shape (a
    history that is an array or a primitive, a count that is a numeral in
    quotes, or a numeral too large for a double, which parses to an
    infinity) are outside the model.  On the items of the model
    [JSON.stringify] followed by [JSON.parse] gives the value back. *)
Record Parsed := mkParsed {
  sessions : option (list FingerprintSession.t);
  deviceHistory : option History;
  ipHistory : option History;
  lastUpdated : option number
}.

(** The counts of a history that are numbers. *)
Definition numbers (h : History) : gmap string number :=
  omap (fun e => match e with Count n => Some n | Text => None end) h.

(** The states of [localStorage] as far as the demo's key goes. *)
Inductive State :=
| Unavailable                 (* every access throws *)
| Empty                       (* nothing under the key *)
| Corrupt                     (* the item does not parse *)
| Holding (v : Parsed).       (* the item parses to [v] *)

(** What the calculator's reads see of a state: the counts that are
    numbers.  A text, like an inherited function, compares false in every
    test of the calculator. *)
Definition view (st : State) : LocalStorage :=
  match st with
  | Unavailable => GetItemThrows
  | Empty => NoItem
  | Corrupt => BadJson
  | Holding v =>
    Item (mkStored (option_map numbers (deviceHistory v))
            (option_map numbers (ipHistory v)))
  end.

(** [getStoredFingerprints], with all the properties of its result;
    [now] is [Date.now()]. *)
Definition getStoredFingerprints (now : number) (st : State) : Parsed :=
  match st with
  | Holding v => v
  | Unavailable | Empty | Corrupt =>
    {| sessions := Some []; deviceHistory := Some ∅; ipHistory := Some ∅;
       lastUpdated := Some now |}
  end.

(** [h[key]]: the object's own property, else the inherited one, else
    [undefined]. *)
Inductive Value := VNumber (n : number) | VText | VInherited | VUndefined.

Definition get (h : History) (key : string) : Value :=
  match h !! key with
  | Some (Count n) => VNumber n
  | Some Text => VText
  | None => if inherited key then VInherited else VUndefined
  end.

(** [(v || 0) + 1].  The only number that is falsy is 0.  A text and an
    inherited property (a function, or the prototype itself) are truthy,
    and [+] then makes a text: this text followed by [1]. *)
Definition orZeroPlusOne (v : Value) : Entry :=
  match v with
  | VNumber n => Count (n + 1)
  | VUndefined => Count (0 + 1)
  | VText | VInherited => Text
  end.

(** [h[key] = (h[key] || 0) + 1].  Under the name [__proto__], when the
    object has no property of its own of that name, the assignment calls
    the inherited setter, which ignores a text. *)
Definition bump (key : string) (h : History) : History :=
  match h !! key with
  | None =>
    if String.eqb key "__proto__" then h
    else <[ key := orZeroPlusOne (get h key) ]> h
  | Some _ => <[ key := orZeroPlusOne (get h key) ]> h
  end.

(** [localStorage.setItem(STORAGE_KEY, JSON.stringify(v))]: it throws when
    the storage is not accessible, and when the item does not fit the quota
    ([fits] is [false]); [None] is that exception. *)
Definition setItem (fits : bool) (v : Parsed) (st : State) : option State :=
  match st with
  | Unavailable => None
  | Empty | Corrupt | Holding _ => if fits then Some (Holding v) else None
  end.

(** [saveFingerprint].  Every exception inside the [try] is caught (and
    logged), and leaves the storage as it was: reading a property of a
    missing [sessions], [deviceHistory] or [ipHistory], and [setItem]
    itself. *)
Definition saveFingerprint (fits : bool) (now : number)
    (session : FingerprintSession.t) (st : State) : State :=
  let stored := getStoredFingerprints now st in
  match sessions stored with
  | None => st
  | Some l =>
    let l := session :: l in
    let l := if (50 <? length l)%nat then take 50 l else l in
    match deviceHistory stored with
    | None => st
    | Some dh =>
      let deviceId :=
        DeviceFingerprint.visitorId (deviceFingerprint (FingerprintSession.data session)) in
      let dh := bump deviceId dh in
      let written (ih : option History) : State :=
        let stored :=
          {| sessions := Some l; deviceHistory := Some dh; ipHistory := ih;
             lastUpdated := Some now |} in
        match setItem fits stored st with
        | Some st' => st'
        | None => st
        end in
      match ipAnalysis (FingerprintSession.data session) with
      | Some ipA =>
        match ipHistory stored with
        | None => st
        | Some ih => written (Some (bump (IPAnalysis.ip ipA) ih))
        end
      | None => written (ipHistory stored)
      end
    end
  end.

(** [clearStoredFingerprints]: [removeItem], whose exception is caught. *)
Definition clearStoredFingerprints (st : State) : State :=
  match st with
  | Unavailable => Unavailable
  | Empty | Corrupt | Holding _ => Empty
  end.

(** The sessions that the history tab lists: [getStoredFingerprints().sessions]. *)
Definition storedSessions (now : number) (st : State) : option (list FingerprintSession.t) :=
  sessions (getStoredFingerprints now st).

(** A whole number [c] with [c + room] at most 2^53: up to there the
    doubles of the code count exactly. *)
Definition wholeWithRoom (c : number) (room : nat) : bool :=
  Qeq_bool c (inject_Z (Qfloor c)) && (0 <=? Qfloor c)%Z
  && (Qfloor c + Z.of_nat room <=? 2 ^ 53)%Z.

(** [key] is counted in the history [h]: it is no inherited name, and [h]
    holds no text under it. *)
Definition counted (h : option History) (key : string) : bool :=
  negb (inherited key)
  && match h with
     | Some m => match m !! key with Some Text => false | _ => true end
     | None => true
     end.

(** [key] is not counted in the history [h]: it is an inherited name, and
    [h] holds no number under it. *)
Definition uncounted (h : option History) (key : string) : bool :=
  inherited key
  && match h with
     | Some m => match m !! key with Some (Count _) => false | _ => true end
     | None => true
     end.

(** [key] can be counted [room] more times in the history [h]: it is
    counted, and what [h] holds under it, if anything, is a whole number
    with that room. *)
Definition countable (h : option History) (key : string) (room : nat) : bool :=
  counted h key
  && match h with
     | Some m =>
       match m !! key with
       | Some (Count n) => wholeWithRoom n room
       | _ => true
       end
     | None => true
     end.

(** The store can take a session: it is accessible, and what it holds has
    the three properties that [saveFingerprint] touches. *)
Definition usable (st : State) : bool :=
  match st with
  | Unavailable => false
  | Empty | Corrupt => true
  | Holding v =>
    match sessions v, deviceHistory v, ipHistory v with
    | Some _, Some _, Some _ => true
    | _, _, _ => false
    end
  end.

End Storage.

(** A run of saves, oldest first: for each, whether the item fits, the
    time, and the session. *)
Definition saveAll (saves : list (bool * number * FingerprintSession.t))
    (st : Storage.State) : Storage.State :=
  fold_left (fun st '(fits, now, session) => Storage.saveFingerprint fits now session st)
    saves st.

(** The device identifier and the address of a stored session. *)
Definition deviceOf (session : FingerprintSession.t) : string :=
  DeviceFingerprint.visitorId (deviceFingerprint (FingerprintSession.data session)).
Definition addressOf (session : FingerprintSession.t) : option string :=
  option_map IPAnalysis.ip (ipAnalysis (FingerprintSession.data session)).

(** How many sessions of a list come from a device, resp. an address. *)
Definition visitsOfDevice (d : string) (l : list FingerprintSession.t) : nat :=
  length (List.filter (fun session => String.eqb (deviceOf session) d) l).
Definition visitsOfAddress (a : string) (l : list FingerprintSession.t) : nat :=
  length (List.filter (fun session =>
                    match addressOf session with
                    | Some a' => String.eqb a' a
                    | None => false
                    end) l).

(** The sessions of a run that were written: those whose item fitted. *)
Definition writtenOf (saves : list (bool * number * FingerprintSession.t))
  : list FingerprintSession.t :=
  map snd (List.filter (fun e => fst (fst e)) saves).

(** The points of the device ladder and of the address ladder of the
    history block, by count. *)
Definition devicePenalty (count : number) : number :=
  if num_gt count 20 then 25 else if num_gt count 10 then 15 else 0.
Definition addressPenalty (count : number) : number :=
  if num_gt count 50 then 30 else if num_gt count 20 then 20 else 0.

(** A natural number as a [number]. *)
Definition ofNat (n : nat) : number := inject_Z (Z.of_nat n).

(** The visits that the history counts for an identifier. *)
Definition countedVisits (key : string) (visits : nat) : nat :=
  if Storage.inherited key then 0%nat else visits.

(** The stored sessions number at most fifty. *)
Definition bounded (st : Storage.State) : Prop :=
  forall now l, Storage.storedSessions now st = Some l -> (length l <= 50)%nat.

(** One read of a counter is at most another: both throw, or both give a
    count and the first is at most the second. *)
Definition countLe (o o' : option number) : Prop :=
  match o, o' with
  | Some c, Some c' => c <= c'
  | None, None => True
  | _, _ => False
  end.

(** ** The recommendations ([getRiskRecommendations], [utils/risk-calculator.ts])

    The level is passed as a string; the strings below are the bytes of the
    source file. *)

Definition levelName (l : RiskLevel) : string :=
  match l with
  | LOW => "LOW"
  | MEDIUM => "MEDIUM"
  | HIGH => "HIGH"
  | CRITICAL => "CRITICAL"
  end.

(** The [switch] compares with [===]; a string that matches no [case]
    leaves the list empty.  The second parameter is not read. *)
Definition getRiskRecommendations (riskLevel : string) (riskScore : number)
  : list string :=
  if String.eqb riskLevel "CRITICAL" then
    [ "ğŸš« Block access immediately";
      "ğŸ”’ Require phone verification";
      "ğŸ“§ Send security alert to admins";
      "ğŸ• Implement temporary IP ban" ]
  else if String.eqb riskLevel "HIGH" then
    [ "âš ï¸ Require additional verification";
      "ğŸ“± Request SMS verification";
      "ğŸ” Enable enhanced monitoring";
      "â±ï¸ Rate limit API requests" ]
  else if String.eqb riskLevel "MEDIUM" then
    [ "ğŸ‘€ Monitor user behavior closely";
      "ğŸ“Š Track usage patterns";
      "ğŸ”” Set up alerts for unusual activity";
      "â³ Implement soft rate limiting" ]
  else if String.eqb riskLevel "LOW" then
    [ "âœ… Allow normal access";
      "ğŸ“ˆ Continue standard monitoring" ]
  else [].

(** ** The caller's display helpers ([getRiskColor], [getProtectionAction],
    [components/FingerprintDemo.tsx]) *)

Definition getRiskColor (riskLevel : string) : string :=
  if String.eqb riskLevel "LOW" then "text-green-600 bg-green-100"
  else if String.eqb riskLevel "MEDIUM" then "text-yellow-600 bg-yellow-100"
  else if String.eqb riskLevel "HIGH" then "text-orange-600 bg-orange-100"
  else if String.eqb riskLevel "CRITICAL" then "text-red-600 bg-red-100"
  else "text-gray-600 bg-gray-100".

Definition getProtectionAction (riskLevel : string) : string :=
  if String.eqb riskLevel "CRITICAL" then "🚫 BLOCK ACCESS"
  else if String.eqb riskLevel "HIGH" then "⚠️ REQUIRE VERIFICATION"
  else if String.eqb riskLevel "MEDIUM" then "👀 MONITOR CLOSELY"
  else if String.eqb riskLevel "LOW" then "✅ ALLOW ACCESS"
  else "❓ UNKNOWN".

(** ** The privacy signal ([detectIncognito], [utils/incognito.client.ts])

    Each test looks at one browser facility and settles with a verdict;
    what the facility does is the input of the model.  [details] is left
    out, as in [IncognitoDetection]. *)

Module Incognito.

Record TestResult := mkTest { isIncognito : bool; method : string }.

(** [navigator.storage.estimate()]: it throws, or gives an estimate whose
    [quota] may be missing. *)
Inductive QuotaAPI := EstimateThrows | Estimate (quota : option number).

(** [webkitRequestFileSystem]: missing, or it calls back with success or
    with an error, or calling it throws (the promise is then rejected). *)
Inductive FileSystemAPI := FsMissing | FsGranted | FsDenied | FsThrows.

(** [indexedDB.open]: it throws, or the request fails, or it succeeds. *)
Inductive IndexedDBAPI := DbThrows | DbError | DbSuccess.

(** [localStorage.setItem] and [removeItem] work, or one of them throws. *)
Inductive LocalStorageAPI := LsWorks | LsThrows.

(** [RTCPeerConnection]: building the connection or the channel throws, or
    [createOffer] resolves, or it rejects. *)
Inductive WebRTCAPI := RtcThrows | RtcOffer | RtcNoOffer.

(** [navigator.getBattery?.()]: it gives a battery, or nothing (also when
    the method is missing), or it throws. *)
Inductive BatteryAPI := BatteryPresent | BatteryAbsent | BatteryThrows.

(** [navigator.permissions.query]: it resolves, or it throws. *)
Inductive PermissionsAPI := PermissionsResolve | PermissionsThrow.

Record Browser := mkBrowser {
  quotaAPI : QuotaAPI;
  fileSystemAPI : FileSystemAPI;
  indexedDBAPI : IndexedDBAPI;
  localStorageAPI : LocalStorageAPI;
  webRTCAPI : WebRTCAPI;
  batteryAPI : BatteryAPI;
  permissionsAPI : PermissionsAPI
}.

(** The tests; [None] is a rejected promise. *)
Definition testQuotaAPI (b : Browser) : option TestResult :=
  match quotaAPI b with
  | Estimate q =>
    let quota := default 0 q in
    Some (mkTest (num_lt quota 120000000) "quota-api")
  | EstimateThrows => Some (mkTest false "quota-api")
  end.

Definition testRequestFileSystem (b : Browser) : option TestResult :=
  match fileSystemAPI b with
  | FsMissing => Some (mkTest false "filesystem-api")
  | FsGranted => Some (mkTest false "filesystem-api")
  | FsDenied => Some (mkTest true "filesystem-api")
  | FsThrows => None
  end.

Definition testIndexedDB (b : Browser) : option TestResult :=
  match indexedDBAPI b with
  | DbError => Some (mkTest true "indexeddb")
  | DbSuccess => Some (mkTest false "indexeddb")
  | DbThrows => Some (mkTest true "indexeddb")
  end.

Definition testLocalStorage (b : Browser) : option TestResult :=
  match localStorageAPI b with
  | LsWorks => Some (mkTest false "localstorage")
  | LsThrows => Some (mkTest true "localstorage")
  end.

Definition testWebRTC (b : Browser) : option TestResult :=
  match webRTCAPI b with
  | RtcOffer => Some (mkTest false "webrtc")
  | RtcNoOffer => Some (mkTest true "webrtc")
  | RtcThrows => Some (mkTest false "webrtc")
  end.

Definition testBatteryAPI (b : Browser) : option TestResult :=
  match batteryAPI b with
  | BatteryPresent => Some (mkTest false "battery-api")
  | BatteryAbsent => Some (mkTest true "battery-api")
  | BatteryThrows => Some (mkTest true "battery-api")
  end.

Definition testPermissions (b : Browser) : option TestResult :=
  match permissionsAPI b with
  | PermissionsResolve => Some (mkTest false "permissions")
  | PermissionsThrow => Some (mkTest false "permissions")
  end.

Definition tests : list (Browser -> option TestResult) :=
  [ testQuotaAPI; testRequestFileSystem; testIndexedDB; testLocalStorage;
    testWebRTC; testBatteryAPI; testPermissions ].

(** The part of [detectIncognito] that follows [Promise.allSettled]:
    [results] holds the value of each fulfilled promise. *)
Definition summarize (results : list (option TestResult)) : IncognitoDetection.t :=
  let validResults := omap (fun r => r) results in
  let incognitoCount := length (List.filter isIncognito validResults) in
  let totalTests := length validResults in
  let confidence :=
    if (0 <? totalTests)%nat
    then inject_Z (Z.of_nat incognitoCount) / inject_Z (Z.of_nat totalTests)
    else 0 in
  IncognitoDetection.mk (num_gt confidence 0.5) confidence "multi-test".

Definition detectIncognito (b : Browser) : IncognitoDetection.t :=
  summarize (map (fun test => test b) tests).

(** The numbers of tests that settled, and of those that said incognito. *)
Definition settled (results : list (option TestResult)) : nat :=
  length (omap (fun r => r) results).
Definition positive (results : list (option TestResult)) : nat :=
  length (List.filter isIncognito (omap (fun r => r) results)).

End Incognito.

(** Every test other than the permissions test that settled says
    incognito. *)
Definition allOthersPositive (b : Incognito.Browser) : bool :=
  forallb (fun test : Incognito.Browser -> option Incognito.TestResult =>
             match test b with
             | Some r => Incognito.isIncognito r
             | None => true
             end)
    [ Incognito.testQuotaAPI; Incognito.testRequestFileSystem;
      Incognito.testIndexedDB; Incognito.testLocalStorage;
      Incognito.testWebRTC; Incognito.testBatteryAPI ].

(** A session with another privacy signal. *)
Definition withIncognito (d : IncognitoDetection.t) (s : Session) : Session :=
  mkSession (id s) (deviceFingerprint s) d (ipAnalysis s) (behaviorAnalysis s)
    (timestamp s) (userAgent s) (screenResolution s) (timezone s) (language s).

(** ** The network signal ([utils/ip-analysis.client.ts])

    The checks that only look at the address, the way the verdicts of the
    services are combined, and the way [analyzeIP] puts the signal
    together.  The answers of the remote services are inputs. *)

Module IPCheck.

(** What every check returns. *)
Record Verdict := mkVerdict {
  isVPN : bool;
  isTor : bool;
  isProxy : bool;
  riskScore : number;
  threatTypes : list string
}.

Definition clean : Verdict := mkVerdict false false false 0 [].

(** [/^p/.test(ip)] for a literal [p]. *)
Definition startsWith (p ip : string) : bool := String.prefix p ip.

(** [/^172\.(1[6-9]|2[0-9]|3[0-1])\./.test(ip)] *)
Definition between (lo hi c : ascii) : bool :=
  (nat_of_ascii lo <=? nat_of_ascii c)%nat && (nat_of_ascii c <=? nat_of_ascii hi)%nat.

Definition startsWith172Private (ip : string) : bool :=
  match ip with
  | String "1" (String "7" (String "2" (String "." (String a (String b (String "." _)))))) =>
    (Ascii.eqb a "1" && between "6" "9" b)
    || (Ascii.eqb a "2" && between "0" "9" b)
    || (Ascii.eqb a "3" && between "0" "1" b)
  | _ => false
  end.

Definition isKnownBadIP (ip : string) : bool :=
  startsWith "0." ip || startsWith "255." ip || startsWith "224." ip.

Definition checkDNSBlacklists (ip : string) : Verdict :=
  if isKnownBadIP ip
  then mkVerdict false false false 90 ["blacklisted"]
  else mkVerdict false false false 0 [].

Definition checkKnownVPNRanges (ip : string) : Verdict :=
  let isKnownVPN :=
    startsWith "185.159." ip || startsWith "103.231." ip || startsWith "146.70." ip
    || startsWith "89.187." ip || startsWith "195.181." ip in
  mkVerdict isKnownVPN false false (if isKnownVPN then 75 else 0)
    (if isKnownVPN then ["known-vpn"] else []).

Definition checkHostingProviders (ip : string) : Verdict :=
  let isHosting :=
    startsWith "54." ip || startsWith "34." ip || startsWith "40." ip
    || startsWith "167.172." ip || startsWith "159.89." ip
    || startsWith "138.197." ip in
  mkVerdict false false false (if isHosting then 30 else 0)
    (if isHosting then ["hosting-provider"] else []).

Definition checkReputationDatabases (ip : string) : Verdict :=
  let isSuspicious :=
    startsWith "10." ip || startsWith172Private ip || startsWith "192.168." ip
    || startsWith "169.254." ip || startsWith "127." ip in
  mkVerdict false false isSuspicious (if isSuspicious then 50 else 0)
    (if isSuspicious then ["private-ip"; "suspicious"] else []).

(** [[...new Set(l)]]: the first occurrence of each string, in order. *)
Fixpoint dedupFrom (seen l : list string) : list string :=
  match l with
  | [] => []
  | x :: l' =>
    if arr_includes seen x then dedupFrom seen l'
    else x :: dedupFrom (x :: seen) l'
  end.
Definition dedup (l : list string) : list string := dedupFrom [] l.

(** [Math.max(...l)] on a list that is not empty. *)
Definition maxOf (x : number) (l : list number) : number := fold_left Qmax l x.

(** [performAdditionalSecurityChecks]: none of the four checks can fail, so
    all four promises are fulfilled. *)
Definition performAdditionalSecurityChecks (ip : string) : Verdict :=
  let results :=
    [ checkDNSBlacklists ip; checkKnownVPNRanges ip; checkHostingProviders ip;
      checkReputationDatabases ip ] in
  let threatTypes := flat_map threatTypes results in
  let isVPN := existsb isVPN results in
  let isTor := existsb isTor results in
  let isProxy := existsb isProxy results in
  let maxRisk :=
    match map riskScore results with
    | r :: rs => maxOf r rs
    | [] => 0
    end in
  mkVerdict isVPN isTor isProxy maxRisk (dedup threatTypes).

(** [checkVPNStatus] after [Promise.allSettled]: [validResults] are the
    verdicts of the services that answered, [heuristics] is the verdict of
    [checkVPNHeuristics], used when no service answered. *)
Definition combineServices (validResults : list Verdict) (heuristics : Verdict)
  : Verdict :=
  match validResults with
  | [] => heuristics
  | _ :: _ =>
    let isVPN := existsb isVPN validResults in
    let isTor := existsb isTor validResults in
    let isProxy := existsb isProxy validResults in
    let avgRisk :=
      fold_left (fun sum r => sum + riskScore r) validResults 0
      / js_length validResults in
    let allThreats := flat_map threatTypes validResults in
    mkVerdict isVPN isTor isProxy (inject_Z (Math_round avgRisk)) (dedup allThreats)
  end.

(** What [getGeoLocation] returns, as far as it is read: a property that is
    missing is [None]. *)
Record Geo := mkGeo {
  country : option string;
  region : option string;
  city : option string;
  isp : option string;
  isHosting : bool
}.

(** [if (c) score += k] *)
Definition plusIf (c : bool) (k score : number) : number :=
  if c then score + k else score.

(** [d?.f], taken as a condition, and [d?.riskScore || 0]. *)
Definition flagOf (f : Verdict -> bool) (d : option Verdict) : bool :=
  match d with Some v => f v | None => false end.
Definition riskOf (d : option Verdict) : number :=
  match d with Some v => riskScore v | None => 0 end.

(** The local [score] of [calculateCombinedRiskScore] at its [return]; an
    argument is [None] when its promise was rejected. *)
Definition combinedScore (vpnData securityData : option Verdict)
    (geoData : option Geo) : number :=
  let score := 0 in
  let score := plusIf (flagOf isVPN vpnData) 50 score in
  let score := plusIf (flagOf isTor vpnData) 80 score in
  let score := plusIf (flagOf isProxy vpnData) 40 score in
  let score := plusIf (flagOf isVPN securityData) 30 score in
  let score := plusIf (flagOf isTor securityData) 60 score in
  let score := plusIf (flagOf isProxy securityData) 25 score in
  let score := score + riskOf vpnData * 0.6 in
  let score := score + riskOf securityData * 0.4 in
  let score :=
    plusIf match geoData with Some g => isHosting g | None => false end 20 score in
  let highRiskCountries := ["Unknown"; "Anonymous"] in
  let score :=
    plusIf match geoData with
           | Some g => match country g with
                       | Some c => arr_includes highRiskCountries c
                       | None => false
                       end
           | None => false
           end 30 score in
  score.

(** [calculateCombinedRiskScore]: [Math.min(Math.round(score), 100)]. *)
Definition calculateCombinedRiskScore (vpnData securityData : option Verdict)
    (geoData : option Geo) : number :=
  inject_Z (Math_min (Math_round (combinedScore vpnData securityData geoData)) 100).

(** [analyzeIP] after [Promise.allSettled], for an address [ip]. *)
Definition analyzeIP (ip : string) (geo : option Geo) (vpn security : option Verdict)
  : IPAnalysis.t :=
  let textOf (f : Geo -> option string) : string :=
    match geo with
    | Some g =>
      match f g with
      | Some text => if truthy text then text else "Unknown"
      | None => "Unknown"
      end
    | None => "Unknown"
    end in
  let either (f : Verdict -> bool) : bool := flagOf f vpn || flagOf f security in
  let threatsOf (d : option Verdict) : list string :=
    match d with Some v => threatTypes v | None => [] end in
  let combinedThreats := threatsOf vpn ++ threatsOf security in
  IPAnalysis.mk ip (textOf country) (textOf region) (textOf city) (textOf isp)
    (either isVPN) (either isTor) (either isProxy)
    (calculateCombinedRiskScore vpn security geo)
    (dedup combinedThreats).

End IPCheck.

(** The network risk score of a session, if any, is not negative. *)
Definition noNegativeNetworkRisk (s : Session) : Prop :=
  match ipAnalysis s with
  | Some ipA => 0 <= IPAnalysis.riskScore ipA
  | None => True
  end.

(** ** The device signal ([generateDeviceFingerprint], [utils/fingerprint.client.ts])

    [fp] is what the fingerprinting library gave ([visitorId] and
    [confidence.score]), or [None] when loading or running it threw;
    [fallbackId] is ['fallback-' + Math.random().toString(36).substr(2, 9)]
    and [now] is [Date.now()]. *)
Definition generateDeviceFingerprint (fp : option (string * number))
    (fallbackId : string) (now : number) : DeviceFingerprint.t :=
  match fp with
  | Some (visitorId, confidence) => DeviceFingerprint.mk visitorId confidence now
  | None => DeviceFingerprint.mk fallbackId 0.1 now
  end.

(** ** The caller ([generateFingerprint], [components/FingerprintDemo.tsx]) *)

Module Demo.

(** The properties of [getDeviceInfo()] that the caller copies. *)
Record DeviceInfo := mkInfo {
  userAgent : string;
  screenResolution : string;
  timezone : string;
  language : string
}.

(** What the caller has in hand after [Promise.allSettled]: for each of
    the three producers the value of its promise, or [None] when the
    promise was rejected; the analysis of the behavior tracker, or [None]
    when there is no tracker; and the values it takes from the
    environment: [randomId] is [Math.random().toString(36).substr(2, 9)],
    [errorId] is ['error-' + Date.now()], the two times are [Date.now()]. *)
Record Collected := mkCollected {
  deviceResult : option DeviceFingerprint.t;
  incognitoResult : option IncognitoDetection.t;
  ipResult : option (option IPAnalysis.t);
  trackerAnalysis : option BehaviorAnalysis.t;
  deviceInfo : DeviceInfo;
  randomId : string;
  errorId : string;
  errorTime : number;
  sessionTime : number
}.

(** [sessionData] *)
Definition sessionData (c : Collected) : Session :=
  let behaviorAnalysis :=
    match trackerAnalysis c with
    | Some analysis => analysis
    | None => BehaviorAnalysis.mk 0 0 0 0 0 []
    end in
  mkSession (randomId c)
    match deviceResult c with
    | Some value => value
    | None => DeviceFingerprint.mk (errorId c) 0 (errorTime c)
    end
    match incognitoResult c with
    | Some value => value
    | None => IncognitoDetection.mk false 0 "error"
    end
    match ipResult c with
    | Some value => value
    | None => None
    end
    behaviorAnalysis
    (sessionTime c)
    (userAgent (deviceInfo c)) (screenResolution (deviceInfo c))
    (timezone (deviceInfo c)) (language (deviceInfo c)).

(** [generateFingerprint] from [sessionData] on: the score, the session,
    the save.  [fits] and [saveTime] are those of the save. *)
Definition generateFingerprint (c : Collected) (fits : bool) (saveTime : number)
    (st : Storage.State) : FingerprintSession.t * Storage.State :=
  let sessionData := sessionData c in
  let r := calculateRiskScore sessionData (Storage.view st) in
  let session :=
    FingerprintSession.mk sessionData (inject_Z (riskScore r)) (riskLevel r) in
  (session, Storage.saveFingerprint fits saveTime session st).

(** The same visitor coming back: one run per time of save, each one
    written. *)
Definition comeBack (saveTimes : list number) (c : Collected) (st : Storage.State)
  : Storage.State :=
  fold_left (fun st saveTime => snd (generateFingerprint c true saveTime st))
    saveTimes st.

End Demo.

(** ** The behavior signal ([BehaviorTracker], [utils/behavior.client.ts])

    The tracker is a state and four event handlers.  Every [Date.now()]
    that a handler reads is an argument of the event.  [Math.sqrt] has no
    counterpart on exact rationals and is a parameter of the model. *)

From Stdlib Require Import Qabs.

Module Tracker.

Record Point := mkPoint { x : number; y : number; timestamp : number }.

Record State := mkState {
  mouseMovements : number;
  keystrokes : number;
  scrollEvents : number;
  startTime : number;
  lastInteraction : number;
  suspiciousPatterns : list string;
  mousePath : list Point;
  keystrokeTimings : list number
}.

Inductive Event :=
| MouseMove (clientX clientY now now' : number)
| KeyDown (now now' : number)
| Scroll (now : number)
| Click (now : number).

(** [l.slice(-n)] and [l.shift()] *)
Definition lastN {A} (n : nat) (l : list A) : list A := drop (length l - n) l.
Definition shift {A} (l : list A) : list A := tail l.

(** [l.reduce((a, b) => a + b, 0)] *)
Definition sumOf (l : list number) : number := fold_left Qplus l 0.

Definition withPatterns (patterns : list string) (st : State) : State :=
  mkState (mouseMovements st) (keystrokes st) (scrollEvents st) (startTime st)
    (lastInteraction st) patterns (mousePath st) (keystrokeTimings st).

Definition addSuspiciousPattern (pattern : string) (st : State) : State :=
  if negb (arr_includes (suspiciousPatterns st) pattern)
  then withPatterns (suspiciousPatterns st ++ [pattern]) st
  else st.

(** The loop of [detectStraightLines]: one step per three consecutive
    points. *)
Fixpoint detectStraightLines (moves : list Point) : nat :=
  match moves with
  | p1 :: ((p2 :: p3 :: _) as rest) =>
    let area :=
      Qabs ((x p2 - x p1) * (y p3 - y p1) - (x p3 - x p1) * (y p2 - y p1)) in
    ((if num_lt area 5 then 1 else 0) + detectStraightLines rest)%nat
  | _ => 0%nat
  end.

(** [calculateVariance] *)
Definition calculateVariance (numbers : list number) : number :=
  let mean := sumOf numbers / js_length numbers in
  let squaredDiffs := map (fun n => (n - mean) * (n - mean)) numbers in
  sumOf squaredDiffs / js_length numbers.

(** The loop of [analyzeKeystrokePattern]: the differences of consecutive
    timings. *)
Fixpoint intervalsOf (timings : list number) : list number :=
  match timings with
  | t0 :: ((t1 :: _) as rest) => (t1 - t0) :: intervalsOf rest
  | _ => []
  end.

Definition analyzeKeystrokePattern (st : State) : State :=
  if (length (keystrokeTimings st) <? 10)%nat then st
  else
    let recentTimings := lastN 10 (keystrokeTimings st) in
    let intervals := intervalsOf recentTimings in
    let avgInterval := sumOf intervals / js_length intervals in
    let st :=
      if num_lt avgInterval 50 then addSuspiciousPattern "inhuman-typing-speed" st
      else st in
    let variance := calculateVariance intervals in
    let st :=
      if num_lt variance 10 then addSuspiciousPattern "consistent-keystroke-timing" st
      else st in
    st.

Section WithSqrt.

Variable Math_sqrt : number -> number.

(** The loop of [calculateMouseSpeeds]: one step per two consecutive
    points. *)
Fixpoint calculateMouseSpeeds (moves : list Point) : list number :=
  match moves with
  | prev :: ((curr :: _) as rest) =>
    let distance :=
      Math_sqrt ((x curr - x prev) * (x curr - x prev)
                 + (y curr - y prev) * (y curr - y prev)) in
    let time := (timestamp curr - timestamp prev) / 1000 in
    if num_gt time 0 then distance / time :: calculateMouseSpeeds rest
    else calculateMouseSpeeds rest
  | _ => []
  end.

(** The loop of [detectRepetitiveMousePattern] over [first10[i]] and
    [second10[i]]. *)
Fixpoint similarMoves (first10 second10 : list Point) : nat :=
  match first10, second10 with
  | p :: first10', q :: second10' =>
    let distance :=
      Math_sqrt ((x p - x q) * (x p - x q) + (y p - y q) * (y p - y q)) in
    ((if num_lt distance 50 then 1 else 0) + similarMoves first10' second10')%nat
  | _, _ => 0%nat
  end.

Definition detectRepetitiveMousePattern (st : State) : bool :=
  if (length (mousePath st) <? 20)%nat then false
  else
    let recent := lastN 20 (mousePath st) in
    let first10 := take 10 recent in
    let second10 := take 10 (drop 10 recent) in
    (7 <? similarMoves first10 second10)%nat.

Definition analyzeMousePattern (st : State) : State :=
  if (length (mousePath st) <? 10)%nat then st
  else
    let recentMoves := lastN 10 (mousePath st) in
    let straightLines := detectStraightLines recentMoves in
    let st :=
      if (5 <? straightLines)%nat then addSuspiciousPattern "straight-mouse-lines" st
      else st in
    let speeds := calculateMouseSpeeds recentMoves in
    let avgSpeed := sumOf speeds / js_length speeds in
    let st :=
      if num_gt avgSpeed 2000 then addSuspiciousPattern "inhuman-mouse-speed" st
      else st in
    let st :=
      if detectRepetitiveMousePattern st
      then addSuspiciousPattern "repetitive-mouse-pattern" st
      else st in
    st.

(** The four listeners of [setupEventListeners]. *)
Definition handle (e : Event) (st : State) : State :=
  match e with
  | MouseMove clientX clientY now now' =>
    let path := mousePath st ++ [mkPoint clientX clientY now'] in
    let path := if (100 <? length path)%nat then shift path else path in
    analyzeMousePattern
      (mkState (mouseMovements st + 1) (keystrokes st) (scrollEvents st)
         (startTime st) now (suspiciousPatterns st) path (keystrokeTimings st))
  | KeyDown now now' =>
    let timings := keystrokeTimings st ++ [now'] in
    let timings := if (50 <? length timings)%nat then shift timings else timings in
    analyzeKeystrokePattern
      (mkState (mouseMovements st) (keystrokes st + 1) (scrollEvents st)
         (startTime st) now (suspiciousPatterns st) (mousePath st) timings)
  | Scroll now =>
    mkState (mouseMovements st) (keystrokes st) (scrollEvents st + 1)
      (startTime st) now (suspiciousPatterns st) (mousePath st) (keystrokeTimings st)
  | Click now =>
    mkState (mouseMovements st) (keystrokes st) (scrollEvents st)
      (startTime st) now (suspiciousPatterns st) (mousePath st) (keystrokeTimings st)
  end.

(** The events of a page, oldest first. *)
Definition run (events : list Event) (st : State) : State :=
  fold_left (fun st e => handle e st) events st.

End WithSqrt.

(** A new tracker, and [reset]: [now] and [now'] are the two readings of
    the clock. *)
Definition create (now now' : number) : State :=
  mkState 0 0 0 now now' [] [] [].
Definition reset (now now' : number) (st : State) : State := create now now'.

(** [getAnalysis]; [now] is [Date.now()].  The counters and the time on
    page are whole numbers, which the doubles of the code hold exactly.
    The two divisions round: [divide] stands for [/] on finite doubles with
    a divisor that is not zero, and nothing is assumed about it.  With a
    time on page of zero the minutes are zero: without any interaction the
    quotient is [NaN], which [||] replaces by 0; with some interaction it
    is [Infinity], which is no number of the model, and the result is then
    [None]. *)
Definition getAnalysis (divide : number -> number -> number) (now : number)
    (st : State) : option BehaviorAnalysis.t :=
  let timeOnPage := now - startTime st in
  let totalInteractions := mouseMovements st + keystrokes st + scrollEvents st in
  if Qeq_bool timeOnPage 0 then
    if Qeq_bool totalInteractions 0 then
      Some (BehaviorAnalysis.mk (mouseMovements st) (keystrokes st) (scrollEvents st)
              timeOnPage 0 (suspiciousPatterns st))
    else None
  else
    let speed := divide totalInteractions (divide timeOnPage 60000) in
    let interactionSpeed := if Qeq_bool speed 0 then 0 else speed in
    Some (BehaviorAnalysis.mk (mouseMovements st) (keystrokes st) (scrollEvents st)
            timeOnPage interactionSpeed (suspiciousPatterns st)).

(** The points of the mouse moves, the times of the key presses and the
    scrolls among some events, oldest first. *)
Definition movesOf (events : list Event) : list Point :=
  omap (fun e => match e with
                 | MouseMove clientX clientY _ now' => Some (mkPoint clientX clientY now')
                 | _ => None
                 end) events.
Definition keysOf (events : list Event) : list number :=
  omap (fun e => match e with KeyDown _ now' => Some now' | _ => None end) events.
Definition scrollsOf (events : list Event) : list Event :=
  List.filter (fun e => match e with Scroll _ => true | _ => false end) events.

(** The patterns that the tracker knows. *)
Definition knownPatterns : list string :=
  [ "straight-mouse-lines"; "inhuman-mouse-speed"; "repetitive-mouse-pattern";
    "inhuman-typing-speed"; "consistent-keystroke-timing" ].

End Tracker.

(** A property of the list of patterns that [addSuspiciousPattern] keeps,
    for the patterns that the tracker knows. *)
Definition keeps (P : list string -> Prop) : Prop :=
  forall l p, p ∈ Tracker.knownPatterns -> P l ->
    P (if arr_includes l p then l else l ++ [p]).

(** Two states of the tracker that differ in the patterns at most. *)
Definition sameButPatterns (st st' : Tracker.State) : Prop :=
  Tracker.mouseMovements st' = Tracker.mouseMovements st
  /\ Tracker.keystrokes st' = Tracker.keystrokes st
  /\ Tracker.scrollEvents st' = Tracker.scrollEvents st
  /\ Tracker.startTime st' = Tracker.startTime st
  /\ Tracker.mousePath st' = Tracker.mousePath st
  /\ Tracker.keystrokeTimings st' = Tracker.keystrokeTimings st.

(** Timings that are evenly spaced, [d] apart. *)
Definition evenlySpaced (d : number) (timings : list number) : Prop :=
  Forall (fun i => i == d) (Tracker.intervalsOf timings).

(** Points on the line [a * x + b * y = c]. *)
Definition onLine (a b c : number) (points : list Tracker.Point) : Prop :=
  Forall (fun p => a * Tracker.x p + b * Tracker.y p == c) points.

(** * Properties *)

(** ** Comparison and rounding facts *)

Lemma num_lt_true x y : num_lt x y = true <-> x < y.
Proof.
  unfold num_lt. rewrite negb_true_iff, <- not_true_iff_false, Qle_bool_iff.
  split; [apply Qnot_le_lt | apply Qlt_not_le].
Qed.

Lemma num_lt_false x y : num_lt x y = false <-> y <= x.
Proof. unfold num_lt. rewrite negb_false_iff. apply Qle_bool_iff. Qed.

Lemma num_lt_proper x x' y y' : x == x' -> y == y' -> num_lt x y = num_lt x' y'.
Proof. intros Hx Hy. unfold num_lt. now rewrite Hx, Hy. Qed.

Lemma Math_round_mono x y : x <= y -> (Math_round x <= Math_round y)%Z.
Proof. intros H. apply Qfloor_resp_le. lra. Qed.

Lemma Math_round_proper x y : x == y -> Math_round x = Math_round y.
Proof. intros H. unfold Math_round. now rewrite H. Qed.

Lemma clampScore_bounds x : (0 <= clampScore x <= 100)%Z.
Proof. unfold clampScore, Math_max, Math_min. lia. Qed.

Lemma clampScore_mono x y : x <= y -> (clampScore x <= clampScore y)%Z.
Proof.
  intros H. apply Math_round_mono in H.
  unfold clampScore, Math_max, Math_min. lia.
Qed.

Lemma clampScore_proper x y : x == y -> clampScore x = clampScore y.
Proof. intros H. unfold clampScore. now rewrite (Math_round_proper x y H). Qed.

(** ** Every block adds to the two locals *)

Lemma additive_id : additive (fun a => a).
Proof. intros a. simpl. split; [ring | now rewrite app_nil_r]. Qed.

Lemma additive_add pts : additive (add pts).
Proof. intros a. simpl. split; [ring | now rewrite app_nil_r]. Qed.

Lemma additive_flag pts l : additive (flag pts l).
Proof. intros a. simpl. split; [ring | reflexivity]. Qed.

Lemma additive_flag_if c pts l : additive (flag_if c pts l).
Proof. destruct c; [apply additive_flag | apply additive_id]. Qed.

Lemma additive_comp f g : additive f -> additive g -> additive (fun a => g (f a)).
Proof.
  intros Hf Hg a.
  destruct (Hg (f a)) as [Hs Hl], (Hg (f init)) as [Hs0 Hl0], (Hf a) as [Hfs Hfl].
  split.
  - rewrite Hs, Hs0, Hfs. ring.
  - rewrite Hl, Hl0, Hfl. now rewrite app_assoc.
Qed.

Lemma additive_ite (c : bool) f g :
  additive f -> additive g -> additive (fun a => if c then f a else g a).
Proof. now destruct c. Qed.

Lemma Qsum_app l k : Qsum (l ++ k) == Qsum l + Qsum k.
Proof. induction l as [|x l IH]; simpl; [ring | rewrite IH; ring]. Qed.


(** ** Labels and points, block by block *)

Lemma accounted_additive f b u : accounted f b u -> additive f.
Proof. now intros [H _]. Qed.

Lemma accounted_id : accounted (fun a => a) [] 0.
Proof.
  split; [apply additive_id | split]; simpl; [constructor | ring].
Qed.

Lemma accounted_add p : accounted (add p) [] p.
Proof.
  split; [apply additive_add | split]; simpl; [constructor | ring].
Qed.

Lemma accounted_flag p l : labelPoints l == p -> accounted (flag p l) [l] 0.
Proof.
  intros H. split; [apply additive_flag | split]; simpl.
  - reflexivity.
  - rewrite H. ring.
Qed.

Lemma accounted_flag_if c p l :
  labelPoints l == p -> accounted (flag_if c p l) [l] 0.
Proof.
  intros H. destruct c; [now apply accounted_flag |].
  split; [apply additive_id | split]; simpl; [apply sublist_nil_l | ring].
Qed.

Lemma accounted_comp f g bf bg uf ug :
  accounted f bf uf -> accounted g bg ug ->
  accounted (fun a => g (f a)) (bf ++ bg) (uf + ug).
Proof.
  intros (Af & Lf & Sf) (Ag & Lg & Sg).
  destruct (Ag (f init)) as [Hs Hl].
  split; [now apply additive_comp | split].
  - rewrite Hl. now apply sublist_app.
  - rewrite Hs, Hl, map_app, Qsum_app, Sf, Sg. ring.
Qed.

Lemma accounted_ite (c : bool) f g bf bg u :
  accounted f bf u -> accounted g bg u ->
  accounted (fun a => if c then f a else g a) (bf ++ bg) u.
Proof.
  intros (Af & Lf & Sf) (Ag & Lg & Sg).
  destruct c; (split; [assumption | split; [| assumption]]).
  - now apply sublist_inserts_r.
  - now apply sublist_inserts_l.
Qed.

Lemma accounted_weaken f b b' u u' :
  accounted f b u -> sublist b b' -> u == u' -> accounted f b' u'.
Proof.
  intros (Af & Lf & Sf) Hb Hu.
  split; [assumption | split].
  - now transitivity b.
  - now rewrite <- Hu.
Qed.

Ltac label_points := vm_compute; reflexivity.

(** Follows the shape of a block, collecting the labels it can append and
    the points it adds without a label. *)
Ltac accounted_tac :=
  lazymatch goal with
  | |- accounted (fun a => a) _ _ => apply accounted_id
  | |- accounted (flag_if ?c ?p ?l) _ _ => apply accounted_flag_if; label_points
  | |- accounted (flag ?p ?l) _ _ => apply accounted_flag; label_points
  | |- accounted (add ?p) _ _ => apply accounted_add
  | |- accounted (fun a => if ?c then @?f a else @?g a) _ _ =>
      eapply (accounted_ite c f g); accounted_tac
  | |- accounted (fun a => flag_if ?c ?p ?l (@?f a)) _ _ =>
      eapply (accounted_comp f (flag_if c p l));
      [accounted_tac | apply accounted_flag_if; label_points]
  | |- accounted (fun a => flag ?p ?l (@?f a)) _ _ =>
      eapply (accounted_comp f (flag p l));
      [accounted_tac | apply accounted_flag; label_points]
  | |- accounted (fun a => add ?p (@?f a)) _ _ =>
      eapply (accounted_comp f (add p)); [accounted_tac | apply accounted_add]
  end.

Ltac sublist_tac :=
  simpl app;
  repeat first [apply sublist_nil | apply sublist_skip | apply sublist_cons].

Ltac accounted_block :=
  eapply accounted_weaken; [cbv zeta; accounted_tac | sublist_tac | try ring].

Lemma accounted_stepFingerprint s :
  accounted (stepFingerprint s)
    [ "very-low-fingerprint-confidence"; "low-fingerprint-confidence";
      "medium-fingerprint-confidence" ] 0.
Proof. unfold stepFingerprint. accounted_block. Qed.

Lemma accounted_stepIncognito s :
  accounted (stepIncognito s)
    [ "confirmed-incognito"; "likely-incognito"; "possible-incognito" ] 0.
Proof. unfold stepIncognito. accounted_block. Qed.

Lemma accounted_stepIP s :
  accounted (stepIP s)
    [ "vpn-detected"; "tor-detected"; "proxy-detected"; "hosting-provider";
      "known-vpn-service"; "blacklisted-ip"; "high-risk-ip" ]
    (match ipAnalysis s with
     | Some ipA => IPAnalysis.riskScore ipA * 0.4
     | None => 0
     end).
Proof. unfold stepIP. destruct (ipAnalysis s); accounted_block. Qed.

Lemma accounted_stepPatterns s :
  accounted (stepPatterns s)
    [ "bot-like-mouse-movement"; "bot-like-typing"; "automated-input";
      "scripted-mouse-movement" ]
    (js_length (BehaviorAnalysis.suspiciousPatterns (behaviorAnalysis s)) * 12).
Proof. unfold stepPatterns. accounted_block. Qed.

Lemma accounted_stepSpeed s :
  accounted (stepSpeed s)
    [ "superhuman-interaction-speed"; "very-fast-interactions" ] 0.
Proof. unfold stepSpeed. accounted_block. Qed.

Lemma accounted_stepBurst s :
  accounted (stepBurst s) [ "rapid-fire-interactions"; "fast-interaction-burst" ] 0.
Proof. unfold stepBurst. accounted_block. Qed.

Lemma accounted_stepMinimal s :
  accounted (stepMinimal s) [ "minimal-interaction" ] 0.
Proof. unfold stepMinimal. accounted_block. Qed.

Lemma accounted_stepHistory ls s :
  accounted (stepHistory ls s)
    [ "frequent-device-reuse"; "repeated-device-usage"; "ip-abuse-pattern";
      "frequent-ip-usage" ] 0.
Proof.
  unfold stepHistory. cbv zeta.
  destruct (getDeviceCount _ _); [|accounted_block].
  destruct (ipAnalysis s) as [ipA|]; [|accounted_block].
  destruct (getIPCount _ _); [|accounted_block].
  (* the device ladder, then the address ladder *)
  lazymatch goal with
  | |- accounted (fun a => if ?c then flag ?p ?l (@?f a)
                           else if ?c' then flag ?p' ?l' (@?f a) else (@?f a)) _ _ =>
      eapply accounted_weaken;
      [ eapply (accounted_comp f
                  (fun a => if c then flag p l a
                            else if c' then flag p' l' a else a));
        accounted_tac
      | sublist_tac | ring ]
  end.
Qed.

Lemma accounted_stepHeadless s : accounted (stepHeadless s) [ "headless-browser" ] 0.
Proof. unfold stepHeadless. accounted_block. Qed.

Lemma accounted_stepAutomation s : accounted (stepAutomation s) [ "automation-tool" ] 0.
Proof. unfold stepAutomation. accounted_block. Qed.

Lemma accounted_stepBotAgent s : accounted (stepBotAgent s) [ "bot-user-agent" ] 0.
Proof. unfold stepBotAgent. accounted_block. Qed.

Lemma accounted_stepOutdated s : accounted (stepOutdated s) [ "outdated-browser" ] 0.
Proof. unfold stepOutdated. accounted_block. Qed.

Lemma accounted_stepScreen s :
  accounted (stepScreen s) [ "invalid-screen-resolution" ] 0.
Proof. unfold stepScreen. accounted_block. Qed.

Lemma accounted_stepTimezone s :
  accounted (stepTimezone s) [ "suspicious-timezone" ] 0.
Proof. unfold stepTimezone. accounted_block. Qed.

Lemma accounted_stepLanguage s :
  accounted (stepLanguage s) []
    (if negb (truthy (language s)) || String.eqb (language s) "en"
        || String.eqb (language s) "en-US"
     then 2 else 0).
Proof.
  unfold stepLanguage. cbv zeta.
  destruct (negb (truthy (language s)) || String.eqb (language s) "en"
            || String.eqb (language s) "en-US");
    accounted_block.
Qed.
(** ** The locals at the clamp, block by block *)

Create HintDb blocks.
#[local] Hint Resolve accounted_stepFingerprint accounted_stepIncognito
  accounted_stepIP accounted_stepPatterns accounted_stepSpeed accounted_stepBurst
  accounted_stepMinimal accounted_stepHistory accounted_stepHeadless
  accounted_stepAutomation accounted_stepBotAgent accounted_stepOutdated
  accounted_stepScreen accounted_stepTimezone accounted_stepLanguage : blocks.

Lemma steps_additive ls s : Forall (fun step => additive (step s)) (steps ls).
Proof.
  unfold steps.
  repeat (apply List.Forall_cons;
          [eapply accounted_additive; solve [auto with blocks] |]).
  apply List.Forall_nil.
Qed.

Lemma run_additive (l : list (Session -> Acc -> Acc)) s :
  Forall (fun step => additive (step s)) l ->
  forall a,
    score (fold_left (fun a step => step s a) l a)
      == score a + Qsum (map (fun step => pointsOf step s) l)
    /\ riskFactors (fold_left (fun a step => step s a) l a)
       = riskFactors a ++ concat (map (fun step => labelsOf step s) l).
Proof.
  induction 1 as [|step l Hstep _ IH]; intros a; simpl.
  - split; [ring | now rewrite app_nil_r].
  - destruct (IH (step s a)) as [Hs Hl], (Hstep a) as [Hs1 Hl1].
    split.
    + rewrite Hs, Hs1. unfold pointsOf. ring.
    + rewrite Hl, Hl1. unfold labelsOf. now rewrite app_assoc.
Qed.

Lemma scoring_score s ls :
  score (scoring s ls) == Qsum (map (fun step => pointsOf step s) (steps ls)).
Proof.
  destruct (run_additive (steps ls) s (steps_additive ls s) init) as [H _].
  unfold scoring, runBlocks. rewrite H. simpl (score init). ring.
Qed.

Lemma scoring_labels s ls :
  riskFactors (scoring s ls) = concat (map (fun step => labelsOf step s) (steps ls)).
Proof.
  destruct (run_additive (steps ls) s (steps_additive ls s) init) as [_ H].
  unfold scoring, runBlocks. now rewrite H.
Qed.

(** The result only depends on the score up to equality of rationals. *)
Lemma calculateRiskScore_of_score s ls s' ls' :
  score (scoring s ls) == score (scoring s' ls') ->
  calculateRiskScore s ls = calculateRiskScore s' ls'.
Proof.
  intros H. unfold calculateRiskScore, resultOf. cbv zeta.
  now rewrite (clampScore_proper _ _ H).
Qed.

(** ** Bounds and level of the returned score *)

Lemma levelOf_cases z :
  (85 <= z)%Z /\ levelOf z = CRITICAL
  \/ (65 <= z < 85)%Z /\ levelOf z = HIGH
  \/ (35 <= z < 65)%Z /\ levelOf z = MEDIUM
  \/ (z < 35)%Z /\ levelOf z = LOW.
Proof.
  unfold levelOf, int_ge.
  destruct (Z.leb_spec 85 z); [left; split; [lia | reflexivity] | right].
  destruct (Z.leb_spec 65 z); [left; split; [lia | reflexivity] | right].
  destruct (Z.leb_spec 35 z); [left | right]; (split; [lia | reflexivity]).
Qed.

Lemma levelOf_mono z z' :
  (z <= z')%Z -> (levelRank (levelOf z) <= levelRank (levelOf z'))%nat.
Proof.
  intros H.
  destruct (levelOf_cases z) as [[? ->]|[[? ->]|[[? ->]|[? ->]]]],
           (levelOf_cases z') as [[? ->]|[[? ->]|[[? ->]|[? ->]]]];
    simpl; lia.
Qed.

(** On finite numbers: the returned score lies between 0 and 100, and the
    returned level goes by the thresholds 85, 65 and 35. *)
Lemma calculateRiskScore_score_and_level (s s' : Session) (ls ls' : LocalStorage) :
  let r := calculateRiskScore s ls in
  let r' := calculateRiskScore s' ls' in
  (0 <= riskScore r <= 100)%Z
  /\ ((85 <= riskScore r)%Z /\ riskLevel r = CRITICAL
      \/ (65 <= riskScore r < 85)%Z /\ riskLevel r = HIGH
      \/ (35 <= riskScore r < 65)%Z /\ riskLevel r = MEDIUM
      \/ (riskScore r < 35)%Z /\ riskLevel r = LOW)
  /\ (riskScore r = riskScore r' -> riskLevel r = riskLevel r')
  /\ ((riskScore r <= riskScore r')%Z ->
      (levelRank (riskLevel r) <= levelRank (riskLevel r'))%nat).
Proof.
  cbv zeta. unfold calculateRiskScore, resultOf. simpl.
  repeat split.
  - apply clampScore_bounds.
  - apply clampScore_bounds.
  - apply levelOf_cases.
  - now intros ->.
  - apply levelOf_mono.
Qed.

(** ** The calculator on doubles *)

























Lemma clampScore_Num (q : number) :
  IEEE.clampScore (IEEE.Num q) = IEEE.Num (inject_Z (clampScore q)).
Proof.
  unfold IEEE.clampScore, clampScore, IEEE.round, IEEE.min, IEEE.max, IEEE.lt,
    Math_max, Math_min.
  set (z := Math_round q).
  destruct (num_lt (inject_Z z) 100) eqn:E1.
  - apply num_lt_true in E1. change 100 with (inject_Z 100) in E1.
    rewrite <- Zlt_Qlt in E1. rewrite (Z.min_r 100 z) by lia.
    destruct (num_lt 0 (inject_Z z)) eqn:E2.
    + apply num_lt_true in E2. change 0 with (inject_Z 0) in E2.
      rewrite <- Zlt_Qlt in E2. now rewrite Z.max_r by lia.
    + apply num_lt_false in E2. change 0 with (inject_Z 0) in E2.
      rewrite <- Zle_Qle in E2. now rewrite Z.max_l by lia.
  - apply num_lt_false in E1. change 100 with (inject_Z 100) in E1.
    rewrite <- Zle_Qle in E1. rewrite (Z.min_l 100 z) by lia.
    reflexivity.
Qed.

Lemma levelOf_Num (z : Z) : IEEE.levelOf (IEEE.Num (inject_Z z)) = levelOf z.
Proof.
  unfold IEEE.levelOf, levelOf, IEEE.ge, int_ge.
  assert (H : forall k : Z, Qle_bool (inject_Z k) (inject_Z z) = (k <=? z)%Z).
  { intros k. apply eq_true_iff_eq.
    now rewrite Qle_bool_iff, <- Zle_Qle, Z.leb_le. }
  change 85 with (inject_Z 85). change 65 with (inject_Z 65).
  change 35 with (inject_Z 35). now rewrite !H.
Qed.


Lemma Num_inject_Z_inj (z z' : Z) :
  IEEE.Num (inject_Z z) = IEEE.Num (inject_Z z') -> z = z'.
Proof. now intros [= ->]. Qed.





(** *** Finite numbers: the two embeddings agree *)

Lemma flag_asDoubles pts label a :
  IEEE.flag pts label (accAsDoubles a) = accAsDoubles (flag pts label a).
Proof. reflexivity. Qed.

Lemma flag_if_asDoubles c pts label a :
  IEEE.flag_if c pts label (accAsDoubles a) = accAsDoubles (flag_if c pts label a).
Proof. now destruct c. Qed.

Lemma add_asDoubles pts a :
  IEEE.add (IEEE.Num pts) (accAsDoubles a) = accAsDoubles (add pts a).
Proof. reflexivity. Qed.

Ltac same_block :=
  repeat first
    [ reflexivity
    | rewrite flag_if_asDoubles
    | match goal with
      | |- context [if ?c then _ else _] => destruct c
      end ].

Lemma stepFingerprint_asDoubles s a :
  IEEE.stepFingerprint (asDoubles s) (accAsDoubles a) = accAsDoubles (stepFingerprint s a).
Proof.
  unfold IEEE.stepFingerprint, stepFingerprint. cbv zeta.
  cbn [asDoubles IEEE.deviceFingerprint IEEE.DeviceFingerprint.confidence IEEE.lt].
  same_block.
Qed.

Lemma stepIncognito_asDoubles s a :
  IEEE.stepIncognito (asDoubles s) (accAsDoubles a) = accAsDoubles (stepIncognito s a).
Proof.
  unfold IEEE.stepIncognito, stepIncognito. cbv zeta.
  cbn [asDoubles IEEE.incognitoDetection IEEE.IncognitoDetection.confidence
       IEEE.IncognitoDetection.isIncognito IEEE.gt IEEE.lt].
  unfold num_gt. same_block.
Qed.

Lemma stepIP_asDoubles s a :
  IEEE.stepIP (asDoubles s) (accAsDoubles a) = accAsDoubles (stepIP s a).
Proof.
  unfold IEEE.stepIP, stepIP.
  cbn [asDoubles IEEE.ipAnalysis].
  destruct (ipAnalysis s) as [ipA|]; [| reflexivity].
  cbn [option_map]. cbv zeta.
  cbn [ipAsDoubles IEEE.IPAnalysis.riskScore IEEE.IPAnalysis.isVPN IEEE.IPAnalysis.isTor
       IEEE.IPAnalysis.isProxy IEEE.IPAnalysis.threatTypes IEEE.times].
  rewrite add_asDoubles. now rewrite !flag_if_asDoubles.
Qed.

Lemma stepPatterns_asDoubles s a :
  IEEE.stepPatterns (asDoubles s) (accAsDoubles a) = accAsDoubles (stepPatterns s a).
Proof.
  unfold IEEE.stepPatterns, stepPatterns. cbv zeta.
  cbn [asDoubles IEEE.behaviorAnalysis behaviorAsDoubles
       IEEE.BehaviorAnalysis.suspiciousPatterns IEEE.times].
  rewrite add_asDoubles. now rewrite !flag_if_asDoubles.
Qed.

Lemma stepSpeed_asDoubles s a :
  IEEE.stepSpeed (asDoubles s) (accAsDoubles a) = accAsDoubles (stepSpeed s a).
Proof.
  unfold IEEE.stepSpeed, stepSpeed. cbv zeta.
  cbn [asDoubles IEEE.behaviorAnalysis behaviorAsDoubles
       IEEE.BehaviorAnalysis.interactionSpeed IEEE.gt IEEE.lt].
  unfold num_gt. same_block.
Qed.

Lemma totalInteractions_asDoubles b :
  IEEE.totalInteractions (behaviorAsDoubles b) = IEEE.Num (totalInteractions b).
Proof. reflexivity. Qed.

Lemma stepBurst_asDoubles s a :
  IEEE.stepBurst (asDoubles s) (accAsDoubles a) = accAsDoubles (stepBurst s a).
Proof.
  unfold IEEE.stepBurst, stepBurst. cbv zeta.
  cbn [asDoubles IEEE.behaviorAnalysis]. rewrite totalInteractions_asDoubles.
  cbn [behaviorAsDoubles IEEE.BehaviorAnalysis.timeOnPage IEEE.gt IEEE.lt].
  unfold num_gt. same_block.
Qed.

Lemma stepMinimal_asDoubles s a :
  IEEE.stepMinimal (asDoubles s) (accAsDoubles a) = accAsDoubles (stepMinimal s a).
Proof.
  unfold IEEE.stepMinimal, stepMinimal. cbv zeta.
  cbn [asDoubles IEEE.behaviorAnalysis]. rewrite totalInteractions_asDoubles.
  cbn [behaviorAsDoubles IEEE.BehaviorAnalysis.timeOnPage IEEE.gt IEEE.lt].
  unfold num_gt. apply flag_if_asDoubles.
Qed.

Lemma stepHistory_asDoubles ls s a :
  IEEE.stepHistory ls (asDoubles s) (accAsDoubles a) = accAsDoubles (stepHistory ls s a).
Proof.
  unfold IEEE.stepHistory, stepHistory. cbv zeta.
  cbn [asDoubles IEEE.deviceFingerprint IEEE.DeviceFingerprint.visitorId IEEE.ipAnalysis].
  destruct (getDeviceCount ls _) as [deviceCount|]; [| reflexivity].
  destruct (ipAnalysis s) as [ipA|]; cbn [option_map].
  - cbn [ipAsDoubles IEEE.IPAnalysis.ip].
    destruct (getIPCount ls _) as [ipCount|]; same_block.
  - same_block.
Qed.

Lemma stepsAfterPatterns_asDoubles s a :
  IEEE.stepHeadless (asDoubles s) (accAsDoubles a) = accAsDoubles (stepHeadless s a)
  /\ IEEE.stepAutomation (asDoubles s) (accAsDoubles a) = accAsDoubles (stepAutomation s a)
  /\ IEEE.stepBotAgent (asDoubles s) (accAsDoubles a) = accAsDoubles (stepBotAgent s a)
  /\ IEEE.stepOutdated (asDoubles s) (accAsDoubles a) = accAsDoubles (stepOutdated s a)
  /\ IEEE.stepScreen (asDoubles s) (accAsDoubles a) = accAsDoubles (stepScreen s a)
  /\ IEEE.stepTimezone (asDoubles s) (accAsDoubles a) = accAsDoubles (stepTimezone s a)
  /\ IEEE.stepLanguage (asDoubles s) (accAsDoubles a) = accAsDoubles (stepLanguage s a).
Proof.
  repeat split;
    [ unfold IEEE.stepHeadless, stepHeadless
    | unfold IEEE.stepAutomation, stepAutomation
    | unfold IEEE.stepBotAgent, stepBotAgent
    | unfold IEEE.stepOutdated, stepOutdated
    | unfold IEEE.stepScreen, stepScreen
    | unfold IEEE.stepTimezone, stepTimezone
    | unfold IEEE.stepLanguage, stepLanguage ];
    cbv zeta;
    cbn [asDoubles IEEE.userAgent IEEE.screenResolution IEEE.timezone IEEE.language];
    same_block.
Qed.

(** On a session of finite numbers the calculator on doubles returns what
    the calculator on exact numbers returns. *)
Lemma calculateRiskScore_asDoubles (s : Session) (ls : LocalStorage) :
  IEEE.calculateRiskScore (asDoubles s) ls = resultAsDoubles (calculateRiskScore s ls).
Proof.
  unfold IEEE.calculateRiskScore, calculateRiskScore, IEEE.scoring, scoring,
    IEEE.runBlocks, runBlocks, IEEE.steps, IEEE.stepsBeforeIP, IEEE.stepsAfterIP, steps.
  change IEEE.init with (accAsDoubles init).
  cbn [app fold_left].
  repeat match goal with
  | |- context [IEEE.stepFingerprint (asDoubles s) (accAsDoubles ?a)] =>
    rewrite (stepFingerprint_asDoubles s a)
  | |- context [IEEE.stepIncognito (asDoubles s) (accAsDoubles ?a)] =>
    rewrite (stepIncognito_asDoubles s a)
  | |- context [IEEE.stepIP (asDoubles s) (accAsDoubles ?a)] =>
    rewrite (stepIP_asDoubles s a)
  | |- context [IEEE.stepPatterns (asDoubles s) (accAsDoubles ?a)] =>
    rewrite (stepPatterns_asDoubles s a)
  | |- context [IEEE.stepSpeed (asDoubles s) (accAsDoubles ?a)] =>
    rewrite (stepSpeed_asDoubles s a)
  | |- context [IEEE.stepBurst (asDoubles s) (accAsDoubles ?a)] =>
    rewrite (stepBurst_asDoubles s a)
  | |- context [IEEE.stepMinimal (asDoubles s) (accAsDoubles ?a)] =>
    rewrite (stepMinimal_asDoubles s a)
  | |- context [IEEE.stepHistory ls (asDoubles s) (accAsDoubles ?a)] =>
    rewrite (stepHistory_asDoubles ls s a)
  | |- context [IEEE.stepHeadless (asDoubles s) (accAsDoubles ?a)] =>
    rewrite (proj1 (stepsAfterPatterns_asDoubles s a))
  | |- context [IEEE.stepAutomation (asDoubles s) (accAsDoubles ?a)] =>
    rewrite (proj1 (proj2 (stepsAfterPatterns_asDoubles s a)))
  | |- context [IEEE.stepBotAgent (asDoubles s) (accAsDoubles ?a)] =>
    rewrite (proj1 (proj2 (proj2 (stepsAfterPatterns_asDoubles s a))))
  | |- context [IEEE.stepOutdated (asDoubles s) (accAsDoubles ?a)] =>
    rewrite (proj1 (proj2 (proj2 (proj2 (stepsAfterPatterns_asDoubles s a)))))
  | |- context [IEEE.stepScreen (asDoubles s) (accAsDoubles ?a)] =>
    rewrite (proj1 (proj2 (proj2 (proj2 (proj2 (stepsAfterPatterns_asDoubles s a))))))
  | |- context [IEEE.stepTimezone (asDoubles s) (accAsDoubles ?a)] =>
    rewrite (proj1 (proj2 (proj2 (proj2 (proj2 (proj2
               (stepsAfterPatterns_asDoubles s a)))))))
  | |- context [IEEE.stepLanguage (asDoubles s) (accAsDoubles ?a)] =>
    rewrite (proj2 (proj2 (proj2 (proj2 (proj2 (proj2
               (stepsAfterPatterns_asDoubles s a)))))))
  end.
  unfold IEEE.resultOf, resultOf, resultAsDoubles, accAsDoubles. cbv zeta.
  cbn [IEEE.score riskScore riskLevel].
  now rewrite clampScore_Num, levelOf_Num.
Qed.

(** ** The store and the result *)

Lemma stepHistory_counts (s : Session) (ls1 ls2 : LocalStorage) (a : Acc) :
  getDeviceCount ls1 (DeviceFingerprint.visitorId (deviceFingerprint s))
  = getDeviceCount ls2 (DeviceFingerprint.visitorId (deviceFingerprint s)) ->
  (forall ipA, ipAnalysis s = Some ipA ->
     getIPCount ls1 (IPAnalysis.ip ipA) = getIPCount ls2 (IPAnalysis.ip ipA)) ->
  stepHistory ls1 s a = stepHistory ls2 s a.
Proof.
  intros Hd Hi. unfold stepHistory. cbv zeta. rewrite Hd.
  destruct (getDeviceCount ls2 _); [|reflexivity].
  destruct (ipAnalysis s) as [ipA|]; [|reflexivity].
  now rewrite (Hi ipA eq_refl).
Qed.

(** C2, as stated, fails: the same session scored against two states of
    the store gives two results. *)
Lemma calculateRiskScore_store_dependent :
  ~ (forall (s : Session) (ls1 ls2 : LocalStorage),
       calculateRiskScore s ls1 = calculateRiskScore s ls2).
Proof.
  intros H.
  specialize (H Sample.lowConfidence NoItem Sample.seenEleven).
  vm_compute in H. discriminate H.
Qed.

(** C2, amended: the calculator reads the history store itself, through
    [getDeviceCount] and [getIPCount]; two calls on the same session return
    the same result whenever the store answers these two reads alike, and
    in particular when the store has not changed between the calls. *)
Theorem calculateRiskScore_same_counts (s : Session) (ls1 ls2 : LocalStorage) :
  getDeviceCount ls1 (DeviceFingerprint.visitorId (deviceFingerprint s))
  = getDeviceCount ls2 (DeviceFingerprint.visitorId (deviceFingerprint s)) ->
  (forall ipA, ipAnalysis s = Some ipA ->
     getIPCount ls1 (IPAnalysis.ip ipA) = getIPCount ls2 (IPAnalysis.ip ipA)) ->
  calculateRiskScore s ls1 = calculateRiskScore s ls2.
Proof.
  intros Hd Hi.
  assert (Hsc : scoring s ls1 = scoring s ls2).
  { unfold scoring, runBlocks, steps. simpl fold_left.
    now rewrite (stepHistory_counts s ls1 ls2 _ Hd Hi). }
  unfold calculateRiskScore. now rewrite Hsc.
Qed.

Lemma calculateRiskScore_same_counts_witness :
  calculateRiskScore Sample.blacklisted Sample.seenAddress
  = calculateRiskScore Sample.blacklisted Sample.seenOthers.
Proof.
  apply (calculateRiskScore_same_counts
           Sample.blacklisted Sample.seenAddress Sample.seenOthers).
  - reflexivity.
  - intros ipA [= <-]. reflexivity.
Defined.

(** ** The factor list *)

Ltac steps_accounted :=
  lazymatch goal with
  | |- accounted (fun a => a) _ _ => apply accounted_id
  | |- accounted (fun a => ?g (@?f a)) _ _ =>
      eapply (accounted_comp f g); [steps_accounted | solve [eauto with blocks]]
  end.

Lemma steps_run_accounted s ls :
  accounted (fun a => fold_left (fun a step => step s a) (steps ls) a)
    factorLabels (unlabelledPoints s).
Proof.
  unfold steps. simpl fold_left.
  eapply accounted_weaken; [steps_accounted | sublist_tac | ].
  unfold unlabelledPoints. ring.
Qed.

Lemma factorLabels_NoDup : NoDup factorLabels.
Proof. apply (bool_decide_unpack _). vm_compute. reflexivity. Qed.

Lemma scoring_labels_sublist s ls : sublist (riskFactors (scoring s ls)) factorLabels.
Proof. apply (steps_run_accounted s ls). Qed.

Lemma scoring_labels_NoDup s ls : NoDup (riskFactors (scoring s ls)).
Proof.
  apply (sublist_NoDup _ factorLabels);
    [apply factorLabels_NoDup | apply scoring_labels_sublist].
Qed.

Lemma score_accounted s ls :
  score (scoring s ls)
  == unlabelledPoints s + Qsum (map labelPoints (riskFactors (scoring s ls))).
Proof. apply (steps_run_accounted s ls). Qed.

(** C3, as stated, fails: the returned value does not carry the factor
    list.  Two sessions with different factor lists get the same returned
    value, so no reader of the result can recover the list. *)
Lemma calculateRiskScore_omits_factors :
  ~ (exists f : RiskResult -> list string,
       forall (s : Session) (ls : LocalStorage),
         f (calculateRiskScore s ls) = riskFactors (scoring s ls)).
Proof.
  intros [f H].
  pose proof (H Sample.lowConfidence NoItem) as H1.
  pose proof (H Sample.blacklisted NoItem) as H2.
  assert (E : calculateRiskScore Sample.lowConfidence NoItem
              = calculateRiskScore Sample.blacklisted NoItem)
    by (vm_compute; reflexivity).
  rewrite E, H2 in H1. vm_compute in H1. discriminate H1.
Qed.

(** C3, amended: the returned value is made of the clamped score and of
    the level read off that score, and of nothing else: any two calls that
    return the same score return the same value.  The factor labels that
    fired are collected in a local list, without duplicates, which is not
    part of the returned value. *)
Theorem returned_value_is_score_and_level
    (s s' : Session) (ls ls' : LocalStorage) :
  let r := calculateRiskScore s ls in
  riskScore r = clampScore (score (scoring s ls))
  /\ riskLevel r = levelOf (riskScore r)
  /\ NoDup (riskFactors (scoring s ls))
  /\ (riskScore r = riskScore (calculateRiskScore s' ls') ->
      r = calculateRiskScore s' ls').
Proof.
  cbv zeta. repeat split.
  - apply scoring_labels_NoDup.
  - unfold calculateRiskScore, resultOf. simpl. now intros ->.
Qed.

Lemma returned_value_is_score_and_level_witness :
  calculateRiskScore Sample.lowConfidence NoItem
  = calculateRiskScore Sample.blacklisted NoItem
  /\ riskFactors (scoring Sample.lowConfidence NoItem)
     <> riskFactors (scoring Sample.blacklisted NoItem).
Proof.
  split.
  - apply (returned_value_is_score_and_level
             Sample.lowConfidence Sample.blacklisted NoItem NoItem).
    vm_compute. reflexivity.
  - vm_compute. discriminate.
Defined.

(** C7, as stated, fails: the language block adds two points and appends
    no label. *)
Lemma stepLanguage_adds_without_label :
  ~ (forall (ls : LocalStorage) (step : Session -> Acc -> Acc),
       In step (steps ls) ->
       forall (s : Session) (a : Acc),
         score a < score (step s a) ->
         (length (riskFactors a) < length (riskFactors (step s a)))%nat).
Proof.
  intros H.
  assert (Hin : In stepLanguage (steps NoItem))
    by (unfold steps; simpl; do 14 right; left; reflexivity).
  assert (Hlt : score init < score (stepLanguage Sample.lowConfidenceEnUS init))
    by (vm_compute; reflexivity).
  pose proof (H NoItem stepLanguage Hin Sample.lowConfidenceEnUS init Hlt) as Hlen.
  vm_compute in Hlen. lia.
Qed.

(** C7, amended: the points added to the score are those of the labels
    appended, each label standing for its fixed number of points, plus the
    three additions that append no label (0.4 times the network risk score,
    12 per suspicious pattern, 2 for an empty or default language).  The
    labels are appended in the order of the blocks, and the list never
    holds a label twice. *)
Theorem scoring_points_and_labels (s : Session) (ls : LocalStorage) :
  let a := scoring s ls in
  score a == unlabelledPoints s + Qsum (map labelPoints (riskFactors a))
  /\ sublist (riskFactors a) factorLabels
  /\ NoDup (riskFactors a).
Proof.
  cbv zeta. split; [apply score_accounted | split].
  - apply scoring_labels_sublist.
  - apply scoring_labels_NoDup.
Qed.

(** ** Absent signals *)

Lemma runBlocks_skip_incognito (s : Session) (ls : LocalStorage) (network : bool) :
  IncognitoDetection.isIncognito (incognitoDetection s) = false ->
  runBlocks (stepsWithout false network ls) s
  = runBlocks (stepsWithout true network ls) s.
Proof.
  intros H. unfold runBlocks, stepsWithout. simpl.
  unfold stepIncognito at 1. now rewrite H.
Qed.

Lemma runBlocks_skip_ip (s : Session) (ls : LocalStorage) (privacy : bool) :
  ipAnalysis s = None ->
  runBlocks (stepsWithout privacy false ls) s
  = runBlocks (stepsWithout privacy true ls) s.
Proof.
  intros H. unfold runBlocks, stepsWithout. rewrite !fold_left_app. simpl.
  unfold stepIP at 1. now rewrite H.
Qed.

Lemma checked_asObject (s : Session) : checked (asObject s) = Some s.
Proof. now destruct s. Qed.

(** C4: a session in which the privacy signal and/or the network signal is
    absent is scored without an error, and each absent signal adds nothing:
    the result is the one computed without the block on that signal.  The
    network signal is absent when [ipAnalysis] is [null].  The privacy
    signal is a mandatory field of the session; it is absent when it
    reports no detection, which is what the caller passes when its producer
    failed. *)
Theorem absent_signals_add_nothing (s : Session) (ls : LocalStorage) :
  calculateRiskScore_unchecked (asObject s) ls = Some (calculateRiskScore s ls)
  /\ (ipAnalysis s = None ->
      calculateRiskScore s ls
      = resultOf (runBlocks (stepsWithout false true ls) s))
  /\ (IncognitoDetection.isIncognito (incognitoDetection s) = false ->
      calculateRiskScore s ls
      = resultOf (runBlocks (stepsWithout true false ls) s))
  /\ (ipAnalysis s = None ->
      IncognitoDetection.isIncognito (incognitoDetection s) = false ->
      calculateRiskScore s ls
      = resultOf (runBlocks (stepsWithout true true ls) s)).
Proof.
  split.
  - unfold calculateRiskScore_unchecked. now rewrite checked_asObject.
  - unfold calculateRiskScore, scoring.
    change (steps ls) with (stepsWithout false false ls).
    split; [| split].
    + intros Hip. now rewrite (runBlocks_skip_ip s ls false Hip).
    + intros Hinc. now rewrite (runBlocks_skip_incognito s ls false Hinc).
    + intros Hip Hinc.
      now rewrite (runBlocks_skip_incognito s ls false Hinc),
                  (runBlocks_skip_ip s ls true Hip).
Qed.

Lemma absent_signals_add_nothing_witness :
  calculateRiskScore Sample.lowConfidence NoItem
  = resultOf (runBlocks (stepsWithout true true NoItem) Sample.lowConfidence)
  /\ calculateRiskScore Sample.blacklisted GetItemThrows
     = resultOf (runBlocks (stepsWithout true false GetItemThrows) Sample.blacklisted).
Proof.
  split.
  - apply (absent_signals_add_nothing Sample.lowConfidence NoItem); reflexivity.
  - apply (absent_signals_add_nothing Sample.blacklisted GetItemThrows). reflexivity.
Defined.

(** ** Blocks that add nothing *)

(** Settles the comparisons of the goal from the bounds at hand. *)
Ltac num_cases :=
  unfold num_gt in *;
  repeat match goal with
         | H : num_lt _ _ = true |- _ => apply num_lt_true in H
         | H : num_lt _ _ = false |- _ => apply num_lt_false in H
         end;
  repeat match goal with
         | |- context [num_lt ?x ?y] =>
             let E := fresh "E" in
             destruct (num_lt x y) eqn:E;
             [apply num_lt_true in E | apply num_lt_false in E];
             try (exfalso; lra)
         end.

Lemma calculateRiskScore_at s ls q :
  score (scoring s ls) == q ->
  calculateRiskScore s ls
  = {| riskScore := clampScore q; riskLevel := levelOf (clampScore q) |}.
Proof.
  intros H. unfold calculateRiskScore, resultOf. cbv zeta.
  now rewrite (clampScore_proper _ _ H).
Qed.

Lemma points_stepIncognito_off s :
  IncognitoDetection.isIncognito (incognitoDetection s) = false ->
  pointsOf stepIncognito s == 0.
Proof. intros H. unfold pointsOf, stepIncognito. now rewrite H. Qed.

Lemma points_stepIP_absent s : ipAnalysis s = None -> pointsOf stepIP s == 0.
Proof. intros H. unfold pointsOf, stepIP. now rewrite H. Qed.

Lemma points_stepPatterns_none s :
  BehaviorAnalysis.suspiciousPatterns (behaviorAnalysis s) = [] ->
  pointsOf stepPatterns s == 0.
Proof. intros H. unfold pointsOf, stepPatterns. now rewrite H. Qed.

Lemma points_stepSpeed_slow s :
  BehaviorAnalysis.interactionSpeed (behaviorAnalysis s) <= 1000 ->
  pointsOf stepSpeed s == 0.
Proof.
  intros H. unfold pointsOf, stepSpeed. cbv zeta. num_cases. reflexivity.
Qed.

Lemma points_stepBurst_off s :
  num_lt (BehaviorAnalysis.timeOnPage (behaviorAnalysis s)) 5000
  && num_gt (totalInteractions (behaviorAnalysis s)) 50 = false ->
  pointsOf stepBurst s == 0.
Proof.
  intros H. unfold pointsOf, stepBurst. cbv zeta. rewrite H.
  apply andb_false_iff in H.
  destruct H as [H|H]; num_cases; reflexivity.
Qed.

Lemma points_stepMinimal_off s :
  num_gt (BehaviorAnalysis.timeOnPage (behaviorAnalysis s)) 30000
  && num_lt (totalInteractions (behaviorAnalysis s)) 5 = false ->
  pointsOf stepMinimal s == 0.
Proof. intros H. unfold pointsOf, stepMinimal. cbv zeta. now rewrite H. Qed.

Lemma points_stepHistory_low ls s :
  ipAnalysis s = None ->
  (forall c, getDeviceCount ls (DeviceFingerprint.visitorId (deviceFingerprint s))
             = Some c -> c <= 10) ->
  pointsOf (stepHistory ls) s == 0.
Proof.
  intros Hip Hc. unfold pointsOf, stepHistory. cbv zeta. rewrite Hip.
  destruct (getDeviceCount _ _) as [c|]; [|reflexivity].
  specialize (Hc c eq_refl). num_cases. reflexivity.
Qed.

Lemma plainEnvironment_points s :
  plainEnvironment s = true ->
  pointsOf stepHeadless s == 0 /\ pointsOf stepAutomation s == 0
  /\ pointsOf stepBotAgent s == 0 /\ pointsOf stepOutdated s == 0
  /\ pointsOf stepScreen s == 0 /\ pointsOf stepTimezone s == 0
  /\ pointsOf stepLanguage s == 0.
Proof.
  unfold plainEnvironment. cbv zeta.
  rewrite !andb_true_iff, !negb_true_iff.
  intros [[[[[[H1 H2] H3] H4] H5] H6] H7].
  unfold pointsOf, stepHeadless, stepAutomation, stepBotAgent, stepOutdated,
    stepScreen, stepTimezone, stepLanguage.
  cbv zeta. rewrite H1, H2, H3, H4, H5, H6, H7.
  repeat split; reflexivity.
Qed.

(** ** The low-confidence scenario *)

(** C6, as stated, fails: the conditions of the scenario leave the
    language free, and a browser set to US English gets two more points. *)
Lemma low_confidence_en_US_scores_42 :
  ~ (forall (s : Session) (ls : LocalStorage),
       DeviceFingerprint.confidence (deviceFingerprint s) == 0.2 ->
       IncognitoDetection.isIncognito (incognitoDetection s) = false ->
       ipAnalysis s = None ->
       BehaviorAnalysis.suspiciousPatterns (behaviorAnalysis s) = [] ->
       totalInteractions (behaviorAnalysis s) == 10 ->
       BehaviorAnalysis.timeOnPage (behaviorAnalysis s) == 60000 ->
       BehaviorAnalysis.interactionSpeed (behaviorAnalysis s) == 10 ->
       (forall c,
          getDeviceCount ls (DeviceFingerprint.visitorId (deviceFingerprint s))
          = Some c -> c == 0) ->
       calculateRiskScore s ls = {| riskScore := 40; riskLevel := MEDIUM |}).
Proof.
  intros H.
  assert (E : calculateRiskScore Sample.lowConfidenceEnUS NoItem
              = {| riskScore := 40; riskLevel := MEDIUM |}).
  { apply H; try reflexivity. intros c [= <-]. reflexivity. }
  vm_compute in E. discriminate E.
Qed.

(** C6, amended: with device confidence 0.2, no incognito detection, no
    network signal, no suspicious pattern, 10 interactions in 60000 ms at
    10 per minute and a device never seen before, the calculator returns
    40 and MEDIUM, provided the user agent carries no automation, bot or
    old-browser marker, the screen resolution is neither 0x0 nor 1x1, the
    timezone is neither empty nor UTC and the language is neither empty nor
    en nor en-US. *)
Theorem scenario_low_confidence (s : Session) (ls : LocalStorage) :
  DeviceFingerprint.confidence (deviceFingerprint s) == 0.2 ->
  IncognitoDetection.isIncognito (incognitoDetection s) = false ->
  ipAnalysis s = None ->
  BehaviorAnalysis.suspiciousPatterns (behaviorAnalysis s) = [] ->
  totalInteractions (behaviorAnalysis s) == 10 ->
  BehaviorAnalysis.timeOnPage (behaviorAnalysis s) == 60000 ->
  BehaviorAnalysis.interactionSpeed (behaviorAnalysis s) == 10 ->
  (forall c,
     getDeviceCount ls (DeviceFingerprint.visitorId (deviceFingerprint s))
     = Some c -> c == 0) ->
  plainEnvironment s = true ->
  calculateRiskScore s ls = {| riskScore := 40; riskLevel := MEDIUM |}.
Proof.
  intros Hconf Hinc Hip Hpat Htot Htime Hspeed Hcount Henv.
  apply (calculateRiskScore_at s ls 40).
  rewrite scoring_score. unfold steps. simpl map. unfold Qsum. simpl fold_right.
  destruct (plainEnvironment_points s Henv) as (E1 & E2 & E3 & E4 & E5 & E6 & E7).
  rewrite E1, E2, E3, E4, E5, E6, E7.
  rewrite (points_stepIncognito_off s Hinc), (points_stepIP_absent s Hip),
    (points_stepPatterns_none s Hpat).
  rewrite (points_stepSpeed_slow s) by lra.
  rewrite (points_stepBurst_off s) by (num_cases; reflexivity).
  rewrite (points_stepMinimal_off s) by (num_cases; reflexivity).
  rewrite (points_stepHistory_low ls s Hip)
    by (intros c Hc; specialize (Hcount c Hc); lra).
  assert (Hfp : pointsOf stepFingerprint s == 40).
  { unfold pointsOf, stepFingerprint. cbv zeta. num_cases. reflexivity. }
  rewrite Hfp. reflexivity.
Qed.

Lemma scenario_low_confidence_witness :
  calculateRiskScore Sample.lowConfidence NoItem
  = {| riskScore := 40; riskLevel := MEDIUM |}.
Proof.
  apply (scenario_low_confidence Sample.lowConfidence NoItem);
    try reflexivity.
  intros c [= <-]. reflexivity.
Defined.

(** ** The two versions of the calculator *)

(** C5, as stated, fails: the two versions weigh the device confidence
    differently. *)
Lemma calculators_differ :
  ~ (forall (s : Session) (ls : LocalStorage),
       inject_Z (riskScore (calculateRiskScore s ls))
       == Baseline.riskScore (Baseline.calculateRiskScore s ls)
       /\ riskLevel (calculateRiskScore s ls)
          = Baseline.riskLevel (Baseline.calculateRiskScore s ls)).
Proof.
  intros H.
  destruct (H Sample.lowConfidence NoItem) as [E _].
  vm_compute in E. discriminate E.
Qed.

(** C5, amended: the two versions return the same score and the same level
    on every session and store on which no test of either version succeeds
    and no suspicious pattern is listed; both then return 0 and LOW. *)
Theorem calculators_agree_when_no_rule_fires (s : Session) (ls : LocalStorage) :
  noRuleFires s ls = true ->
  inject_Z (riskScore (calculateRiskScore s ls))
  == Baseline.riskScore (Baseline.calculateRiskScore s ls)
  /\ riskLevel (calculateRiskScore s ls)
     = Baseline.riskLevel (Baseline.calculateRiskScore s ls)
  /\ calculateRiskScore s ls = {| riskScore := 0; riskLevel := LOW |}.
Proof.
  unfold noRuleFires. cbv zeta.
  rewrite !andb_true_iff, !negb_true_iff.
  intros [[[[[[[[[[[[[[[[Hconf Hinc] Hip] Hpat] Hfast] Hslow] Hburst] Hburst']
                    Hmin] Hcount] Hua1] Hua2] Hua3] Hua4] Hscr] Htz] Hlang].
  destruct (ipAnalysis s) as [ipA|] eqn:Eip; [discriminate Hip | clear Hip].
  destruct (BehaviorAnalysis.suspiciousPatterns (behaviorAnalysis s))
    as [|p ps] eqn:Epat; [clear Hpat | discriminate Hpat].
  assert (Hnew : calculateRiskScore s ls = {| riskScore := 0; riskLevel := LOW |}).
  { apply (calculateRiskScore_at s ls 0).
    rewrite scoring_score. unfold steps. simpl map. unfold Qsum. simpl fold_right.
    assert (Henv : plainEnvironment s = true).
    { unfold plainEnvironment. cbv zeta.
      now rewrite Hua1, Hua2, Hua3, Hua4, Hscr, Htz, Hlang. }
    destruct (plainEnvironment_points s Henv) as (E1 & E2 & E3 & E4 & E5 & E6 & E7).
    rewrite E1, E2, E3, E4, E5, E6, E7.
    rewrite (points_stepIncognito_off s Hinc), (points_stepIP_absent s Eip),
      (points_stepPatterns_none s Epat).
    rewrite (points_stepSpeed_slow s) by (num_cases; lra).
    rewrite (points_stepBurst_off s Hburst), (points_stepMinimal_off s Hmin).
    rewrite (points_stepHistory_low ls s Eip).
    2:{ intros c Hc. rewrite Hc in Hcount. apply negb_true_iff in Hcount.
        num_cases. lra. }
    assert (Hfp : pointsOf stepFingerprint s == 0).
    { unfold pointsOf, stepFingerprint. cbv zeta. num_cases. reflexivity. }
    rewrite Hfp. reflexivity. }
  rewrite Hnew. simpl riskScore. simpl riskLevel.
  apply orb_false_iff in Hua1 as [Hua1 _].
  unfold Baseline.calculateRiskScore, Baseline.scoring. cbv zeta.
  rewrite Hinc, Eip, Epat, Hfast, Hslow, Hburst', Hua1, Hconf.
  destruct (getDeviceCount ls _) as [c|];
    [apply negb_true_iff in Hcount; rewrite Hcount |];
    num_cases; vm_compute; repeat split; reflexivity.
Qed.

Lemma calculators_agree_when_no_rule_fires_witness :
  let s := withDevice (Sample.device 0.9) Sample.lowConfidence in
  calculateRiskScore s Sample.seenOthers = {| riskScore := 0; riskLevel := LOW |}
  /\ Baseline.riskLevel (Baseline.calculateRiskScore s Sample.seenOthers) = LOW.
Proof.
  destruct (calculators_agree_when_no_rule_fires
              (withDevice (Sample.device 0.9) Sample.lowConfidence)
              Sample.seenOthers eq_refl) as (_ & Hlevel & Hnew).
  split; [exact Hnew |].
  rewrite <- Hlevel, Hnew. reflexivity.
Defined.

(** ** Out-of-range inputs *)

(** C8, as stated, fails: the inputs are used as they come.  A network risk
    score of 150 weighs 60 points, the clamped one 40. *)
Lemma calculateRiskScore_does_not_clamp_inputs :
  ~ (forall (s : Session) (ls : LocalStorage),
       calculateRiskScore (clampSignals s) ls = calculateRiskScore s ls).
Proof.
  intros H. specialize (H Sample.wildReputation NoItem).
  vm_compute in H. discriminate H.
Qed.

Lemma num_lt_clampTo c t :
  0 < t -> t <= 1 -> num_lt (clampTo 0 1 c) t = num_lt c t.
Proof.
  intros H0 H1. apply eq_true_iff_eq. rewrite !num_lt_true. unfold clampTo.
  destruct (Q.max_spec 0 (Qmin 1 c)) as [[Hm Em]|[Hm Em]],
           (Q.min_spec 1 c) as [[Hn En]|[Hn En]];
    split; intros H; lra.
Qed.

Lemma points_stepFingerprint_clampConfidence s :
  pointsOf stepFingerprint (clampConfidence s) = pointsOf stepFingerprint s.
Proof.
  unfold pointsOf, stepFingerprint, clampConfidence. cbv zeta.
  unfold withDevice, deviceFingerprint, DeviceFingerprint.confidence.
  rewrite !num_lt_clampTo by lra. reflexivity.
Qed.

(** Replaces the session in every block that reads the same from both. *)
Ltac points_same s1 s2 :=
  repeat match goal with
         | |- context [pointsOf ?step s1] =>
             change (pointsOf step s1) with (pointsOf step s2)
         end.

Lemma calculateRiskScore_clampConfidence (s : Session) (ls : LocalStorage) :
  calculateRiskScore (clampConfidence s) ls = calculateRiskScore s ls.
Proof.
  apply calculateRiskScore_of_score.
  rewrite !scoring_score. unfold steps. simpl map.
  rewrite points_stepFingerprint_clampConfidence.
  points_same (clampConfidence s) s. reflexivity.
Qed.

(** C8, amended: the calculator clamps nothing but the final score, and
    returns a result whatever the values.  For the device confidence this
    makes no difference: every session scores the same with its confidence
    clamped into [0, 1].  Negative event counts and a network risk score
    outside [0, 100] are used as they are: there are sessions that score
    otherwise with their event counts clamped, and sessions that score
    otherwise with their network risk score clamped. *)
Theorem calculateRiskScore_clamps_confidence_only :
  (forall (s : Session) (ls : LocalStorage),
     calculateRiskScore_unchecked (asObject s) ls = Some (calculateRiskScore s ls)
     /\ calculateRiskScore (clampConfidence s) ls = calculateRiskScore s ls)
  /\ calculateRiskScore (clampCounts Sample.negativeCounts) NoItem
     <> calculateRiskScore Sample.negativeCounts NoItem
  /\ calculateRiskScore (clampReputation Sample.wildReputation) NoItem
     <> calculateRiskScore Sample.wildReputation NoItem.
Proof.
  split; [| split].
  - intros s ls. split.
    + unfold calculateRiskScore_unchecked. now rewrite checked_asObject.
    + apply calculateRiskScore_clampConfidence.
  - vm_compute. discriminate.
  - vm_compute. discriminate.
Qed.

(** ** The network risk score *)

Lemma score_flag_if c p l a :
  score (flag_if c p l a) == score a + (if c then p else 0).
Proof. destruct c; simpl; ring. Qed.

Lemma points_stepIP_present s i :
  ipAnalysis s = Some i ->
  pointsOf stepIP s == IPAnalysis.riskScore i * 0.4 + networkFlagPoints i.
Proof.
  intros H. unfold pointsOf, stepIP. rewrite H. cbv zeta.
  rewrite !score_flag_if. unfold networkFlagPoints. simpl. ring.
Qed.

(** C9: with everything else fixed, a larger network risk score never gives
    a smaller returned score. *)
Theorem calculateRiskScore_monotone_in_reputation
    (s : Session) (ls : LocalStorage) (r1 r2 : number) :
  r1 <= r2 ->
  (riskScore (calculateRiskScore (withReputation r1 s) ls)
   <= riskScore (calculateRiskScore (withReputation r2 s) ls))%Z.
Proof.
  intros H. unfold calculateRiskScore, resultOf. simpl riskScore.
  apply clampScore_mono.
  rewrite !scoring_score. unfold steps. simpl map. unfold Qsum. simpl fold_right.
  unfold withReputation. destruct (ipAnalysis s) as [i|]; simpl option_map.
  - rewrite (points_stepIP_present (withIP (Some (setRiskScore r1 i)) s)
               (setRiskScore r1 i) eq_refl),
            (points_stepIP_present (withIP (Some (setRiskScore r2 i)) s)
               (setRiskScore r2 i) eq_refl).
    points_same (withIP (Some (setRiskScore r1 i)) s)
                (withIP (Some (setRiskScore r2 i)) s).
    change (networkFlagPoints (setRiskScore r1 i)) with (networkFlagPoints i).
    change (networkFlagPoints (setRiskScore r2 i)) with (networkFlagPoints i).
    change (IPAnalysis.riskScore (setRiskScore r1 i)) with r1.
    change (IPAnalysis.riskScore (setRiskScore r2 i)) with r2.
    lra.
  - apply Qle_refl.
Qed.

Lemma calculateRiskScore_monotone_in_reputation_witness :
  let s := withIP (Some (Sample.address 30)) Sample.lowConfidence in
  (riskScore (calculateRiskScore (withReputation 30 s) Sample.seenAddress)
   <= riskScore (calculateRiskScore (withReputation 80 s) Sample.seenAddress))%Z.
Proof.
  apply (calculateRiskScore_monotone_in_reputation
           (withIP (Some (Sample.address 30)) Sample.lowConfidence)
           Sample.seenAddress 30 80).
  vm_compute. discriminate.
Defined.

(** ** The user agent *)

(** [H] says that a label comes from a block whose labels, by [A], do not
    include it. *)
Ltac not_from_block H A :=
  let B := fresh "B" in
  pose proof (elem_of_sublist _ _ _ H (proj1 (proj2 A))) as B;
  revert B; clear; intros B;
  repeat (apply elem_of_cons in B as [B|B]; [discriminate B|]);
  now apply elem_of_nil in B.

Lemma headless_label_iff (s : Session) (ls : LocalStorage) :
  "headless-browser" ∈ riskFactors (scoring s ls)
  <-> isHeadless (toLowerCase (userAgent s)) = true.
Proof.
  rewrite scoring_labels. unfold steps. simpl map. simpl concat.
  rewrite !elem_of_app.
  split.
  - intros H.
    repeat match goal with
           | H : _ \/ _ |- _ => destruct H as [H|H]
           end.
    all: try (exfalso;
              first
                [ not_from_block H (accounted_stepFingerprint s)
                | not_from_block H (accounted_stepIncognito s)
                | not_from_block H (accounted_stepIP s)
                | not_from_block H (accounted_stepPatterns s)
                | not_from_block H (accounted_stepSpeed s)
                | not_from_block H (accounted_stepBurst s)
                | not_from_block H (accounted_stepMinimal s)
                | not_from_block H (accounted_stepHistory ls s)
                | not_from_block H (accounted_stepAutomation s)
                | not_from_block H (accounted_stepBotAgent s)
                | not_from_block H (accounted_stepOutdated s)
                | not_from_block H (accounted_stepScreen s)
                | not_from_block H (accounted_stepTimezone s)
                | not_from_block H (accounted_stepLanguage s)
                | now apply elem_of_nil in H ]).
    unfold labelsOf, stepHeadless in H. cbv zeta in H.
    destruct (isHeadless (toLowerCase (userAgent s))); [reflexivity |].
    now apply elem_of_nil in H.
  - intros H. do 8 right. left.
    unfold labelsOf, stepHeadless. cbv zeta. rewrite H.
    apply list_elem_of_singleton. reflexivity.
Qed.

Lemma points_userAgent_tests (s : Session) (ua1 ua2 : string) :
  isAutomationTool (toLowerCase ua1) = isAutomationTool (toLowerCase ua2) ->
  isBotAgent (toLowerCase ua1) = isBotAgent (toLowerCase ua2) ->
  isOutdated (toLowerCase ua1) = isOutdated (toLowerCase ua2) ->
  pointsOf stepAutomation (withUserAgent ua1 s)
  = pointsOf stepAutomation (withUserAgent ua2 s)
  /\ pointsOf stepBotAgent (withUserAgent ua1 s)
     = pointsOf stepBotAgent (withUserAgent ua2 s)
  /\ pointsOf stepOutdated (withUserAgent ua1 s)
     = pointsOf stepOutdated (withUserAgent ua2 s).
Proof.
  intros H1 H2 H3.
  unfold pointsOf, stepAutomation, stepBotAgent, stepOutdated, withUserAgent,
    userAgent.
  cbv zeta. now rewrite H1, H2, H3.
Qed.

(** C10, as stated, fails: the four tests on the user agent are
    independent.  A headless browser that also announces a crawler has,
    before the clamp, 100 points more than the same session with a user
    agent that contains none of the markers. *)
Lemma headless_crawler_adds_100 :
  ~ (forall (s : Session) (ls : LocalStorage) (ua1 ua2 : string),
       isHeadless (toLowerCase ua1) = true ->
       isHeadless (toLowerCase ua2) = false ->
       score (scoring (withUserAgent ua1 s) ls)
       == score (scoring (withUserAgent ua2 s) ls) + 60).
Proof.
  intros H.
  specialize (H Sample.lowConfidence NoItem Sample.headlessGooglebot Sample.firefox
                eq_refl eq_refl).
  vm_compute in H. discriminate H.
Qed.

(** C10, amended: the score depends on the user agent.  A session whose
    lowercased user agent contains headless, phantom, selenium or
    chromedriver has, before the clamp, exactly 60 points more, and the
    factor headless-browser, compared with the same session with a user
    agent that contains none of the four, provided the two user agents fare
    the same in the three other tests that the calculator makes on the user
    agent (automation tool, bot, outdated browser). *)
Theorem headless_user_agent_adds_60
    (s : Session) (ls : LocalStorage) (ua1 ua2 : string) :
  isHeadless (toLowerCase ua1) = true ->
  isHeadless (toLowerCase ua2) = false ->
  isAutomationTool (toLowerCase ua1) = isAutomationTool (toLowerCase ua2) ->
  isBotAgent (toLowerCase ua1) = isBotAgent (toLowerCase ua2) ->
  isOutdated (toLowerCase ua1) = isOutdated (toLowerCase ua2) ->
  score (scoring (withUserAgent ua1 s) ls)
  == score (scoring (withUserAgent ua2 s) ls) + 60
  /\ "headless-browser" ∈ riskFactors (scoring (withUserAgent ua1 s) ls)
  /\ "headless-browser" ∉ riskFactors (scoring (withUserAgent ua2 s) ls).
Proof.
  intros Hh1 Hh2 Ha Hb Ho. split; [| split].
  - rewrite !scoring_score. unfold steps. simpl map. unfold Qsum. simpl fold_right.
    destruct (points_userAgent_tests s ua1 ua2 Ha Hb Ho) as (Ea & Eb & Eo).
    rewrite Ea, Eb, Eo.
    assert (E1 : pointsOf stepHeadless (withUserAgent ua1 s) == 60).
    { unfold pointsOf, stepHeadless, withUserAgent, userAgent. cbv zeta.
      rewrite Hh1. reflexivity. }
    assert (E2 : pointsOf stepHeadless (withUserAgent ua2 s) == 0).
    { unfold pointsOf, stepHeadless, withUserAgent, userAgent. cbv zeta.
      rewrite Hh2. reflexivity. }
    rewrite E1, E2.
    points_same (withUserAgent ua1 s) (withUserAgent ua2 s).
    ring.
  - apply headless_label_iff. exact Hh1.
  - rewrite headless_label_iff. simpl userAgent. rewrite Hh2. discriminate.
Qed.

Lemma headless_user_agent_adds_60_witness :
  let s1 := withUserAgent Sample.headlessChrome Sample.lowConfidence in
  let s2 := withUserAgent Sample.firefox Sample.lowConfidence in
  score (scoring s1 NoItem) == score (scoring s2 NoItem) + 60
  /\ calculateRiskScore s1 NoItem <> calculateRiskScore s2 NoItem.
Proof.
  split.
  - apply (headless_user_agent_adds_60
             Sample.lowConfidence NoItem Sample.headlessChrome Sample.firefox);
      reflexivity.
  - vm_compute. discriminate.
Defined.

(** * Properties of the rest of the demo *)

(** ** The history store, written *)

Lemma numbers_lookup (h : Storage.History) (k : string) :
  Storage.numbers h !! k
  = match h !! k with
    | Some (Storage.Count n) => Some n
    | Some Storage.Text | None => None
    end.
Proof.
  unfold Storage.numbers. rewrite lookup_omap.
  now destruct (h !! k) as [[n|]|].
Qed.

Lemma bump_lookup_ne (h : Storage.History) (k k' : string) :
  k <> k' -> Storage.bump k h !! k' = h !! k'.
Proof.
  intros H. unfold Storage.bump.
  destruct (h !! k); [| destruct (String.eqb k "__proto__")];
    try reflexivity; now rewrite lookup_insert_ne.
Qed.

(** Under a name that is not inherited, a bump stores the entry that
    [(h[key] || 0) + 1] makes. *)
Lemma bump_lookup_eq (h : Storage.History) (k : string) :
  Storage.inherited k = false ->
  Storage.bump k h !! k = Some (Storage.orZeroPlusOne (Storage.get h k)).
Proof.
  intros H. unfold Storage.bump.
  destruct (h !! k) eqn:E; [now rewrite lookup_insert_eq |].
  destruct (String.eqb k "__proto__") eqn:Ek; [| now rewrite lookup_insert_eq].
  apply String.eqb_eq in Ek. subst k. discriminate H.
Qed.

(** Under an inherited name that the object does not have of its own, a
    bump stores a text, or nothing. *)
Lemma bump_lookup_inherited (h : Storage.History) (k : string) :
  Storage.inherited k = true -> h !! k = None ->
  Storage.bump k h !! k = Some Storage.Text \/ Storage.bump k h !! k = None.
Proof.
  intros H E. unfold Storage.bump, Storage.get. rewrite E, H.
  destruct (String.eqb k "__proto__"); [now right |].
  left. now rewrite lookup_insert_eq.
Qed.

Lemma countOf_bump_ne (h : Storage.History) (k k' : string) :
  k <> k' ->
  countOf (Some (Storage.numbers (Storage.bump k h))) k'
  = countOf (Some (Storage.numbers h)) k'.
Proof.
  intros H. unfold countOf. now rewrite !numbers_lookup, bump_lookup_ne.
Qed.

Lemma countOf_bump_eq (h : Storage.History) (k : string) :
  Storage.counted (Some h) k = true ->
  countOf (Some (Storage.numbers (Storage.bump k h))) k
  = Some (default 0 (Storage.numbers h !! k) + 1).
Proof.
  unfold Storage.counted. intros H.
  apply andb_true_iff in H as [Hk Hh]. apply negb_true_iff in Hk.
  unfold countOf. rewrite !numbers_lookup, (bump_lookup_eq h k Hk).
  unfold Storage.get. rewrite Hk.
  destruct (h !! k) as [[n|]|]; [reflexivity | discriminate Hh | reflexivity].
Qed.

Lemma countable_counted h k room :
  Storage.countable h k room = true -> Storage.counted h k = true.
Proof. unfold Storage.countable. intros H. now apply andb_true_iff in H as [H _]. Qed.

(** A bump keeps counted what was counted, and not counted what was not. *)
Lemma counted_bump (h : Storage.History) (k k' : string) :
  Storage.counted (Some h) k = true ->
  Storage.counted (Some (Storage.bump k' h)) k = true.
Proof.
  unfold Storage.counted. intros H.
  apply andb_true_iff in H as [Hk Hh]. rewrite Hk. cbn [andb].
  destruct (String.eqb_spec k' k) as [-> | Hne].
  - apply negb_true_iff in Hk. rewrite (bump_lookup_eq h k Hk).
    unfold Storage.get. rewrite Hk.
    destruct (h !! k) as [[n|]|]; [reflexivity | discriminate Hh | reflexivity].
  - now rewrite (bump_lookup_ne h k' k Hne).
Qed.

Lemma uncounted_bump (h : Storage.History) (k k' : string) :
  Storage.uncounted (Some h) k = true ->
  Storage.uncounted (Some (Storage.bump k' h)) k = true.
Proof.
  unfold Storage.uncounted. intros H.
  apply andb_true_iff in H as [Hk Hh]. rewrite Hk. cbn [andb].
  destruct (String.eqb_spec k' k) as [-> | Hne].
  - unfold Storage.bump, Storage.get. rewrite Hk.
    destruct (h !! k) as [[n|]|] eqn:E; [discriminate Hh | |].
    + now rewrite lookup_insert_eq.
    + destruct (String.eqb k "__proto__"); [now rewrite E |].
      now rewrite lookup_insert_eq.
  - now rewrite (bump_lookup_ne h k' k Hne).
Qed.

Lemma countOf_uncounted (h : Storage.History) (k : string) :
  Storage.uncounted (Some h) k = true ->
  countOf (Some (Storage.numbers h)) k = Some 0.
Proof.
  unfold Storage.uncounted. intros H. apply andb_true_iff in H as [_ Hh].
  unfold countOf. rewrite numbers_lookup.
  destruct (h !! k) as [[n|]|]; [discriminate Hh | reflexivity | reflexivity].
Qed.

(** The calculator's reads see the numbers of the two histories of the
    stored value. *)
Lemma view_getStoredFingerprints (now : number) (st : Storage.State) :
  getStoredFingerprints (Storage.view st)
  = mkStored
      (option_map Storage.numbers
         (Storage.deviceHistory (Storage.getStoredFingerprints now st)))
      (option_map Storage.numbers
         (Storage.ipHistory (Storage.getStoredFingerprints now st))).
Proof. destruct st; reflexivity. Qed.

(** What a save that goes through leaves in the storage. *)
Lemma saveFingerprint_usable (now : number) (session : FingerprintSession.t)
    (st : Storage.State) :
  Storage.usable st = true ->
  exists l dh ih,
    Storage.getStoredFingerprints now st
    = Storage.mkParsed (Some l) (Some dh) (Some ih)
        (Storage.lastUpdated (Storage.getStoredFingerprints now st))
    /\ Storage.saveFingerprint true now session st
       = Storage.Holding
           (Storage.mkParsed
              (Some (take 50 (session :: l)))
              (Some (Storage.bump (deviceOf session) dh))
              (Some (match addressOf session with
                     | Some a => Storage.bump a ih
                     | None => ih
                     end))
              (Some now)).
Proof.
  intros Hu.
  assert (Htake : forall l : list FingerprintSession.t,
             (if (50 <? length (session :: l))%nat
              then take 50 (session :: l) else session :: l)
             = take 50 (session :: l)).
  { intros l. destruct (Nat.ltb_spec 50 (length (session :: l))); [reflexivity |].
    symmetry. apply take_ge. lia. }
  unfold Storage.saveFingerprint, addressOf, deviceOf. cbv zeta.
  destruct st as [| | |[[l|] [dh|] [ih|] lu]]; try discriminate Hu;
    simpl Storage.getStoredFingerprints; cbn [Storage.sessions Storage.deviceHistory Storage.ipHistory Storage.lastUpdated];
    rewrite Htake;
    eexists _, _, _; (split; [reflexivity |]);
    destruct (ipAnalysis (FingerprintSession.data session)); reflexivity.
Qed.

(** A save that cannot write leaves the storage as it was. *)
Lemma saveFingerprint_cannot_write (fits : bool) (now : number)
    (session : FingerprintSession.t) (st : Storage.State) :
  fits = false \/ st = Storage.Unavailable ->
  Storage.saveFingerprint fits now session st = st.
Proof.
  intros H. unfold Storage.saveFingerprint. cbv zeta.
  destruct (Storage.sessions _); [| reflexivity].
  destruct (Storage.deviceHistory _); [| reflexivity].
  assert (Hset : forall v, Storage.setItem fits v st = None)
    by (intros v; destruct H as [-> | ->]; [now destruct st | reflexivity]).
  destruct (ipAnalysis _); [destruct (Storage.ipHistory _); [| reflexivity] |];
    now rewrite Hset.
Qed.

(** What a save can do to the storage, in general. *)
Lemma saveFingerprint_cases (fits : bool) (now : number)
    (session : FingerprintSession.t) (st : Storage.State) :
  Storage.saveFingerprint fits now session st = st
  \/ exists l dh ih',
       Storage.sessions (Storage.getStoredFingerprints now st) = Some l
       /\ Storage.deviceHistory (Storage.getStoredFingerprints now st) = Some dh
       /\ (ih' = Storage.ipHistory (Storage.getStoredFingerprints now st)
           \/ exists a ih,
                Storage.ipHistory (Storage.getStoredFingerprints now st) = Some ih
                /\ ih' = Some (Storage.bump a ih))
       /\ Storage.saveFingerprint fits now session st
          = Storage.Holding
              (Storage.mkParsed (Some (take 50 (session :: l)))
                 (Some (Storage.bump (deviceOf session) dh)) ih' (Some now)).
Proof.
  assert (Htake : forall l : list FingerprintSession.t,
             (if (50 <? length (session :: l))%nat
              then take 50 (session :: l) else session :: l)
             = take 50 (session :: l)).
  { intros l. destruct (Nat.ltb_spec 50 (length (session :: l))); [reflexivity |].
    symmetry. apply take_ge. lia. }
  unfold Storage.saveFingerprint, deviceOf. cbv zeta.
  destruct (Storage.sessions (Storage.getStoredFingerprints now st)) as [l|];
    [| now left].
  destruct (Storage.deviceHistory (Storage.getStoredFingerprints now st)) as [dh|];
    [| now left].
  rewrite Htake.
  destruct (ipAnalysis (FingerprintSession.data session)) as [ipA|];
    [destruct (Storage.ipHistory (Storage.getStoredFingerprints now st)) as [ih|] eqn:Eih;
     [| now left] |];
    (destruct st, fits; simpl;
     first [now left
           | right; eexists _, _, _; repeat split; try reflexivity; eauto ]).
Qed.



(** X2: on a store that can take a session, a save that goes through adds
    one to the count of the session's address, when the session has a
    network signal, and leaves the count of every other address as it was;
    a session without network signal leaves all address counts as they
    were.  The address is no name that objects inherit, and its count so
    far is a whole number below 2^53. *)
Theorem saveFingerprint_address_count (now : number) (session : FingerprintSession.t)
    (st : Storage.State) :
  Storage.usable st = true ->
  let st' := Storage.saveFingerprint true now session st in
  match addressOf session with
  | Some a =>
    (Storage.countable (Storage.ipHistory (Storage.getStoredFingerprints now st)) a 1
     = true ->
     exists c, getIPCount (Storage.view st) a = Some c
               /\ getIPCount (Storage.view st') a = Some (c + 1))
    /\ forall a', a' <> a ->
         getIPCount (Storage.view st') a' = getIPCount (Storage.view st) a'
  | None =>
    forall a', getIPCount (Storage.view st') a' = getIPCount (Storage.view st) a'
  end.
Proof.
  intros Hu. cbv zeta.
  destruct (saveFingerprint_usable now session st Hu) as (l & dh & ih & Hst & ->).
  unfold getIPCount. rewrite (view_getStoredFingerprints now st), Hst.
  cbn [Storage.view getStoredFingerprints ipHistory Storage.ipHistory option_map].
  destruct (addressOf session) as [a|].
  - split.
    + intros Hc. eexists. split; [reflexivity |].
      exact (countOf_bump_eq ih a (countable_counted _ _ _ Hc)).
    + intros a' Ha. apply countOf_bump_ne. congruence.
  - reflexivity.
Qed.

Lemma saveFingerprint_address_count_witness :
  getIPCount
    (Storage.view (Storage.saveFingerprint true 1700000000000
                     (FingerprintSession.mk Sample.blacklisted 40 MEDIUM)
                     Storage.Empty))
    "203.0.113.7"
  = Some (0 + 1).
Proof.
  destruct (saveFingerprint_address_count 1700000000000
              (FingerprintSession.mk Sample.blacklisted 40 MEDIUM)
              Storage.Empty eq_refl) as [H _].
  destruct (H eq_refl) as (c & Hc & Hc').
  injection Hc as <-. exact Hc'.
Defined.

(** X3: after a save that goes through, the stored sessions are the new
    session followed by the sessions stored before, cut after the fiftieth:
    the new session comes first and at most fifty are kept. *)
Theorem saveFingerprint_sessions (now now' : number) (session : FingerprintSession.t)
    (st : Storage.State) :
  Storage.usable st = true ->
  exists old,
    Storage.storedSessions now st = Some old
    /\ Storage.storedSessions now'
         (Storage.saveFingerprint true now session st)
       = Some (take 50 (session :: old))
    /\ head (take 50 (session :: old)) = Some session
    /\ length (take 50 (session :: old)) = Nat.min 50 (S (length old)).
Proof.
  intros Hu.
  destruct (saveFingerprint_usable now session st Hu) as (l & dh & ih & Hst & ->).
  exists l. unfold Storage.storedSessions. rewrite Hst. simpl.
  repeat split. now rewrite length_take.
Qed.

Lemma saveFingerprint_sessions_witness :
  Storage.storedSessions 0
    (Storage.saveFingerprint true 1700000000000
       (FingerprintSession.mk Sample.lowConfidence 40 MEDIUM) Storage.Empty)
  = Some [FingerprintSession.mk Sample.lowConfidence 40 MEDIUM].
Proof.
  destruct (saveFingerprint_sessions 1700000000000 0
              (FingerprintSession.mk Sample.lowConfidence 40 MEDIUM)
              Storage.Empty eq_refl) as (old & Hold & Hnew & _).
  injection Hold as <-. exact Hnew.
Defined.

(** X4: a save is all or nothing, on a store whose item, if any, is of the
    declared type, with finite numbers as counts.  When the storage is not
    accessible or the item does not fit, the storage is left as it was; in
    every case the storage is either left as it was, or it holds a value
    with the new session in front, the device history after
    [h[id] = (h[id] || 0) + 1] (a count raised by one, or a text under a
    name that objects inherit) and the time of the save. *)
Theorem saveFingerprint_all_or_nothing (fits : bool) (now : number)
    (session : FingerprintSession.t) (st : Storage.State) :
  let st' := Storage.saveFingerprint fits now session st in
  (fits = false \/ st = Storage.Unavailable -> st' = st)
  /\ (st' = st
      \/ exists l dh ih,
           Storage.sessions (Storage.getStoredFingerprints now st) = Some l
           /\ Storage.deviceHistory (Storage.getStoredFingerprints now st) = Some dh
           /\ st' = Storage.Holding
                      (Storage.mkParsed (Some (take 50 (session :: l)))
                         (Some (Storage.bump (deviceOf session) dh)) ih (Some now))).
Proof.
  cbv zeta. split; [apply saveFingerprint_cannot_write |].
  destruct (saveFingerprint_cases fits now session st)
    as [H | (l & dh & ih' & Hl & Hdh & _ & H)]; [now left | right].
  now exists l, dh, ih'.
Qed.

Lemma saveFingerprint_all_or_nothing_witness :
  Storage.saveFingerprint false 1700000000000
    (FingerprintSession.mk Sample.lowConfidence 40 MEDIUM) Storage.Corrupt
  = Storage.Corrupt.
Proof.
  apply (saveFingerprint_all_or_nothing false 1700000000000
           (FingerprintSession.mk Sample.lowConfidence 40 MEDIUM) Storage.Corrupt).
  left. reflexivity.
Defined.

Lemma saveFingerprint_keeps_usable fits now session st :
  Storage.usable st = true ->
  Storage.usable (Storage.saveFingerprint fits now session st) = true.
Proof.
  intros Hu. destruct fits.
  - destruct (saveFingerprint_usable now session st Hu) as (l & dh & ih & _ & ->).
    reflexivity.
  - now rewrite (saveFingerprint_cannot_write false now session st (or_introl eq_refl)).
Qed.

Lemma saveFingerprint_keeps_bounded fits now session st :
  Storage.usable st = true -> bounded st ->
  bounded (Storage.saveFingerprint fits now session st).
Proof.
  intros Hu Hb. destruct fits.
  - destruct (saveFingerprint_usable now session st Hu) as (l & dh & ih & _ & ->).
    intros now' l' Hl'. unfold Storage.storedSessions in Hl'.
    cbn [Storage.getStoredFingerprints Storage.sessions] in Hl'.
    injection Hl' as <-. change (session :: take 49 l) with (take 50 (session :: l)).
    rewrite length_take. lia.
  - now rewrite (saveFingerprint_cannot_write false now session st (or_introl eq_refl)).
Qed.

(** X5: whatever sessions are saved, at whatever times and whether they fit
    or not, a store that could take a session still can, and a session list
    of at most fifty stays at most fifty. *)
Theorem saveAll_keeps_store_sound
    (saves : list (bool * number * FingerprintSession.t)) (st : Storage.State) :
  Storage.usable st = true -> bounded st ->
  Storage.usable (saveAll saves st) = true /\ bounded (saveAll saves st).
Proof.
  revert st. induction saves as [|[[fits now] session] saves IH]; intros st Hu Hb.
  - now split.
  - apply IH.
    + now apply saveFingerprint_keeps_usable.
    + now apply saveFingerprint_keeps_bounded.
Qed.

Lemma saveAll_keeps_store_sound_witness :
  Storage.usable
    (saveAll [(true, 1700000000000, FingerprintSession.mk Sample.lowConfidence 40 MEDIUM);
              (false, 1700000060000, FingerprintSession.mk Sample.blacklisted 40 MEDIUM)]
       Storage.Empty) = true.
Proof.
  apply (saveAll_keeps_store_sound
           [(true, 1700000000000, FingerprintSession.mk Sample.lowConfidence 40 MEDIUM);
            (false, 1700000060000, FingerprintSession.mk Sample.blacklisted 40 MEDIUM)]
           Storage.Empty eq_refl).
  intros now l Hl. unfold Storage.storedSessions in Hl. simpl in Hl.
  injection Hl as <-. simpl. lia.
Defined.

(** ** The history block and the counters *)

Lemma points_stepHistory ls s :
  pointsOf (stepHistory ls) s
  == match getDeviceCount ls (DeviceFingerprint.visitorId (deviceFingerprint s)) with
     | None => 0
     | Some c =>
       devicePenalty c
       + match ipAnalysis s with
         | Some ipA =>
           match getIPCount ls (IPAnalysis.ip ipA) with
           | Some c' => addressPenalty c'
           | None => 0
           end
         | None => 0
         end
     end.
Proof.
  unfold pointsOf, stepHistory, devicePenalty, addressPenalty. cbv zeta.
  destruct (getDeviceCount ls _) as [c|]; [| reflexivity].
  destruct (ipAnalysis s) as [ipA|];
    [destruct (getIPCount ls _) as [c'|] |];
    repeat match goal with
           | |- context [num_gt ?x ?y] => destruct (num_gt x y)
           end;
    reflexivity.
Qed.

Lemma devicePenalty_mono c c' : c <= c' -> devicePenalty c <= devicePenalty c'.
Proof. intros H. unfold devicePenalty. num_cases; lra. Qed.

Lemma addressPenalty_mono c c' : c <= c' -> addressPenalty c <= addressPenalty c'.
Proof. intros H. unfold addressPenalty. num_cases; lra. Qed.

Lemma devicePenalty_proper c c' : c == c' -> devicePenalty c == devicePenalty c'.
Proof.
  intros H. unfold devicePenalty, num_gt.
  now rewrite !(num_lt_proper _ _ c c' (Qeq_refl _) H).
Qed.

Lemma addressPenalty_proper c c' : c == c' -> addressPenalty c == addressPenalty c'.
Proof.
  intros H. unfold addressPenalty, num_gt.
  now rewrite !(num_lt_proper _ _ c c' (Qeq_refl _) H).
Qed.

Lemma addressPenalty_nonneg c : 0 <= addressPenalty c.
Proof. unfold addressPenalty. num_cases; lra. Qed.

(** The history block adds at least as much when the counters it reads
    are at least as large. *)
Lemma stepHistory_mono ls ls' s :
  countLe (getDeviceCount ls (DeviceFingerprint.visitorId (deviceFingerprint s)))
          (getDeviceCount ls' (DeviceFingerprint.visitorId (deviceFingerprint s))) ->
  (forall ipA, ipAnalysis s = Some ipA ->
     countLe (getIPCount ls (IPAnalysis.ip ipA)) (getIPCount ls' (IPAnalysis.ip ipA))) ->
  pointsOf (stepHistory ls) s <= pointsOf (stepHistory ls') s.
Proof.
  intros Hd Hi. rewrite !points_stepHistory.
  destruct (getDeviceCount ls _) as [c|], (getDeviceCount ls' _) as [c'|];
    simpl in Hd; try contradiction; [| apply Qle_refl].
  pose proof (devicePenalty_mono c c' Hd).
  destruct (ipAnalysis s) as [ipA|]; [| lra].
  specialize (Hi ipA eq_refl).
  destruct (getIPCount ls _) as [a|], (getIPCount ls' _) as [a'|];
    simpl in Hi; try contradiction; [| lra].
  pose proof (addressPenalty_mono a a' Hi). lra.
Qed.

(** A bump lowers no count that the calculator reads: a number grows by
    one, and a text stays a text. *)
Lemma countOf_bump_le (h : Storage.History) (k k' : string) :
  countLe (countOf (Some (Storage.numbers h)) k')
          (countOf (Some (Storage.numbers (Storage.bump k h))) k').
Proof.
  destruct (String.eqb_spec k k') as [<- | Hne].
  - unfold countOf, countLe. rewrite !numbers_lookup.
    unfold Storage.bump, Storage.get.
    destruct (h !! k) as [[n|]|] eqn:E.
    + rewrite lookup_insert_eq. simpl. lra.
    + rewrite lookup_insert_eq. simpl. lra.
    + destruct (String.eqb k "__proto__").
      * rewrite E. simpl. lra.
      * rewrite lookup_insert_eq.
        destruct (Storage.inherited k); simpl; lra.
  - rewrite (countOf_bump_ne h k k' Hne). simpl. apply Qle_refl.
Qed.

Lemma countLe_refl o : countLe o o.
Proof. destruct o; simpl; [apply Qle_refl | exact I]. Qed.

(** X6: saving a session never lowers the score of any session: on a store
    whose item, if any, is of the declared type, with finite numbers as
    counts, and whether the save goes through or not, every session scores
    at least as much after the save as before. *)
Theorem saveFingerprint_never_lowers_score (fits : bool) (now : number)
    (saved : FingerprintSession.t) (st : Storage.State) (s : Session) :
  (riskScore (calculateRiskScore s (Storage.view st))
   <= riskScore (calculateRiskScore s
                   (Storage.view (Storage.saveFingerprint fits now saved st))))%Z.
Proof.
  unfold calculateRiskScore, resultOf. simpl riskScore. apply clampScore_mono.
  rewrite !scoring_score. unfold steps. simpl map. unfold Qsum. simpl fold_right.
  assert (H : pointsOf (stepHistory (Storage.view st)) s
              <= pointsOf (stepHistory
                             (Storage.view (Storage.saveFingerprint fits now saved st))) s).
  { destruct (saveFingerprint_cases fits now saved st)
      as [-> | (l & dh & ih' & Hl & Hdh & Hih & ->)]; [apply Qle_refl |].
    apply stepHistory_mono; unfold getDeviceCount, getIPCount;
      rewrite (view_getStoredFingerprints now st);
      cbn [Storage.view getStoredFingerprints deviceHistory ipHistory
           Storage.deviceHistory Storage.ipHistory].
    - rewrite Hdh. cbn [option_map]. apply countOf_bump_le.
    - intros ipA _. destruct Hih as [-> | (a & ih & -> & ->)].
      + apply countLe_refl.
      + cbn [option_map]. apply countOf_bump_le. }
  lra.
Qed.

(** X7: after the history is cleared, every device count and every address
    count reads zero (under a name that objects do not inherit), no session
    is listed, and the history block of the calculator adds nothing to any
    session; this holds even when the storage cannot be reached. *)
Theorem clearStoredFingerprints_resets (st : Storage.State) (now : number)
    (key : string) (s : Session) :
  let st' := Storage.clearStoredFingerprints st in
  (Storage.inherited key = false ->
   getDeviceCount (Storage.view st') key = Some 0
   /\ getIPCount (Storage.view st') key = Some 0)
  /\ Storage.storedSessions now st' = Some []
  /\ pointsOf (stepHistory (Storage.view st')) s == 0.
Proof.
  cbv zeta.
  assert (Hv : getStoredFingerprints (Storage.view (Storage.clearStoredFingerprints st))
               = emptyStored) by now destruct st.
  assert (Hd : forall k, getDeviceCount
                           (Storage.view (Storage.clearStoredFingerprints st)) k = Some 0)
    by (intros k; unfold getDeviceCount; now rewrite Hv).
  assert (Hi : forall k, getIPCount
                           (Storage.view (Storage.clearStoredFingerprints st)) k = Some 0)
    by (intros k; unfold getIPCount; now rewrite Hv).
  split; [intros _; split; [apply Hd | apply Hi] |].
  split; [now destruct st |].
  rewrite points_stepHistory, Hd.
  destruct (ipAnalysis s) as [ipA|]; [rewrite Hi |]; reflexivity.
Qed.

Lemma clearStoredFingerprints_resets_witness :
  getDeviceCount (Storage.view (Storage.clearStoredFingerprints Storage.Corrupt)) "7f3a9c"
  = Some 0.
Proof.
  apply (clearStoredFingerprints_resets Storage.Corrupt 0 "7f3a9c" Sample.lowConfidence).
  reflexivity.
Defined.

(** The histories of a store that can take a session. *)
Lemma usable_histories now st :
  Storage.usable st = true ->
  exists dh ih,
    Storage.deviceHistory (Storage.getStoredFingerprints now st) = Some dh
    /\ Storage.ipHistory (Storage.getStoredFingerprints now st) = Some ih.
Proof.
  destruct st as [| | |[[l|] [dh|] [ih|] lu]]; try discriminate; intros _;
    eexists _, _; split; reflexivity.
Qed.

(** The histories that are read do not depend on the clock. *)
Lemma deviceHistory_any_now now now' st :
  Storage.deviceHistory (Storage.getStoredFingerprints now st)
  = Storage.deviceHistory (Storage.getStoredFingerprints now' st).
Proof. now destruct st. Qed.

Lemma ipHistory_any_now now now' st :
  Storage.ipHistory (Storage.getStoredFingerprints now st)
  = Storage.ipHistory (Storage.getStoredFingerprints now' st).
Proof. now destruct st. Qed.

(** The histories after one save. *)
Lemma saveFingerprint_histories fits now now' session st dh ih :
  Storage.usable st = true ->
  Storage.deviceHistory (Storage.getStoredFingerprints now st) = Some dh ->
  Storage.ipHistory (Storage.getStoredFingerprints now st) = Some ih ->
  let st' := Storage.saveFingerprint fits now session st in
  Storage.deviceHistory (Storage.getStoredFingerprints now' st')
  = Some (if fits then Storage.bump (deviceOf session) dh else dh)
  /\ Storage.ipHistory (Storage.getStoredFingerprints now' st')
     = Some (if fits
             then match addressOf session with
                  | Some a => Storage.bump a ih
                  | None => ih
                  end
             else ih).
Proof.
  intros Hu Hdh Hih. cbv zeta. destruct fits.
  - destruct (saveFingerprint_usable now session st Hu) as (l & dh' & ih' & Hst & ->).
    rewrite Hst in Hdh, Hih. cbn in Hdh, Hih.
    injection Hdh as ->. injection Hih as ->. now split.
  - rewrite (saveFingerprint_cannot_write false now session st (or_introl eq_refl)).
    rewrite (deviceHistory_any_now now' now st), (ipHistory_any_now now' now st), Hdh, Hih.
    now split.
Qed.

(** The reads of the calculator, by history. *)
Lemma getDeviceCount_view now st d :
  getDeviceCount (Storage.view st) d
  = countOf (option_map Storage.numbers
               (Storage.deviceHistory (Storage.getStoredFingerprints now st))) d.
Proof. unfold getDeviceCount. now rewrite (view_getStoredFingerprints now st). Qed.

Lemma getIPCount_view now st a :
  getIPCount (Storage.view st) a
  = countOf (option_map Storage.numbers
               (Storage.ipHistory (Storage.getStoredFingerprints now st))) a.
Proof. unfold getIPCount. now rewrite (view_getStoredFingerprints now st). Qed.

(** One bump, seen through the reads: a counted key gains one when it is
    the key that is bumped, and keeps its count otherwise. *)
Lemma countOf_bump_counted (h : Storage.History) (k k' : string) :
  Storage.counted (Some h) k = true ->
  exists c c',
    countOf (Some (Storage.numbers h)) k = Some c
    /\ countOf (Some (Storage.numbers (Storage.bump k' h))) k = Some c'
    /\ c' == c + ofNat (if String.eqb k' k then 1 else 0).
Proof.
  intros Hc. destruct (String.eqb_spec k' k) as [-> | Hne].
  - eexists _, _. split; [reflexivity |]. split; [now apply countOf_bump_eq |].
    reflexivity.
  - eexists _, _. split; [reflexivity |].
    split; [apply (countOf_bump_ne _ _ _ Hne) |].
    change (ofNat 0) with 0. now rewrite Qplus_0_r.
Qed.

(** The count of a device, resp. an address, that is counted, after one
    save. *)
Lemma saveFingerprint_device_delta fits now session st d :
  Storage.usable st = true ->
  Storage.counted (Storage.deviceHistory (Storage.getStoredFingerprints now st)) d
  = true ->
  let st' := Storage.saveFingerprint fits now session st in
  (exists c c',
     getDeviceCount (Storage.view st) d = Some c
     /\ getDeviceCount (Storage.view st') d = Some c'
     /\ c' == c + ofNat (visitsOfDevice d (writtenOf [(fits, now, session)])))
  /\ Storage.counted (Storage.deviceHistory (Storage.getStoredFingerprints now st')) d
     = true.
Proof.
  intros Hu Hc. cbv zeta.
  destruct (usable_histories now st Hu) as (dh & ih & Hdh & Hih).
  destruct (saveFingerprint_histories fits now now session st dh ih Hu Hdh Hih)
    as [Hdh' _].
  rewrite (getDeviceCount_view now st),
    (getDeviceCount_view now (Storage.saveFingerprint fits now session st)), Hdh, Hdh'.
  rewrite Hdh in Hc. cbn [option_map].
  unfold visitsOfDevice, writtenOf. cbn [List.filter fst snd map].
  destruct fits; cbn [List.filter map fst snd].
  - destruct (countOf_bump_counted dh d (deviceOf session) Hc) as (c & c' & H1 & H2 & E).
    split; [| now apply counted_bump].
    exists c, c'. split; [exact H1 |]. split; [exact H2 |].
    rewrite E. now destruct (String.eqb (deviceOf session) d).
  - split; [| exact Hc].
    eexists _, _. split; [reflexivity |]. split; [reflexivity |].
    simpl length. change (ofNat 0) with 0. now rewrite Qplus_0_r.
Qed.

Lemma saveFingerprint_address_delta fits now session st a :
  Storage.usable st = true ->
  Storage.counted (Storage.ipHistory (Storage.getStoredFingerprints now st)) a = true ->
  let st' := Storage.saveFingerprint fits now session st in
  (exists c c',
     getIPCount (Storage.view st) a = Some c
     /\ getIPCount (Storage.view st') a = Some c'
     /\ c' == c + ofNat (visitsOfAddress a (writtenOf [(fits, now, session)])))
  /\ Storage.counted (Storage.ipHistory (Storage.getStoredFingerprints now st')) a
     = true.
Proof.
  intros Hu Hc. cbv zeta.
  destruct (usable_histories now st Hu) as (dh & ih & Hdh & Hih).
  destruct (saveFingerprint_histories fits now now session st dh ih Hu Hdh Hih)
    as [_ Hih'].
  rewrite (getIPCount_view now st),
    (getIPCount_view now (Storage.saveFingerprint fits now session st)), Hih, Hih'.
  rewrite Hih in Hc. cbn [option_map].
  unfold visitsOfAddress, writtenOf. cbn [List.filter fst snd map].
  destruct fits; cbn [List.filter map fst snd].
  - destruct (addressOf session) as [a'|].
    + destruct (countOf_bump_counted ih a a' Hc) as (c & c' & H1 & H2 & E).
      split; [| now apply counted_bump].
      exists c, c'. split; [exact H1 |]. split; [exact H2 |].
      rewrite E. now destruct (String.eqb a' a).
    + split; [| exact Hc].
      eexists _, _. split; [reflexivity |]. split; [reflexivity |].
      simpl length. change (ofNat 0) with 0. now rewrite Qplus_0_r.
  - split; [| exact Hc].
    eexists _, _. split; [reflexivity |]. split; [reflexivity |].
    simpl length. change (ofNat 0) with 0. now rewrite Qplus_0_r.
Qed.

(** A name that is not counted reads as zero, before and after a save. *)
Lemma saveFingerprint_device_uncounted fits now session st d :
  Storage.usable st = true ->
  Storage.uncounted (Storage.deviceHistory (Storage.getStoredFingerprints now st)) d
  = true ->
  let st' := Storage.saveFingerprint fits now session st in
  getDeviceCount (Storage.view st) d = Some 0
  /\ Storage.uncounted (Storage.deviceHistory (Storage.getStoredFingerprints now st')) d
     = true.
Proof.
  intros Hu Hc. cbv zeta.
  destruct (usable_histories now st Hu) as (dh & ih & Hdh & Hih).
  destruct (saveFingerprint_histories fits now now session st dh ih Hu Hdh Hih)
    as [Hdh' _].
  rewrite (getDeviceCount_view now st), Hdh, Hdh'. rewrite Hdh in Hc. cbn [option_map].
  split; [now apply countOf_uncounted |].
  destruct fits; [now apply uncounted_bump | exact Hc].
Qed.

Lemma saveFingerprint_address_uncounted fits now session st a :
  Storage.usable st = true ->
  Storage.uncounted (Storage.ipHistory (Storage.getStoredFingerprints now st)) a
  = true ->
  let st' := Storage.saveFingerprint fits now session st in
  getIPCount (Storage.view st) a = Some 0
  /\ Storage.uncounted (Storage.ipHistory (Storage.getStoredFingerprints now st')) a
     = true.
Proof.
  intros Hu Hc. cbv zeta.
  destruct (usable_histories now st Hu) as (dh & ih & Hdh & Hih).
  destruct (saveFingerprint_histories fits now now session st dh ih Hu Hdh Hih)
    as [_ Hih'].
  rewrite (getIPCount_view now st), Hih, Hih'. rewrite Hih in Hc. cbn [option_map].
  split; [now apply countOf_uncounted |].
  destruct fits; [| exact Hc].
  destruct (addressOf session); [now apply uncounted_bump | exact Hc].
Qed.

Lemma ofNat_add n m : ofNat (n + m) == ofNat n + ofNat m.
Proof. unfold ofNat. now rewrite Nat2Z.inj_add, inject_Z_plus. Qed.

Lemma visits_cons_device d e saves :
  visitsOfDevice d (writtenOf (e :: saves))
  = (visitsOfDevice d (writtenOf [e]) + visitsOfDevice d (writtenOf saves))%nat.
Proof.
  unfold visitsOfDevice, writtenOf. simpl.
  destruct (fst (fst e)); simpl; [| reflexivity].
  destruct (String.eqb _ d); reflexivity.
Qed.

Lemma visits_cons_address a e saves :
  visitsOfAddress a (writtenOf (e :: saves))
  = (visitsOfAddress a (writtenOf [e]) + visitsOfAddress a (writtenOf saves))%nat.
Proof.
  unfold visitsOfAddress, writtenOf. simpl.
  destruct (fst (fst e)); simpl; [| reflexivity].
  destruct (addressOf (snd e)) as [a'|]; [destruct (String.eqb a' a) |]; reflexivity.
Qed.

Lemma saveAll_device_counted (saves : list (bool * number * FingerprintSession.t))
    (st : Storage.State) (d : string) :
  Storage.usable st = true ->
  Storage.counted (Storage.deviceHistory (Storage.getStoredFingerprints 0 st)) d = true ->
  exists c c',
    getDeviceCount (Storage.view st) d = Some c
    /\ getDeviceCount (Storage.view (saveAll saves st)) d = Some c'
    /\ c' == c + ofNat (visitsOfDevice d (writtenOf saves)).
Proof.
  revert st. induction saves as [|[[fits now] session] saves IH]; intros st Hu Hc.
  - destruct (saveFingerprint_device_delta false 0
                (FingerprintSession.mk Sample.lowConfidence 0 LOW) st d Hu Hc)
      as [(c & _ & H & _ & _) _].
    exists c, c. split; [exact H |]. split; [exact H |].
    simpl length. change (ofNat 0) with 0. now rewrite Qplus_0_r.
  - rewrite (deviceHistory_any_now 0 now) in Hc.
    destruct (saveFingerprint_device_delta fits now session st d Hu Hc)
      as [(c0 & c1 & H0 & H1 & E0) Hc'].
    rewrite (deviceHistory_any_now now 0) in Hc'.
    destruct (IH _ (saveFingerprint_keeps_usable fits now session st Hu) Hc')
      as (c1' & c2 & H1' & H2 & E).
    rewrite H1 in H1'. injection H1' as <-.
    exists c0, c2. split; [exact H0 |]. split; [exact H2 |].
    rewrite visits_cons_device, ofNat_add, E, E0. ring.
Qed.

Lemma saveAll_address_counted (saves : list (bool * number * FingerprintSession.t))
    (st : Storage.State) (a : string) :
  Storage.usable st = true ->
  Storage.counted (Storage.ipHistory (Storage.getStoredFingerprints 0 st)) a = true ->
  exists c c',
    getIPCount (Storage.view st) a = Some c
    /\ getIPCount (Storage.view (saveAll saves st)) a = Some c'
    /\ c' == c + ofNat (visitsOfAddress a (writtenOf saves)).
Proof.
  revert st. induction saves as [|[[fits now] session] saves IH]; intros st Hu Hc.
  - destruct (saveFingerprint_address_delta false 0
                (FingerprintSession.mk Sample.lowConfidence 0 LOW) st a Hu Hc)
      as [(c & _ & H & _ & _) _].
    exists c, c. split; [exact H |]. split; [exact H |].
    simpl length. change (ofNat 0) with 0. now rewrite Qplus_0_r.
  - rewrite (ipHistory_any_now 0 now) in Hc.
    destruct (saveFingerprint_address_delta fits now session st a Hu Hc)
      as [(c0 & c1 & H0 & H1 & E0) Hc'].
    rewrite (ipHistory_any_now now 0) in Hc'.
    destruct (IH _ (saveFingerprint_keeps_usable fits now session st Hu) Hc')
      as (c1' & c2 & H1' & H2 & E).
    rewrite H1 in H1'. injection H1' as <-.
    exists c0, c2. split; [exact H0 |]. split; [exact H2 |].
    rewrite visits_cons_address, ofNat_add, E, E0. ring.
Qed.

Lemma saveAll_device_uncounted (saves : list (bool * number * FingerprintSession.t))
    (st : Storage.State) (d : string) :
  Storage.usable st = true ->
  Storage.uncounted (Storage.deviceHistory (Storage.getStoredFingerprints 0 st)) d
  = true ->
  getDeviceCount (Storage.view (saveAll saves st)) d = Some 0.
Proof.
  revert st. induction saves as [|[[fits now] session] saves IH]; intros st Hu Hc.
  - now destruct (saveFingerprint_device_uncounted false 0
                    (FingerprintSession.mk Sample.lowConfidence 0 LOW) st d Hu Hc).
  - rewrite (deviceHistory_any_now 0 now) in Hc.
    destruct (saveFingerprint_device_uncounted fits now session st d Hu Hc) as [_ Hc'].
    rewrite (deviceHistory_any_now now 0) in Hc'.
    exact (IH _ (saveFingerprint_keeps_usable fits now session st Hu) Hc').
Qed.

Lemma saveAll_address_uncounted (saves : list (bool * number * FingerprintSession.t))
    (st : Storage.State) (a : string) :
  Storage.usable st = true ->
  Storage.uncounted (Storage.ipHistory (Storage.getStoredFingerprints 0 st)) a = true ->
  getIPCount (Storage.view (saveAll saves st)) a = Some 0.
Proof.
  revert st. induction saves as [|[[fits now] session] saves IH]; intros st Hu Hc.
  - now destruct (saveFingerprint_address_uncounted false 0
                    (FingerprintSession.mk Sample.lowConfidence 0 LOW) st a Hu Hc).
  - rewrite (ipHistory_any_now 0 now) in Hc.
    destruct (saveFingerprint_address_uncounted fits now session st a Hu Hc) as [_ Hc'].
    rewrite (ipHistory_any_now now 0) in Hc'.
    exact (IH _ (saveFingerprint_keeps_usable fits now session st Hu) Hc').
Qed.

(** X8: after a run of saves on a store that can take sessions, the count
    of a device is its count before plus the number of written sessions of
    that device, and likewise for an address.  The identifier is no name
    that objects inherit, and its count so far is a whole number that
    leaves room for the written sessions below 2^53. *)
Theorem saveAll_counts (saves : list (bool * number * FingerprintSession.t))
    (st : Storage.State) (d a : string) :
  Storage.usable st = true ->
  (Storage.countable (Storage.deviceHistory (Storage.getStoredFingerprints 0 st)) d
     (visitsOfDevice d (writtenOf saves)) = true ->
   exists c c',
     getDeviceCount (Storage.view st) d = Some c
     /\ getDeviceCount (Storage.view (saveAll saves st)) d = Some c'
     /\ c' == c + ofNat (visitsOfDevice d (writtenOf saves)))
  /\ (Storage.countable (Storage.ipHistory (Storage.getStoredFingerprints 0 st)) a
        (visitsOfAddress a (writtenOf saves)) = true ->
      exists c c',
        getIPCount (Storage.view st) a = Some c
        /\ getIPCount (Storage.view (saveAll saves st)) a = Some c'
        /\ c' == c + ofNat (visitsOfAddress a (writtenOf saves))).
Proof.
  intros Hu. split; intros Hc.
  - apply (saveAll_device_counted saves st d Hu (countable_counted _ _ _ Hc)).
  - apply (saveAll_address_counted saves st a Hu (countable_counted _ _ _ Hc)).
Qed.

Lemma saveAll_counts_witness :
  exists c,
    getDeviceCount
      (Storage.view
         (saveAll [(true, 1700000000000, FingerprintSession.mk Sample.lowConfidence 40 MEDIUM);
                   (false, 1700000060000, FingerprintSession.mk Sample.lowConfidence 40 MEDIUM);
                   (true, 1700000120000, FingerprintSession.mk Sample.lowConfidence 40 MEDIUM)]
            Storage.Empty))
      "7f3a9c" = Some c
    /\ c == 2.
Proof.
  destruct (saveAll_counts
              [(true, 1700000000000, FingerprintSession.mk Sample.lowConfidence 40 MEDIUM);
               (false, 1700000060000, FingerprintSession.mk Sample.lowConfidence 40 MEDIUM);
               (true, 1700000120000, FingerprintSession.mk Sample.lowConfidence 40 MEDIUM)]
              Storage.Empty "7f3a9c" "203.0.113.7" eq_refl)
    as [H _].
  destruct (H eq_refl) as (c & c' & Hc & Hc' & E).
  exists c'. split; [exact Hc' |].
  injection Hc as <-. rewrite E. reflexivity.
Defined.

(** The penalties by number of visits. *)
Lemma devicePenalty_ofNat n :
  devicePenalty (ofNat n)
  = if (20 <? n)%nat then 25 else if (10 <? n)%nat then 15 else 0.
Proof.
  unfold devicePenalty, ofNat.
  destruct (Nat.ltb_spec 20 n), (Nat.ltb_spec 10 n); try lia;
    num_cases; try reflexivity;
    repeat match goal with
           | H : _ < inject_Z _ |- _ => change 20 with (inject_Z 20) in H;
                                        change 10 with (inject_Z 10) in H;
                                        rewrite <- Zlt_Qlt in H
           | H : inject_Z _ <= _ |- _ => change 20 with (inject_Z 20) in H;
                                         change 10 with (inject_Z 10) in H;
                                         rewrite <- Zle_Qle in H
           end; lia.
Qed.

Lemma addressPenalty_ofNat n :
  addressPenalty (ofNat n)
  = if (50 <? n)%nat then 30 else if (20 <? n)%nat then 20 else 0.
Proof.
  unfold addressPenalty, ofNat.
  destruct (Nat.ltb_spec 50 n), (Nat.ltb_spec 20 n); try lia;
    num_cases; try reflexivity;
    repeat match goal with
           | H : _ < inject_Z _ |- _ => change 50 with (inject_Z 50) in H;
                                        change 20 with (inject_Z 20) in H;
                                        rewrite <- Zlt_Qlt in H
           | H : inject_Z _ <= _ |- _ => change 50 with (inject_Z 50) in H;
                                         change 20 with (inject_Z 20) in H;
                                         rewrite <- Zle_Qle in H
           end; lia.
Qed.

(** What the history counts on a store that started empty. *)
Lemma saveAll_device_from_empty saves d :
  exists c,
    getDeviceCount (Storage.view (saveAll saves Storage.Empty)) d = Some c
    /\ c == ofNat (countedVisits d (visitsOfDevice d (writtenOf saves))).
Proof.
  unfold countedVisits. destruct (Storage.inherited d) eqn:Ed.
  - exists 0. split; [| reflexivity].
    apply saveAll_device_uncounted; [reflexivity |].
    unfold Storage.uncounted. now rewrite Ed.
  - destruct (saveAll_device_counted saves Storage.Empty d eq_refl)
      as (c & c' & Hc & Hc' & E).
    + unfold Storage.counted. now rewrite Ed.
    + injection Hc as <-. exists c'. split; [exact Hc' |].
      rewrite E. apply Qplus_0_l.
Qed.

Lemma saveAll_address_from_empty saves a :
  exists c,
    getIPCount (Storage.view (saveAll saves Storage.Empty)) a = Some c
    /\ c == ofNat (countedVisits a (visitsOfAddress a (writtenOf saves))).
Proof.
  unfold countedVisits. destruct (Storage.inherited a) eqn:Ea.
  - exists 0. split; [| reflexivity].
    apply saveAll_address_uncounted; [reflexivity |].
    unfold Storage.uncounted. now rewrite Ea.
  - destruct (saveAll_address_counted saves Storage.Empty a eq_refl)
      as (c & c' & Hc & Hc' & E).
    + unfold Storage.counted. now rewrite Ea.
    + injection Hc as <-. exists c'. split; [exact Hc' |].
      rewrite E. apply Qplus_0_l.
Qed.

(** X9: on a store that started empty, the history block of the calculator
    adds to a session 15 points from the eleventh and 25 points from the
    twenty-first written session of its device, plus, when the session has
    a network signal, 20 points from the twenty-first and 30 points from the
    fifty-first written session of its address.  Under a device identifier
    or an address that is a name that objects inherit, nothing is ever
    counted. *)
Theorem history_penalty_by_visits
    (saves : list (bool * number * FingerprintSession.t)) (s : Session) :
  let deviceId := DeviceFingerprint.visitorId (deviceFingerprint s) in
  let devices := countedVisits deviceId (visitsOfDevice deviceId (writtenOf saves)) in
  pointsOf (stepHistory (Storage.view (saveAll saves Storage.Empty))) s
  == (if (20 <? devices)%nat then 25 else if (10 <? devices)%nat then 15 else 0)
     + match ipAnalysis s with
       | Some ipA =>
         let addresses :=
           countedVisits (IPAnalysis.ip ipA)
             (visitsOfAddress (IPAnalysis.ip ipA) (writtenOf saves)) in
         if (50 <? addresses)%nat then 30
         else if (20 <? addresses)%nat then 20 else 0
       | None => 0
       end.
Proof.
  cbv zeta. rewrite <- devicePenalty_ofNat.
  rewrite points_stepHistory.
  destruct (saveAll_device_from_empty saves
              (DeviceFingerprint.visitorId (deviceFingerprint s))) as (c & -> & E).
  rewrite (devicePenalty_proper _ _ E).
  destruct (ipAnalysis s) as [ipA|]; [| reflexivity].
  rewrite <- addressPenalty_ofNat.
  destruct (saveAll_address_from_empty saves (IPAnalysis.ip ipA)) as (c' & -> & F).
  now rewrite (addressPenalty_proper _ _ F).
Qed.

(** ** Recommendations and display *)

Lemma levelName_cases (lvl : string) :
  (exists l, lvl = levelName l)
  \/ (String.eqb lvl "CRITICAL" = false /\ String.eqb lvl "HIGH" = false
      /\ String.eqb lvl "MEDIUM" = false /\ String.eqb lvl "LOW" = false).
Proof.
  destruct (String.eqb lvl "CRITICAL") eqn:E1;
    [left; exists CRITICAL; now apply String.eqb_eq |].
  destruct (String.eqb lvl "HIGH") eqn:E2;
    [left; exists HIGH; now apply String.eqb_eq |].
  destruct (String.eqb lvl "MEDIUM") eqn:E3;
    [left; exists MEDIUM; now apply String.eqb_eq |].
  destruct (String.eqb lvl "LOW") eqn:E4;
    [left; exists LOW; now apply String.eqb_eq |].
  now right.
Qed.

(** X10: what [getRiskRecommendations] returns does not depend on the
    score that is passed along.  It gives no recommendation exactly when
    the level string is none of the four level names (the comparison is
    case sensitive); for every result of the calculator it gives four
    recommendations, two when the level is LOW. *)
Theorem getRiskRecommendations_levels (lvl : string) (score score' : number)
    (s : Session) (ls : LocalStorage) :
  getRiskRecommendations lvl score = getRiskRecommendations lvl score'
  /\ (getRiskRecommendations lvl score = [] <-> forall l, lvl <> levelName l)
  /\ let r := calculateRiskScore s ls in
     length (getRiskRecommendations (levelName (riskLevel r)) score)
     = match riskLevel r with LOW => 2%nat | _ => 4%nat end.
Proof.
  split; [reflexivity |]. split.
  - split.
    + intros H l ->. destruct l; discriminate H.
    + intros H.
      destruct (levelName_cases lvl) as [[l ->] | (E1 & E2 & E3 & E4)];
        [now destruct (H l) |].
      unfold getRiskRecommendations. now rewrite E1, E2, E3, E4.
  - cbv zeta. now destruct (riskLevel (calculateRiskScore s ls)).
Qed.

Lemma getRiskRecommendations_levels_witness :
  getRiskRecommendations "critical" 100 = [].
Proof.
  apply (getRiskRecommendations_levels "critical" 100 0 Sample.lowConfidence NoItem).
  intros l. destruct l; discriminate.
Defined.

(** X11: the caller's display never falls back to its default for a level
    the calculator returns, and tells the four levels apart: different
    levels get different actions and different colours. *)
Theorem display_tells_levels_apart (l l' : RiskLevel) :
  getProtectionAction (levelName l) <> "❓ UNKNOWN"
  /\ getRiskColor (levelName l) <> "text-gray-600 bg-gray-100"
  /\ (getProtectionAction (levelName l) = getProtectionAction (levelName l') -> l = l')
  /\ (getRiskColor (levelName l) = getRiskColor (levelName l') -> l = l').
Proof.
  repeat split.
  - destruct l; discriminate.
  - destruct l; discriminate.
  - destruct l, l'; intros H; first [reflexivity | discriminate H].
  - destruct l, l'; intros H; first [reflexivity | discriminate H].
Qed.

Lemma display_tells_levels_apart_witness :
  getProtectionAction "CRITICAL" <> "❓ UNKNOWN" /\ CRITICAL = CRITICAL.
Proof.
  split.
  - apply (display_tells_levels_apart CRITICAL CRITICAL).
  - apply (display_tells_levels_apart CRITICAL CRITICAL). reflexivity.
Defined.

(** ** The privacy signal *)

Lemma ratio_gt (a : number) (p t : nat) :
  (0 < t)%nat ->
  a < inject_Z (Z.of_nat p) / inject_Z (Z.of_nat t)
  <-> a * inject_Z (Z.of_nat t) < inject_Z (Z.of_nat p).
Proof.
  intros Ht.
  assert (Hpos : 0 < inject_Z (Z.of_nat t)).
  { change 0 with (inject_Z 0). rewrite <- Zlt_Qlt. lia. }
  rewrite <- (Qmult_lt_r _ _ _ Hpos).
  assert (E : inject_Z (Z.of_nat p) / inject_Z (Z.of_nat t) * inject_Z (Z.of_nat t)
              == inject_Z (Z.of_nat p)) by (field; lra).
  now rewrite E.
Qed.

Lemma inject_nat_lt (a b : Z) (p t : nat) :
  inject_Z a * inject_Z (Z.of_nat t) < inject_Z b * inject_Z (Z.of_nat p)
  <-> (a * Z.of_nat t < b * Z.of_nat p)%Z.
Proof. now rewrite <- !inject_Z_mult, <- Zlt_Qlt. Qed.

Lemma positive_le_settled results :
  (Incognito.positive results <= Incognito.settled results)%nat.
Proof. unfold Incognito.positive, Incognito.settled. apply filter_length_le. Qed.

(** The verdict and the confidence in terms of the two counts. *)
Lemma summarize_counts results :
  let d := Incognito.summarize results in
  let p := Incognito.positive results in
  let t := Incognito.settled results in
  (IncognitoDetection.isIncognito d = true <-> (t < 2 * p)%nat)
  /\ (num_gt (IncognitoDetection.confidence d) 0.8 = true <-> (4 * t < 5 * p)%nat)
  /\ (num_gt (IncognitoDetection.confidence d) 0.5
      = IncognitoDetection.isIncognito d)
  /\ 0 <= IncognitoDetection.confidence d <= 1.
Proof.
  cbv zeta. unfold Incognito.summarize. cbv zeta.
  fold (Incognito.positive results). fold (Incognito.settled results).
  pose proof (positive_le_settled results) as Hle.
  set (p := Incognito.positive results) in *.
  set (t := Incognito.settled results) in *.
  cbn [IncognitoDetection.isIncognito IncognitoDetection.confidence].
  destruct (Nat.ltb_spec 0 t) as [Ht | Ht].
  - unfold num_gt. rewrite !num_lt_true, !(ratio_gt _ p t Ht).
    assert (Hpos : 0 < inject_Z (Z.of_nat t)).
    { change 0 with (inject_Z 0). rewrite <- Zlt_Qlt. lia. }
    assert (Hp : inject_Z (Z.of_nat p) <= inject_Z (Z.of_nat t))
      by (rewrite <- Zle_Qle; lia).
    assert (Hp0 : 0 <= inject_Z (Z.of_nat p)).
    { change 0 with (inject_Z 0). rewrite <- Zle_Qle. lia. }
    repeat split.
    + intros H. assert (H' : inject_Z (Z.of_nat t) < inject_Z 2 * inject_Z (Z.of_nat p))
        by (change (inject_Z 2) with 2; lra).
      rewrite <- inject_Z_mult, <- Zlt_Qlt in H'. lia.
    + intros H. assert (H' : inject_Z (Z.of_nat t) < inject_Z 2 * inject_Z (Z.of_nat p))
        by (rewrite <- inject_Z_mult, <- Zlt_Qlt; lia).
      change (inject_Z 2) with 2 in H'. lra.
    + intros H.
      assert (H' : inject_Z 4 * inject_Z (Z.of_nat t) < inject_Z 5 * inject_Z (Z.of_nat p))
        by (change (inject_Z 4) with 4; change (inject_Z 5) with 5; lra).
      rewrite <- !inject_Z_mult, <- Zlt_Qlt in H'. lia.
    + intros H.
      assert (H' : inject_Z 4 * inject_Z (Z.of_nat t) < inject_Z 5 * inject_Z (Z.of_nat p))
        by (rewrite <- !inject_Z_mult, <- Zlt_Qlt; lia).
      change (inject_Z 4) with 4 in H'. change (inject_Z 5) with 5 in H'. lra.
    + apply Qle_shift_div_l; [assumption | lra].
    + apply Qle_shift_div_r; [assumption | lra].
  - assert (t = 0%nat) as -> by lia. assert (p = 0%nat) as -> by lia.
    repeat split; try (intros H; first [discriminate H | lia]); lra.
Qed.

(** X12: the verdict of [detectIncognito] is the strict majority of the
    tests that settled: it says incognito exactly when more than half of
    them do.  The confidence is the share of positive tests among the tests
    that settled, a number between 0 and 1, and 0 when no test settled (the
    verdict is then not incognito). *)
Theorem summarize_majority (results : list (option Incognito.TestResult)) :
  let d := Incognito.summarize results in
  let p := Incognito.positive results in
  let t := Incognito.settled results in
  (IncognitoDetection.isIncognito d = true <-> (t < 2 * p)%nat)
  /\ IncognitoDetection.confidence d
     == (if (0 <? t)%nat then ofNat p / ofNat t else 0)
  /\ 0 <= IncognitoDetection.confidence d <= 1
  /\ (t = 0%nat <-> forall r, r ∈ results -> r = None).
Proof.
  cbv zeta.
  destruct (summarize_counts results) as (H1 & _ & _ & H4).
  split; [exact H1 |]. split; [reflexivity |]. split; [exact H4 |].
  clear H1 H4. unfold Incognito.settled.
  induction results as [|[r|] results IH]; cbn [omap list_omap length].
  - split; [| reflexivity]. intros _ r Hr. now apply elem_of_nil in Hr.
  - split; [discriminate |]. intros H.
    assert (Hr : Some r ∈ Some r :: results) by apply list_elem_of_here.
    discriminate (H (Some r) Hr).
  - rewrite IH. split.
    + intros H r Hr. apply elem_of_cons in Hr as [-> | Hr]; [reflexivity | now apply H].
    + intros H r Hr. apply H. now apply list_elem_of_further.
Qed.

(** Where a label of the factor list comes from: [H] says that the label is
    in the list; the blocks whose labels do not include it are ruled out. *)
Ltac label_origin H s ls :=
  rewrite scoring_labels in H; unfold steps in H; simpl map in H;
  simpl concat in H; rewrite !elem_of_app in H;
  repeat match type of H with
         | _ \/ _ => destruct H as [H|H]
         end;
  try (exfalso;
       first
         [ not_from_block H (accounted_stepFingerprint s)
         | not_from_block H (accounted_stepIncognito s)
         | not_from_block H (accounted_stepIP s)
         | not_from_block H (accounted_stepPatterns s)
         | not_from_block H (accounted_stepSpeed s)
         | not_from_block H (accounted_stepBurst s)
         | not_from_block H (accounted_stepMinimal s)
         | not_from_block H (accounted_stepHistory ls s)
         | not_from_block H (accounted_stepHeadless s)
         | not_from_block H (accounted_stepAutomation s)
         | not_from_block H (accounted_stepBotAgent s)
         | not_from_block H (accounted_stepOutdated s)
         | not_from_block H (accounted_stepScreen s)
         | not_from_block H (accounted_stepTimezone s)
         | not_from_block H (accounted_stepLanguage s)
         | now apply elem_of_nil in H ]).

(** X13: on a privacy signal made by [detectIncognito] the calculator never
    takes the possible-incognito branch: the incognito block adds 35 points
    when more than four fifths of the settled tests say incognito, 25 when
    more than half of them do, and nothing otherwise. *)
Theorem detectIncognito_never_possible
    (results : list (option Incognito.TestResult)) (s : Session) (ls : LocalStorage) :
  let s' := withIncognito (Incognito.summarize results) s in
  let p := Incognito.positive results in
  let t := Incognito.settled results in
  pointsOf stepIncognito s'
  == (if (4 * t <? 5 * p)%nat then 35 else if (t <? 2 * p)%nat then 25 else 0)
  /\ "possible-incognito" ∉ riskFactors (scoring s' ls).
Proof.
  cbv zeta.
  destruct (summarize_counts results) as (H1 & H2 & H3 & _).
  set (d := Incognito.summarize results) in *.
  assert (Hcases :
            (IncognitoDetection.isIncognito d = false
             /\ (Incognito.settled results <? 2 * Incognito.positive results)%nat = false
             /\ (4 * Incognito.settled results <? 5 * Incognito.positive results)%nat = false)
            \/ (IncognitoDetection.isIncognito d = true
                /\ num_gt (IncognitoDetection.confidence d) 0.5 = true
                /\ (Incognito.settled results <? 2 * Incognito.positive results)%nat = true
                /\ num_gt (IncognitoDetection.confidence d) 0.8
                   = (4 * Incognito.settled results <? 5 * Incognito.positive results)%nat)).
  { destruct (IncognitoDetection.isIncognito d) eqn:E.
    - right. repeat split; [assumption | apply Nat.ltb_lt; now apply H1 |].
      apply eq_true_iff_eq. rewrite H2. symmetry. apply Nat.ltb_lt.
    - left. repeat split; apply Nat.ltb_ge.
      + apply Nat.nlt_ge. intros H. apply H1 in H. discriminate H.
      + apply Nat.nlt_ge. intros H. assert (H' : (Incognito.settled results
                                                   < 2 * Incognito.positive results)%nat) by lia.
        apply H1 in H'. discriminate H'. }
  split.
  - unfold pointsOf, stepIncognito, withIncognito. cbn [incognitoDetection].
    destruct Hcases as [(E & -> & ->) | (E & E5 & -> & E8)]; rewrite E.
    + reflexivity.
    + cbv zeta. rewrite E8.
      destruct (4 * Incognito.settled results <? 5 * Incognito.positive results)%nat;
        [reflexivity | rewrite E5; reflexivity].
  - intros H. label_origin H (withIncognito d s) ls.
    unfold labelsOf, stepIncognito, withIncognito in H. cbn [incognitoDetection] in H.
    destruct Hcases as [(E & _) | (E & E5 & _)]; rewrite E in H.
    + now apply elem_of_nil in H.
    + cbv zeta in H.
      destruct (num_gt (IncognitoDetection.confidence d) 0.8);
        [| rewrite E5 in H];
        apply list_elem_of_singleton in H; discriminate H.
Qed.

(** X14: in [detectIncognito] the permissions test never says incognito,
    so the confidence stays below 1 whenever that test settles; the
    calculator's confirmed-incognito threshold of 0.8 is passed exactly
    when every other test that settled says incognito. *)
Theorem detectIncognito_confirmed (b : Incognito.Browser) :
  let d := Incognito.detectIncognito b in
  num_gt (IncognitoDetection.confidence d) 0.8 = allOthersPositive b
  /\ IncognitoDetection.confidence d < 1
  /\ (allOthersPositive b = true -> IncognitoDetection.isIncognito d = true).
Proof.
  cbv zeta.
  destruct b as [q fs db lsa rtc bat perm].
  assert (Hq : exists pq,
             Incognito.testQuotaAPI (Incognito.mkBrowser q fs db lsa rtc bat perm)
             = Some (Incognito.mkTest pq "quota-api"))
    by (destruct q; eexists; reflexivity).
  destruct Hq as [pq Hq].
  unfold Incognito.detectIncognito, allOthersPositive, Incognito.tests.
  cbn [map forallb]. rewrite Hq. clear Hq.
  destruct pq, fs, db, lsa, rtc, bat, perm;
    (split; [vm_compute; reflexivity
            | split; [vm_compute; reflexivity | vm_compute; trivial]]).
Qed.

Lemma detectIncognito_confirmed_witness :
  IncognitoDetection.isIncognito
    (Incognito.detectIncognito
       (Incognito.mkBrowser (Incognito.Estimate (Some 1000)) Incognito.FsDenied
          Incognito.DbError Incognito.LsThrows Incognito.RtcNoOffer
          Incognito.BatteryAbsent Incognito.PermissionsResolve)) = true.
Proof.
  apply (proj2 (proj2 (detectIncognito_confirmed
           (Incognito.mkBrowser (Incognito.Estimate (Some 1000)) Incognito.FsDenied
              Incognito.DbError Incognito.LsThrows Incognito.RtcNoOffer
              Incognito.BatteryAbsent Incognito.PermissionsResolve)))).
  reflexivity.
Defined.

(** ** The network signal *)

Lemma arr_includes_elem_of (l : list string) (x : string) :
  arr_includes l x = true <-> x ∈ l.
Proof.
  unfold arr_includes. rewrite existsb_exists, list_elem_of_In. split.
  - intros (y & Hy & E). apply String.eqb_eq in E. now subst.
  - intros H. exists x. split; [assumption | apply String.eqb_refl].
Qed.

Lemma dedupFrom_spec (l seen : list string) :
  NoDup (IPCheck.dedupFrom seen l)
  /\ forall x, x ∈ IPCheck.dedupFrom seen l <-> x ∈ l /\ x ∉ seen.
Proof.
  revert seen. induction l as [|y l IH]; intros seen; simpl.
  - split; [constructor |]. intros x. rewrite elem_of_nil. tauto.
  - destruct (arr_includes seen y) eqn:E.
    + destruct (IH seen) as [Hnd Hin]. split; [assumption |].
      intros x. rewrite Hin, elem_of_cons.
      apply arr_includes_elem_of in E. split; [tauto |].
      intros [[-> | H] Hs]; [contradiction | tauto].
    + destruct (IH (y :: seen)) as [Hnd Hin].
      assert (Hy : y ∉ seen).
      { intros H. apply arr_includes_elem_of in H. congruence. }
      split.
      * constructor; [| assumption]. rewrite Hin, elem_of_cons. tauto.
      * intros x. rewrite !elem_of_cons, Hin, elem_of_cons.
        destruct (decide (x = y)) as [-> | Hne]; tauto.
Qed.

Lemma dedup_NoDup l : NoDup (IPCheck.dedup l).
Proof. apply dedupFrom_spec. Qed.

Lemma dedup_elem_of l x : x ∈ IPCheck.dedup l <-> x ∈ l.
Proof.
  unfold IPCheck.dedup. rewrite (proj2 (dedupFrom_spec l [])), elem_of_nil. tauto.
Qed.

Lemma plusIf_ge c k x : 0 <= k -> x <= IPCheck.plusIf c k x.
Proof. intros H. unfold IPCheck.plusIf. destruct c; lra. Qed.

Lemma plusIf_true k x : IPCheck.plusIf true k x = x + k.
Proof. reflexivity. Qed.

(** The combined score is at least the two scaled risk scores, plus 25 when
    the security checks say proxy. *)
Lemma combinedScore_ge vpn security geo :
  IPCheck.riskOf vpn * 0.6 + IPCheck.riskOf security * 0.4
  + (if IPCheck.flagOf IPCheck.isProxy security then 25 else 0)
  <= IPCheck.combinedScore vpn security geo.
Proof.
  unfold IPCheck.combinedScore. cbv zeta.
  set (s1 := IPCheck.plusIf _ 50 0).
  assert (H1 : 0 <= s1) by (apply plusIf_ge; lra).
  set (s2 := IPCheck.plusIf _ 80 s1).
  assert (H2 : s1 <= s2) by (apply plusIf_ge; lra).
  set (s3 := IPCheck.plusIf _ 40 s2).
  assert (H3 : s2 <= s3) by (apply plusIf_ge; lra).
  set (s4 := IPCheck.plusIf _ 30 s3).
  assert (H4 : s3 <= s4) by (apply plusIf_ge; lra).
  set (s5 := IPCheck.plusIf _ 60 s4).
  assert (H5 : s4 <= s5) by (apply plusIf_ge; lra).
  set (s6 := IPCheck.plusIf _ 25 s5).
  assert (H6 : s5 + (if IPCheck.flagOf IPCheck.isProxy security then 25 else 0) <= s6)
    by (unfold s6, IPCheck.plusIf; destruct (IPCheck.flagOf IPCheck.isProxy security); lra).
  set (s7 := IPCheck.plusIf _ 20 _).
  assert (H7 : s6 + IPCheck.riskOf vpn * 0.6 + IPCheck.riskOf security * 0.4 <= s7)
    by (apply plusIf_ge; lra).
  set (s8 := IPCheck.plusIf _ 30 s7).
  assert (H8 : s7 <= s8) by (apply plusIf_ge; lra).
  lra.
Qed.

Lemma Math_round_inject z : Math_round (inject_Z z) = z.
Proof.
  unfold Math_round.
  apply Z.le_antisymm.
  - apply Z.lt_succ_r. rewrite Zlt_Qlt.
    eapply Qle_lt_trans; [apply Qfloor_le |].
    rewrite <- Z.add_1_r, inject_Z_plus. change (inject_Z 1) with 1. lra.
  - rewrite <- (Qfloor_Z z) at 1. apply Qfloor_resp_le. lra.
Qed.

Lemma Math_round_ge z x : inject_Z z <= x -> (z <= Math_round x)%Z.
Proof. intros H. rewrite <- (Math_round_inject z). now apply Math_round_mono. Qed.

(** The risk score of the additional checks is one of five values. *)
Lemma performAdditionalSecurityChecks_risk ip :
  0 <= IPCheck.riskScore (IPCheck.performAdditionalSecurityChecks ip)
  /\ (IPCheck.isProxy (IPCheck.checkReputationDatabases ip) = true ->
      IPCheck.isProxy (IPCheck.performAdditionalSecurityChecks ip) = true
      /\ 50 <= IPCheck.riskScore (IPCheck.performAdditionalSecurityChecks ip)).
Proof.
  unfold IPCheck.performAdditionalSecurityChecks, IPCheck.checkDNSBlacklists,
    IPCheck.checkKnownVPNRanges, IPCheck.checkHostingProviders,
    IPCheck.checkReputationDatabases.
  cbv zeta.
  repeat match goal with
         | |- context [if ?c then _ else _] => destruct c
         end;
    (split; [vm_compute; discriminate
            | intros H; first [discriminate H
                              | split; [reflexivity | vm_compute; discriminate]]]).
Qed.

(** ** What a fired factor guarantees *)

Lemma labelPoints_nonneg l : 0 <= labelPoints l.
Proof.
  unfold labelPoints, factorCatalog. cbn [concat app find fst snd].
  repeat match goal with
         | |- context [if String.eqb ?x l then _ else _] =>
             destruct (String.eqb x l); [vm_compute; discriminate |]
         end.
  apply Qle_refl.
Qed.

Lemma Qsum_nonneg (l : list number) : Forall (fun x => 0 <= x) l -> 0 <= Qsum l.
Proof.
  induction 1 as [|x l Hx _ IH]; simpl; [apply Qle_refl | lra].
Qed.

Lemma Qsum_ge_elem (l : list number) (x : number) :
  Forall (fun y => 0 <= y) l -> x ∈ l -> x <= Qsum l.
Proof.
  intros Hl Hx. induction Hl as [|y l Hy Hl IH]; [now apply elem_of_nil in Hx |].
  simpl. apply elem_of_cons in Hx as [-> | Hx].
  - pose proof (Qsum_nonneg l Hl). lra.
  - specialize (IH Hx). lra.
Qed.

Lemma labelPoints_all_nonneg (labels : list string) :
  Forall (fun y => 0 <= y) (map labelPoints labels).
Proof.
  induction labels as [|l labels IH]; simpl; constructor;
    [apply labelPoints_nonneg | assumption].
Qed.

Lemma labelPoints_sum_ge (labels : list string) (l : string) :
  l ∈ labels -> labelPoints l <= Qsum (map labelPoints labels).
Proof.
  intros H. apply Qsum_ge_elem; [apply labelPoints_all_nonneg |].
  induction H; simpl; [now left | now right].
Qed.

Lemma js_length_nonneg {A} (l : list A) : 0 <= js_length l.
Proof.
  unfold js_length. change 0 with (inject_Z 0). rewrite <- Zle_Qle. lia.
Qed.

Lemma unlabelledPoints_ge s :
  match ipAnalysis s with
  | Some ipA => IPAnalysis.riskScore ipA * 0.4
  | None => 0
  end <= unlabelledPoints s.
Proof.
  unfold unlabelledPoints.
  pose proof (js_length_nonneg (BehaviorAnalysis.suspiciousPatterns (behaviorAnalysis s))).
  destruct (negb (truthy (language s)) || String.eqb (language s) "en"
            || String.eqb (language s) "en-US"); lra.
Qed.

(** The score at the clamp is at least the scaled network risk plus the
    points of any one fired label. *)
Lemma scoring_ge_label s ls l :
  l ∈ riskFactors (scoring s ls) ->
  match ipAnalysis s with
  | Some ipA => IPAnalysis.riskScore ipA * 0.4
  | None => 0
  end + labelPoints l <= score (scoring s ls).
Proof.
  intros H. rewrite (score_accounted s ls).
  pose proof (unlabelledPoints_ge s). pose proof (labelPoints_sum_ge _ _ H). lra.
Qed.

(** X15: a factor that fired guarantees its points.  When the network risk
    score of the session is not negative (or there is no network signal),
    the score before the clamp is not negative and at least the points of
    every label in the factor list, so the returned score is at least those
    points clamped: 50 with tor-detected, 60 with headless-browser. *)
Theorem fired_factor_guarantees_points (s : Session) (ls : LocalStorage) (l : string) :
  noNegativeNetworkRisk s ->
  0 <= score (scoring s ls)
  /\ (l ∈ riskFactors (scoring s ls) ->
      labelPoints l <= score (scoring s ls)
      /\ (clampScore (labelPoints l) <= riskScore (calculateRiskScore s ls))%Z).
Proof.
  intros Hn. unfold noNegativeNetworkRisk in Hn.
  split.
  - rewrite (score_accounted s ls).
    pose proof (unlabelledPoints_ge s).
    assert (0 <= Qsum (map labelPoints (riskFactors (scoring s ls))))
      by apply Qsum_nonneg, labelPoints_all_nonneg.
    destruct (ipAnalysis s); lra.
  - intros H. pose proof (scoring_ge_label s ls l H) as Hge.
    assert (Hle : labelPoints l <= score (scoring s ls))
      by (destruct (ipAnalysis s); lra).
    split; [exact Hle |].
    unfold calculateRiskScore, resultOf. simpl riskScore. now apply clampScore_mono.
Qed.

(** ** The network signal and the calculator *)

Lemma labels_flag_if c p l a :
  riskFactors (flag_if c p l a) = riskFactors a ++ (if c then [l] else []).
Proof. destruct c; simpl; [reflexivity | now rewrite app_nil_r]. Qed.

Lemma labels_stepIP_present s i :
  ipAnalysis s = Some i ->
  labelsOf stepIP s
  = (if IPAnalysis.isVPN i then ["vpn-detected"] else [])
    ++ (if IPAnalysis.isTor i then ["tor-detected"] else [])
    ++ (if IPAnalysis.isProxy i then ["proxy-detected"] else [])
    ++ (if arr_includes (IPAnalysis.threatTypes i) "hosting-provider"
        then ["hosting-provider"] else [])
    ++ (if arr_includes (IPAnalysis.threatTypes i) "known-vpn"
        then ["known-vpn-service"] else [])
    ++ (if arr_includes (IPAnalysis.threatTypes i) "blacklisted"
        then ["blacklisted-ip"] else [])
    ++ (if arr_includes (IPAnalysis.threatTypes i) "high-risk"
        then ["high-risk-ip"] else []).
Proof.
  intros H. unfold labelsOf, stepIP. rewrite H. cbv zeta.
  rewrite !labels_flag_if. simpl riskFactors. now rewrite <- !app_assoc.
Qed.

Lemma stepIP_label_fired s ls l :
  l ∈ labelsOf stepIP s -> l ∈ riskFactors (scoring s ls).
Proof.
  intros H. rewrite scoring_labels. unfold steps. simpl map. simpl concat.
  rewrite !elem_of_app. tauto.
Qed.

(** The labels that the flags and tags of a network signal fire. *)
Lemma network_labels s ls i :
  ipAnalysis s = Some i ->
  (IPAnalysis.isVPN i = true -> "vpn-detected" ∈ riskFactors (scoring s ls))
  /\ (IPAnalysis.isProxy i = true -> "proxy-detected" ∈ riskFactors (scoring s ls))
  /\ ("hosting-provider" ∈ IPAnalysis.threatTypes i ->
      "hosting-provider" ∈ riskFactors (scoring s ls))
  /\ ("known-vpn" ∈ IPAnalysis.threatTypes i ->
      "known-vpn-service" ∈ riskFactors (scoring s ls))
  /\ ("blacklisted" ∈ IPAnalysis.threatTypes i ->
      "blacklisted-ip" ∈ riskFactors (scoring s ls)).
Proof.
  intros Hi.
  repeat split; intros H; apply stepIP_label_fired;
    rewrite (labels_stepIP_present s i Hi);
    try apply arr_includes_elem_of in H; rewrite H; rewrite !elem_of_app;
    repeat first [ left; apply list_elem_of_singleton; reflexivity | right ].
Qed.

(** X16: the risk score that [analyzeIP] hands to the calculator is a whole
    number of at most 100, and not negative when the risk scores of the two
    verdicts it combines are not negative; the calculator's share of it,
    four tenths, is then between 0 and 40 points. *)
Theorem analyzeIP_riskScore_range (ip : string) (geo : option IPCheck.Geo)
    (vpn security : option IPCheck.Verdict) :
  exists z : Z,
    IPAnalysis.riskScore (IPCheck.analyzeIP ip geo vpn security) = inject_Z z
    /\ (z <= 100)%Z
    /\ IPAnalysis.riskScore (IPCheck.analyzeIP ip geo vpn security) * 0.4 <= 40
    /\ (0 <= IPCheck.riskOf vpn -> 0 <= IPCheck.riskOf security ->
        (0 <= z)%Z
        /\ 0 <= IPAnalysis.riskScore (IPCheck.analyzeIP ip geo vpn security) * 0.4).
Proof.
  unfold IPCheck.analyzeIP. cbv zeta. cbn [IPAnalysis.riskScore].
  unfold IPCheck.calculateCombinedRiskScore, Math_min.
  set (z := Z.min (Math_round (IPCheck.combinedScore vpn security geo)) 100).
  exists z.
  assert (Hz : (z <= 100)%Z) by (unfold z; lia).
  assert (Hq : inject_Z z <= 100)
    by (change 100 with (inject_Z 100); now rewrite <- Zle_Qle).
  split; [reflexivity |]. split; [assumption |]. split; [lra |].
  intros Hv Hs.
  assert (Hc : 0 <= IPCheck.combinedScore vpn security geo).
  { pose proof (combinedScore_ge vpn security geo).
    destruct (IPCheck.flagOf IPCheck.isProxy security); lra. }
  apply (Math_round_ge 0) in Hc.
  assert (Hz0 : (0 <= z)%Z) by (unfold z; lia).
  assert (0 <= inject_Z z) by (change 0 with (inject_Z 0); now rewrite <- Zle_Qle).
  split; [assumption | lra].
Qed.

Lemma analyzeIP_riskScore_range_witness :
  exists z : Z,
    IPAnalysis.riskScore
      (IPCheck.analyzeIP "10.0.0.1" None None
         (Some (IPCheck.performAdditionalSecurityChecks "10.0.0.1")))
    = inject_Z z
    /\ (0 <= z <= 100)%Z.
Proof.
  destruct (analyzeIP_riskScore_range "10.0.0.1" None None
              (Some (IPCheck.performAdditionalSecurityChecks "10.0.0.1")))
    as (z & Hz & Hle & _ & Hge).
  exists z. split; [exact Hz |]. split; [| exact Hle].
  apply Hge; vm_compute; discriminate.
Defined.

(** X17: the threat types that [analyzeIP] hands on hold each tag once, and
    hold exactly the tags of the two verdicts it combines. *)
Theorem analyzeIP_threatTypes (ip : string) (geo : option IPCheck.Geo)
    (vpn security : option IPCheck.Verdict) (tag : string) :
  NoDup (IPAnalysis.threatTypes (IPCheck.analyzeIP ip geo vpn security))
  /\ (tag ∈ IPAnalysis.threatTypes (IPCheck.analyzeIP ip geo vpn security)
      <-> (exists v, vpn = Some v /\ tag ∈ IPCheck.threatTypes v)
          \/ (exists v, security = Some v /\ tag ∈ IPCheck.threatTypes v)).
Proof.
  unfold IPCheck.analyzeIP. cbv zeta. cbn [IPAnalysis.threatTypes].
  split; [apply dedup_NoDup |].
  rewrite dedup_elem_of, elem_of_app.
  assert (Hopt : forall d : option IPCheck.Verdict,
             tag ∈ match d with Some v => IPCheck.threatTypes v | None => [] end
             <-> exists v, d = Some v /\ tag ∈ IPCheck.threatTypes v).
  { intros [v|]; split.
    - intros H. now exists v.
    - now intros (w & [= <-] & H).
    - intros H. now apply elem_of_nil in H.
    - now intros (w & E & _). }
  now rewrite !Hopt.
Qed.

(** X18: the tags of the address checks reach the calculator.  For a
    session whose network signal [analyzeIP] built with the additional
    checks of its address, whatever the services and the geolocation said:
    a blacklisted address fires blacklisted-ip, an address in a known VPN
    range fires known-vpn-service and vpn-detected, an address of a hosting
    provider fires hosting-provider, and a private, loopback or link-local
    address fires proxy-detected. *)
Theorem address_checks_reach_calculator (ip : string) (geo : option IPCheck.Geo)
    (vpn : option IPCheck.Verdict) (s : Session) (ls : LocalStorage) :
  let security := IPCheck.performAdditionalSecurityChecks ip in
  let s' := withIP (Some (IPCheck.analyzeIP ip geo vpn (Some security))) s in
  (IPCheck.isKnownBadIP ip = true -> "blacklisted-ip" ∈ riskFactors (scoring s' ls))
  /\ (IPCheck.isVPN (IPCheck.checkKnownVPNRanges ip) = true ->
      "known-vpn-service" ∈ riskFactors (scoring s' ls)
      /\ "vpn-detected" ∈ riskFactors (scoring s' ls))
  /\ ("hosting-provider" ∈ IPCheck.threatTypes (IPCheck.checkHostingProviders ip) ->
      "hosting-provider" ∈ riskFactors (scoring s' ls))
  /\ (IPCheck.isProxy (IPCheck.checkReputationDatabases ip) = true ->
      "proxy-detected" ∈ riskFactors (scoring s' ls)).
Proof.
  cbv zeta.
  set (i := IPCheck.analyzeIP ip geo vpn
              (Some (IPCheck.performAdditionalSecurityChecks ip))).
  destruct (network_labels (withIP (Some i) s) ls i eq_refl)
    as (Hvpn & Hproxy & Hhost & Hknown & Hblack).
  assert (Hsec : forall tag,
             tag ∈ IPCheck.threatTypes (IPCheck.performAdditionalSecurityChecks ip) ->
             tag ∈ IPAnalysis.threatTypes i).
  { intros tag H. unfold i, IPCheck.analyzeIP. cbv zeta. cbn [IPAnalysis.threatTypes].
    apply dedup_elem_of, elem_of_app. now right. }
  assert (Hflat : forall tag,
             tag ∈ IPCheck.threatTypes (IPCheck.checkDNSBlacklists ip)
                   ++ IPCheck.threatTypes (IPCheck.checkKnownVPNRanges ip)
                   ++ IPCheck.threatTypes (IPCheck.checkHostingProviders ip)
                   ++ IPCheck.threatTypes (IPCheck.checkReputationDatabases ip) ->
             tag ∈ IPCheck.threatTypes (IPCheck.performAdditionalSecurityChecks ip)).
  { intros tag H. unfold IPCheck.performAdditionalSecurityChecks. cbv zeta.
    cbn [IPCheck.threatTypes flat_map]. apply dedup_elem_of.
    now rewrite app_nil_r. }
  assert (Heither : forall f : IPCheck.Verdict -> bool,
             f (IPCheck.performAdditionalSecurityChecks ip) = true ->
             IPCheck.flagOf f vpn
             || IPCheck.flagOf f (Some (IPCheck.performAdditionalSecurityChecks ip))
             = true).
  { intros f H. cbn [IPCheck.flagOf]. rewrite H. apply orb_true_r. }
  repeat split.
  - intros H. apply Hblack, Hsec, Hflat. rewrite !elem_of_app. left.
    unfold IPCheck.checkDNSBlacklists. rewrite H. now left.
  - apply Hknown, Hsec, Hflat. rewrite !elem_of_app. right. left.
    unfold IPCheck.checkKnownVPNRanges in *. cbv zeta in *.
    cbn [IPCheck.isVPN IPCheck.threatTypes] in *.
    match goal with H : ?c = true |- _ => rewrite H end. now left.
  - apply Hvpn. unfold i, IPCheck.analyzeIP. cbv zeta. cbn [IPAnalysis.isVPN].
    apply Heither. unfold IPCheck.performAdditionalSecurityChecks. cbv zeta.
    cbn [IPCheck.isVPN existsb].
    match goal with H : ?c = true |- _ => rewrite H end.
    now rewrite orb_true_r.
  - intros H. apply Hhost, Hsec, Hflat. rewrite !elem_of_app. right. right. now left.
  - intros H. apply Hproxy. unfold i, IPCheck.analyzeIP. cbv zeta.
    cbn [IPAnalysis.isProxy]. apply Heither.
    apply (performAdditionalSecurityChecks_risk ip). exact H.
Qed.

Lemma address_checks_reach_calculator_witness :
  "hosting-provider"
  ∈ riskFactors
      (scoring
         (withIP (Some (IPCheck.analyzeIP "54.12.0.1" None None
                          (Some (IPCheck.performAdditionalSecurityChecks "54.12.0.1"))))
            Sample.lowConfidence)
         NoItem).
Proof.
  apply (address_checks_reach_calculator "54.12.0.1" None None
           Sample.lowConfidence NoItem).
  vm_compute. left.
Defined.



Lemma fired_factor_guarantees_points_witness :
  (clampScore (labelPoints "very-low-fingerprint-confidence")
   <= riskScore (calculateRiskScore Sample.lowConfidence NoItem))%Z.
Proof.
  apply (fired_factor_guarantees_points Sample.lowConfidence NoItem
           "very-low-fingerprint-confidence").
  - exact I.
  - vm_compute. now left.
Defined.

(** ** The caller *)

Lemma fingerprint_label_fired s ls :
  num_lt (DeviceFingerprint.confidence (deviceFingerprint s)) 0.3 = true ->
  "very-low-fingerprint-confidence" ∈ riskFactors (scoring s ls).
Proof.
  intros H. rewrite scoring_labels. unfold steps. simpl map. simpl concat.
  rewrite !elem_of_app. left.
  unfold labelsOf, stepFingerprint. cbv zeta. rewrite H.
  apply list_elem_of_singleton. reflexivity.
Qed.

(** X20: a visitor whose device fingerprint could not be taken is never
    rated LOW.  Whether the producer fell back to its own fingerprint
    (confidence 0.1) or its promise was rejected and the caller put in its
    placeholder (confidence 0), the session that the caller scores gets at
    least 40, provided its network risk score is not negative. *)
Theorem failed_fingerprint_never_low (c : Demo.Collected) (ls : LocalStorage) :
  (Demo.deviceResult c = None
   \/ exists fallbackId now,
        Demo.deviceResult c = Some (generateDeviceFingerprint None fallbackId now)) ->
  noNegativeNetworkRisk (Demo.sessionData c) ->
  let r := calculateRiskScore (Demo.sessionData c) ls in
  (40 <= riskScore r)%Z /\ riskLevel r <> LOW.
Proof.
  intros Hd Hn. cbv zeta.
  assert (Hc : num_lt (DeviceFingerprint.confidence
                         (deviceFingerprint (Demo.sessionData c))) 0.3 = true).
  { unfold Demo.sessionData. cbv zeta. cbn [deviceFingerprint].
    destruct Hd as [-> | (fb & now & ->)]; reflexivity. }
  pose proof (fingerprint_label_fired _ ls Hc) as Hl.
  pose proof (scoring_ge_label _ ls _ Hl) as Hge.
  change (labelPoints "very-low-fingerprint-confidence") with 40 in Hge.
  unfold noNegativeNetworkRisk in Hn.
  assert (H40 : inject_Z 40 <= score (scoring (Demo.sessionData c) ls)).
  { change (inject_Z 40) with 40. destruct (ipAnalysis (Demo.sessionData c)); lra. }
  apply Math_round_ge in H40.
  assert (Hs : (40 <= clampScore (score (scoring (Demo.sessionData c) ls)))%Z)
    by (unfold clampScore, Math_max, Math_min; lia).
  split; [exact Hs |].
  unfold calculateRiskScore, resultOf. cbn [riskLevel].
  destruct (levelOf_cases (clampScore (score (scoring (Demo.sessionData c) ls))))
    as [[_ ->] | [[_ ->] | [[_ ->] | [Hlow _]]]]; try discriminate.
  lia.
Qed.

Lemma failed_fingerprint_never_low_witness :
  let c := Demo.mkCollected None None None None
             (Demo.mkInfo Sample.firefox "1920x1080" "Europe/Paris" "fr-FR")
             "k2j9x" "error-1700000000000" 1700000000000 1700000000000 in
  (40 <= riskScore (calculateRiskScore (Demo.sessionData c) NoItem))%Z.
Proof.
  apply (failed_fingerprint_never_low
           (Demo.mkCollected None None None None
              (Demo.mkInfo Sample.firefox "1920x1080" "Europe/Paris" "fr-FR")
              "k2j9x" "error-1700000000000" 1700000000000 1700000000000)
           NoItem).
  - left. reflexivity.
  - exact I.
Defined.

Lemma ofNat_S n : ofNat (S n) == ofNat n + 1.
Proof. unfold ofNat. rewrite Nat2Z.inj_succ, <- Z.add_1_r, inject_Z_plus. reflexivity. Qed.

(** The same visitor coming back is a run of saves, all written, of
    sessions with the same data. *)
Lemma comeBack_saveAll (saveTimes : list number) (c : Demo.Collected) :
  forall st : Storage.State,
  exists saves,
    Demo.comeBack saveTimes c st = saveAll saves st
    /\ Forall (fun e => fst (fst e) = true
                        /\ FingerprintSession.data (snd e) = Demo.sessionData c) saves
    /\ length saves = length saveTimes.
Proof.
  induction saveTimes as [|t saveTimes IH]; intros st.
  - exists []. now repeat split.
  - unfold Demo.comeBack. cbn [fold_left]. fold (Demo.comeBack saveTimes c).
    set (session := fst (Demo.generateFingerprint c true t st)).
    change (snd (Demo.generateFingerprint c true t st))
      with (Storage.saveFingerprint true t session st).
    destruct (IH (Storage.saveFingerprint true t session st)) as (saves & E & Hall & Hlen).
    exists ((true, t, session) :: saves). split; [exact E |]. split.
    + apply List.Forall_cons; [now split | exact Hall].
    + simpl. now rewrite Hlen.
Qed.

Lemma visits_same_device (c : Demo.Collected)
    (saves : list (bool * number * FingerprintSession.t)) :
  Forall (fun e => fst (fst e) = true
                   /\ FingerprintSession.data (snd e) = Demo.sessionData c) saves ->
  visitsOfDevice (DeviceFingerprint.visitorId (deviceFingerprint (Demo.sessionData c)))
    (writtenOf saves) = length saves.
Proof.
  induction 1 as [|e saves [He1 He2] _ IH]; [reflexivity |].
  rewrite visits_cons_device, IH.
  unfold visitsOfDevice, writtenOf, deviceOf. cbn [List.filter map].
  rewrite He1. cbn [List.filter map]. rewrite He2, String.eqb_refl. reflexivity.
Qed.

Lemma visits_same_address (c : Demo.Collected) (ipA : IPAnalysis.t)
    (saves : list (bool * number * FingerprintSession.t)) :
  ipAnalysis (Demo.sessionData c) = Some ipA ->
  Forall (fun e => fst (fst e) = true
                   /\ FingerprintSession.data (snd e) = Demo.sessionData c) saves ->
  visitsOfAddress (IPAnalysis.ip ipA) (writtenOf saves) = length saves.
Proof.
  intros Hip. induction 1 as [|e saves [He1 He2] _ IH]; [reflexivity |].
  rewrite visits_cons_address, IH.
  unfold visitsOfAddress, writtenOf, addressOf. cbn [List.filter map].
  rewrite He1. cbn [List.filter map]. rewrite He2, Hip. cbn [option_map].
  rewrite String.eqb_refl. reflexivity.
Qed.

(** The history block is the only one that reads the store. *)
Lemma scoring_history_apart s ls :
  score (scoring s ls) == score (scoring s NoItem) + pointsOf (stepHistory ls) s.
Proof.
  rewrite !scoring_score. unfold steps. simpl map. unfold Qsum. simpl fold_right.
  assert (H0 : pointsOf (stepHistory NoItem) s == 0).
  { rewrite points_stepHistory. destruct (ipAnalysis s); reflexivity. }
  rewrite H0. ring.
Qed.

(** X21: the visit being scored is not counted in its own score.  When the
    same visitor comes back and every visit is written, starting from an
    empty store, the score that is recorded for the next visit is the clamp
    of: the score of a first visit before the clamp, plus the device
    penalty of the number of visits so far and, with a network signal, the
    address penalty of that number.  Under an identifier or address that is
    a name that objects inherit, no visit is counted. *)
Theorem returning_visitor_score (saveTimes : list number) (c : Demo.Collected)
    (fits : bool) (saveTime : number) :
  let st := Demo.comeBack saveTimes c Storage.Empty in
  let s := Demo.sessionData c in
  let recorded := fst (Demo.generateFingerprint c fits saveTime st) in
  let visits key := ofNat (countedVisits key (length saveTimes)) in
  let raw := score (scoring s NoItem)
             + devicePenalty (visits (DeviceFingerprint.visitorId (deviceFingerprint s)))
             + match ipAnalysis s with
               | Some ipA => addressPenalty (visits (IPAnalysis.ip ipA))
               | None => 0
               end in
  FingerprintSession.riskScore recorded = inject_Z (clampScore raw)
  /\ FingerprintSession.riskLevel recorded = levelOf (clampScore raw).
Proof.
  cbv zeta. cbn [Demo.generateFingerprint fst FingerprintSession.riskScore
                   FingerprintSession.riskLevel].
  destruct (comeBack_saveAll saveTimes c Storage.Empty) as (saves & -> & Hall & Hlen).
  pose proof (visits_same_device c saves Hall) as Hvd.
  pose proof (fun ipA H => visits_same_address c ipA saves H Hall) as Hva.
  rewrite Hlen in Hvd.
  set (s := Demo.sessionData c) in *.
  assert (E : score (scoring s (Storage.view (saveAll saves Storage.Empty)))
              == score (scoring s NoItem)
                 + devicePenalty
                     (ofNat (countedVisits
                               (DeviceFingerprint.visitorId (deviceFingerprint s))
                               (length saveTimes)))
                 + match ipAnalysis s with
                   | Some ipA =>
                     addressPenalty
                       (ofNat (countedVisits (IPAnalysis.ip ipA) (length saveTimes)))
                   | None => 0
                   end).
  { rewrite (scoring_history_apart s (Storage.view (saveAll saves Storage.Empty))),
      points_stepHistory.
    destruct (saveAll_device_from_empty saves
                (DeviceFingerprint.visitorId (deviceFingerprint s))) as (c0 & -> & Ed).
    rewrite (devicePenalty_proper _ _ Ed).
    rewrite Hvd.
    destruct (ipAnalysis s) as [ipA|] eqn:EipA.
    - destruct (saveAll_address_from_empty saves (IPAnalysis.ip ipA)) as (a0 & -> & Ea).
      rewrite (addressPenalty_proper _ _ Ea).
      rewrite (Hva ipA eq_refl), Hlen. ring.
    - ring. }
  unfold calculateRiskScore, resultOf. cbn [riskScore riskLevel].
  now rewrite (clampScore_proper _ _ E).
Qed.

(** ** The behavior tracker *)

Section TrackerFacts.

Variable Math_sqrt : number -> number.

Lemma addSuspiciousPattern_fields p st :
  Tracker.mouseMovements (Tracker.addSuspiciousPattern p st) = Tracker.mouseMovements st
  /\ Tracker.keystrokes (Tracker.addSuspiciousPattern p st) = Tracker.keystrokes st
  /\ Tracker.scrollEvents (Tracker.addSuspiciousPattern p st) = Tracker.scrollEvents st
  /\ Tracker.startTime (Tracker.addSuspiciousPattern p st) = Tracker.startTime st
  /\ Tracker.mousePath (Tracker.addSuspiciousPattern p st) = Tracker.mousePath st
  /\ Tracker.keystrokeTimings (Tracker.addSuspiciousPattern p st)
     = Tracker.keystrokeTimings st.
Proof. unfold Tracker.addSuspiciousPattern. now destruct (negb _). Qed.

Lemma addSuspiciousPattern_patterns p st :
  Tracker.suspiciousPatterns (Tracker.addSuspiciousPattern p st)
  = if arr_includes (Tracker.suspiciousPatterns st) p
    then Tracker.suspiciousPatterns st
    else Tracker.suspiciousPatterns st ++ [p].
Proof. unfold Tracker.addSuspiciousPattern. now destruct (arr_includes _ _). Qed.

Lemma sameButPatterns_refl st : sameButPatterns st st.
Proof. now repeat split. Qed.

Lemma sameButPatterns_add p st st' :
  sameButPatterns st st' -> sameButPatterns st (Tracker.addSuspiciousPattern p st').
Proof.
  intros (H1 & H2 & H3 & H4 & H5 & H6).
  destruct (addSuspiciousPattern_fields p st') as (A1 & A2 & A3 & A4 & A5 & A6).
  repeat split; congruence.
Qed.

Lemma known_1 : "straight-mouse-lines" ∈ Tracker.knownPatterns.
Proof. unfold Tracker.knownPatterns. set_solver. Qed.
Lemma known_2 : "inhuman-mouse-speed" ∈ Tracker.knownPatterns.
Proof. unfold Tracker.knownPatterns. set_solver. Qed.
Lemma known_3 : "repetitive-mouse-pattern" ∈ Tracker.knownPatterns.
Proof. unfold Tracker.knownPatterns. set_solver. Qed.
Lemma known_4 : "inhuman-typing-speed" ∈ Tracker.knownPatterns.
Proof. unfold Tracker.knownPatterns. set_solver. Qed.
Lemma known_5 : "consistent-keystroke-timing" ∈ Tracker.knownPatterns.
Proof. unfold Tracker.knownPatterns. set_solver. Qed.

Lemma keeps_addSuspiciousPattern P p st :
  keeps P -> p ∈ Tracker.knownPatterns ->
  P (Tracker.suspiciousPatterns st) ->
  P (Tracker.suspiciousPatterns (Tracker.addSuspiciousPattern p st)).
Proof. intros K Hp H. rewrite addSuspiciousPattern_patterns. now apply K. Qed.

Lemma analyzeMousePattern_keeps P st :
  keeps P -> P (Tracker.suspiciousPatterns st) ->
  P (Tracker.suspiciousPatterns (Tracker.analyzeMousePattern Math_sqrt st)).
Proof.
  intros K H. unfold Tracker.analyzeMousePattern.
  destruct (_ <? 10)%nat; [exact H |]. cbv zeta.
  repeat match goal with
  | |- context [if ?c then Tracker.addSuspiciousPattern ?p ?s else ?s] =>
    let st' := fresh "st" in
    let H' := fresh "H" in
    assert (H' : P (Tracker.suspiciousPatterns
                      (if c then Tracker.addSuspiciousPattern p s else s)))
      by (destruct c;
          [apply keeps_addSuspiciousPattern;
           [exact K | first [apply known_1 | apply known_2 | apply known_3] | assumption]
          | assumption]);
    set (st' := if c then Tracker.addSuspiciousPattern p s else s) in *;
    clearbody st'
  end.
  assumption.
Qed.

Lemma analyzeKeystrokePattern_keeps P st :
  keeps P -> P (Tracker.suspiciousPatterns st) ->
  P (Tracker.suspiciousPatterns (Tracker.analyzeKeystrokePattern st)).
Proof.
  intros K H. unfold Tracker.analyzeKeystrokePattern.
  destruct (_ <? 10)%nat; [exact H |]. cbv zeta.
  destruct (num_lt _ 50); destruct (num_lt _ 10);
    repeat (apply keeps_addSuspiciousPattern;
            [exact K | first [apply known_4 | apply known_5] |]); exact H.
Qed.

Lemma analyzeMousePattern_same st :
  sameButPatterns st (Tracker.analyzeMousePattern Math_sqrt st).
Proof.
  unfold Tracker.analyzeMousePattern.
  destruct (_ <? 10)%nat; [apply sameButPatterns_refl |]. cbv zeta.
  destruct (Tracker.detectRepetitiveMousePattern _);
    destruct (num_gt _ 2000); destruct (5 <? _)%nat;
    repeat apply sameButPatterns_add; apply sameButPatterns_refl.
Qed.

Lemma analyzeKeystrokePattern_same st :
  sameButPatterns st (Tracker.analyzeKeystrokePattern st).
Proof.
  unfold Tracker.analyzeKeystrokePattern.
  destruct (_ <? 10)%nat; [apply sameButPatterns_refl |]. cbv zeta.
  destruct (num_lt _ 50); destruct (num_lt _ 10);
    repeat apply sameButPatterns_add; apply sameButPatterns_refl.
Qed.

Lemma handle_keeps P e st :
  keeps P -> P (Tracker.suspiciousPatterns st) ->
  P (Tracker.suspiciousPatterns (Tracker.handle Math_sqrt e st)).
Proof.
  intros K H. destruct e; simpl.
  - now apply analyzeMousePattern_keeps.
  - now apply analyzeKeystrokePattern_keeps.
  - exact H.
  - exact H.
Qed.

Lemma run_keeps P events st :
  keeps P -> P (Tracker.suspiciousPatterns st) ->
  P (Tracker.suspiciousPatterns (Tracker.run Math_sqrt events st)).
Proof.
  intros K. revert st. induction events as [| e events IH]; intros st H.
  - exact H.
  - simpl. apply IH. now apply handle_keeps.
Qed.

Lemma keeps_known_once :
  keeps (fun l => NoDup l /\ forall p, p ∈ l -> p ∈ Tracker.knownPatterns).
Proof.
  intros l p Hp [Hnd Hk].
  destruct (arr_includes l p) eqn:E; [now split |].
  split.
  - apply NoDup_app. split; [exact Hnd |]. split.
    + intros q Hq Hq'. apply list_elem_of_singleton in Hq'. subst q.
      apply arr_includes_elem_of in Hq. congruence.
    + apply NoDup_singleton.
  - intros q Hq. apply elem_of_app in Hq. destruct Hq as [Hq | Hq].
    + now apply Hk.
    + apply list_elem_of_singleton in Hq. now subst q.
Qed.

Lemma known_once_length (l : list string) :
  NoDup l -> (forall p, p ∈ l -> p ∈ Tracker.knownPatterns) -> (length l <= 5)%nat.
Proof.
  intros Hnd Hk.
  change 5%nat with (length Tracker.knownPatterns).
  apply submseteq_length. now apply NoDup_submseteq.
Qed.

End TrackerFacts.

(** *** The buffers *)

Lemma lastN_all {A} n (l : list A) : (length l <= n)%nat -> Tracker.lastN n l = l.
Proof.
  intros H. unfold Tracker.lastN.
  replace (length l - n)%nat with 0%nat by lia. reflexivity.
Qed.

Lemma lastN_length {A} n (l : list A) :
  length (Tracker.lastN n l) = Nat.min n (length l).
Proof. unfold Tracker.lastN. rewrite length_drop. lia. Qed.

Lemma lastN_app {A} (pre l : list A) : Tracker.lastN (length l) (pre ++ l) = l.
Proof.
  unfold Tracker.lastN. rewrite length_app.
  replace (length pre + length l - length l)%nat with (length pre) by lia.
  apply drop_app_length.
Qed.

Lemma lastN_lastN {A} n m (l : list A) :
  (n <= m)%nat -> Tracker.lastN n (Tracker.lastN m l) = Tracker.lastN n l.
Proof.
  intros H. unfold Tracker.lastN. rewrite length_drop, drop_drop. f_equal. lia.
Qed.

Lemma shift_drop_push {A} k (l : list A) (v : A) :
  (k <= length l)%nat ->
  Tracker.shift (drop k l ++ [v]) = drop (S k) (l ++ [v]).
Proof.
  revert k. induction l as [| a l IH]; intros k Hk.
  - simpl in Hk. replace k with 0%nat by lia. reflexivity.
  - destruct k as [| k].
    + reflexivity.
    + simpl in Hk. change (drop (S k) (a :: l)) with (drop k l).
      rewrite IH by lia. reflexivity.
Qed.

(** Pushing onto a buffer of the last [n] and dropping the oldest beyond
    [n] gives the last [n] again. *)
Lemma lastN_push {A} n (l : list A) (v : A) :
  (let b := Tracker.lastN n l ++ [v] in
   if (n <? length b)%nat then Tracker.shift b else b)
  = Tracker.lastN n (l ++ [v]).
Proof.
  cbv zeta. rewrite length_app, lastN_length. simpl length.
  unfold Tracker.lastN. rewrite length_app. simpl length.
  destruct (Nat.ltb_spec n (Nat.min n (length l) + 1)) as [Hlt | Hge].
  - assert (Hn : (n <= length l)%nat) by lia.
    replace (length l + 1 - n)%nat with (S (length l - n)) by lia.
    apply shift_drop_push. lia.
  - assert (Hn : (length l < n)%nat) by lia.
    replace (length l - n)%nat with 0%nat by lia.
    replace (length l + 1 - n)%nat with 0%nat by lia. reflexivity.
Qed.

Section TrackerRuns.

Variable Math_sqrt : number -> number.

Lemma handle_mousePath e st :
  Tracker.mousePath (Tracker.handle Math_sqrt e st)
  = match e with
    | Tracker.MouseMove clientX clientY _ now' =>
      let b := Tracker.mousePath st ++ [Tracker.mkPoint clientX clientY now'] in
      if (100 <? length b)%nat then Tracker.shift b else b
    | _ => Tracker.mousePath st
    end.
Proof.
  destruct e; simpl; try reflexivity.
  - match goal with |- Tracker.mousePath (Tracker.analyzeMousePattern _ ?s) = _ =>
      destruct (analyzeMousePattern_same Math_sqrt s) as (_ & _ & _ & _ & H & _)
    end.
    now rewrite H.
  - match goal with |- Tracker.mousePath (Tracker.analyzeKeystrokePattern ?s) = _ =>
      destruct (analyzeKeystrokePattern_same s) as (_ & _ & _ & _ & H & _)
    end.
    now rewrite H.
Qed.

Lemma handle_keystrokeTimings e st :
  Tracker.keystrokeTimings (Tracker.handle Math_sqrt e st)
  = match e with
    | Tracker.KeyDown _ now' =>
      let b := Tracker.keystrokeTimings st ++ [now'] in
      if (50 <? length b)%nat then Tracker.shift b else b
    | _ => Tracker.keystrokeTimings st
    end.
Proof.
  destruct e; simpl; try reflexivity.
  - match goal with |- Tracker.keystrokeTimings (Tracker.analyzeMousePattern _ ?s) = _ =>
      destruct (analyzeMousePattern_same Math_sqrt s) as (_ & _ & _ & _ & _ & H)
    end.
    now rewrite H.
  - match goal with |- Tracker.keystrokeTimings (Tracker.analyzeKeystrokePattern ?s) = _ =>
      destruct (analyzeKeystrokePattern_same s) as (_ & _ & _ & _ & _ & H)
    end.
    now rewrite H.
Qed.

Lemma handle_counters e st :
  Tracker.mouseMovements (Tracker.handle Math_sqrt e st)
  = match e with
    | Tracker.MouseMove _ _ _ _ => Tracker.mouseMovements st + 1
    | _ => Tracker.mouseMovements st
    end
  /\ Tracker.keystrokes (Tracker.handle Math_sqrt e st)
     = match e with
       | Tracker.KeyDown _ _ => Tracker.keystrokes st + 1
       | _ => Tracker.keystrokes st
       end
  /\ Tracker.scrollEvents (Tracker.handle Math_sqrt e st)
     = match e with
       | Tracker.Scroll _ => Tracker.scrollEvents st + 1
       | _ => Tracker.scrollEvents st
       end
  /\ Tracker.startTime (Tracker.handle Math_sqrt e st) = Tracker.startTime st.
Proof.
  destruct e; simpl; try (now repeat split).
  - match goal with |- context [Tracker.analyzeMousePattern _ ?s] =>
      destruct (analyzeMousePattern_same Math_sqrt s) as (H1 & H2 & H3 & H4 & _)
    end.
    now rewrite H1, H2, H3, H4.
  - match goal with |- context [Tracker.analyzeKeystrokePattern ?s] =>
      destruct (analyzeKeystrokePattern_same s) as (H1 & H2 & H3 & H4 & _)
    end.
    now rewrite H1, H2, H3, H4.
Qed.

Lemma run_mousePath events : forall st pre,
  Tracker.mousePath st = Tracker.lastN 100 pre ->
  Tracker.mousePath (Tracker.run Math_sqrt events st)
  = Tracker.lastN 100 (pre ++ Tracker.movesOf events).
Proof.
  induction events as [| e events IH]; intros st pre H.
  - simpl. now rewrite app_nil_r.
  - change (Tracker.run Math_sqrt (e :: events) st)
      with (Tracker.run Math_sqrt events (Tracker.handle Math_sqrt e st)).
    destruct e as [cx cy now now' | now now' | now | now].
    + change (Tracker.movesOf (Tracker.MouseMove cx cy now now' :: events))
        with (Tracker.mkPoint cx cy now' :: Tracker.movesOf events).
      rewrite (IH _ (pre ++ [Tracker.mkPoint cx cy now'])).
      * now rewrite <- app_assoc.
      * rewrite handle_mousePath, H. apply lastN_push.
    + apply IH. now rewrite handle_mousePath.
    + apply IH. now rewrite handle_mousePath.
    + apply IH. now rewrite handle_mousePath.
Qed.

Lemma run_keystrokeTimings events : forall st pre,
  Tracker.keystrokeTimings st = Tracker.lastN 50 pre ->
  Tracker.keystrokeTimings (Tracker.run Math_sqrt events st)
  = Tracker.lastN 50 (pre ++ Tracker.keysOf events).
Proof.
  induction events as [| e events IH]; intros st pre H.
  - simpl. now rewrite app_nil_r.
  - change (Tracker.run Math_sqrt (e :: events) st)
      with (Tracker.run Math_sqrt events (Tracker.handle Math_sqrt e st)).
    destruct e as [cx cy now now' | now now' | now | now].
    + apply IH. now rewrite handle_keystrokeTimings.
    + change (Tracker.keysOf (Tracker.KeyDown now now' :: events))
        with (now' :: Tracker.keysOf events).
      rewrite (IH _ (pre ++ [now'])).
      * now rewrite <- app_assoc.
      * rewrite handle_keystrokeTimings, H. apply lastN_push.
    + apply IH. now rewrite handle_keystrokeTimings.
    + apply IH. now rewrite handle_keystrokeTimings.
Qed.

Lemma ofNat_succ (n : nat) : ofNat n + 1 = ofNat (S n).
Proof.
  unfold ofNat, inject_Z, Qplus. cbn [Qnum Qden Pos.mul]. f_equal. lia.
Qed.

Lemma ofNat_plus (n m : nat) : ofNat n + ofNat m = ofNat (n + m).
Proof.
  unfold ofNat, inject_Z, Qplus. cbn [Qnum Qden Pos.mul]. f_equal. lia.
Qed.

(** The counters count, exactly. *)
Lemma run_counters events : forall st m k sc,
  Tracker.mouseMovements st = ofNat m ->
  Tracker.keystrokes st = ofNat k ->
  Tracker.scrollEvents st = ofNat sc ->
  Tracker.mouseMovements (Tracker.run Math_sqrt events st)
  = ofNat (m + length (Tracker.movesOf events))
  /\ Tracker.keystrokes (Tracker.run Math_sqrt events st)
     = ofNat (k + length (Tracker.keysOf events))
  /\ Tracker.scrollEvents (Tracker.run Math_sqrt events st)
     = ofNat (sc + length (Tracker.scrollsOf events))
  /\ Tracker.startTime (Tracker.run Math_sqrt events st) = Tracker.startTime st.
Proof.
  induction events as [| e events IH]; intros st m k sc Hm Hk Hs.
  - simpl. rewrite !Nat.add_0_r. now repeat split.
  - change (Tracker.run Math_sqrt (e :: events) st)
      with (Tracker.run Math_sqrt events (Tracker.handle Math_sqrt e st)).
    destruct (handle_counters e st) as (H1 & H2 & H3 & H4).
    destruct e as [cx cy now now' | now now' | now | now];
      unfold Tracker.movesOf, Tracker.keysOf, Tracker.scrollsOf;
      cbn [omap list_omap List.filter length];
      fold (Tracker.movesOf events); fold (Tracker.keysOf events);
      fold (Tracker.scrollsOf events);
      rewrite ?Nat.add_succ_r, <- ?Nat.add_succ_l, <- H4;
      apply IH; rewrite ?H1, ?H2, ?H3, ?Hm, ?Hk, ?Hs;
      first [reflexivity | apply ofNat_succ].
Qed.

End TrackerRuns.

(** *** Sums and the variance *)

Lemma sumOf_from (l : list number) : forall a, fold_left Qplus l a == a + Tracker.sumOf l.
Proof.
  unfold Tracker.sumOf. induction l as [| v l IH]; intros a; simpl.
  - ring.
  - rewrite (IH (a + v)), (IH (0 + v)). ring.
Qed.

Lemma sumOf_cons v (l : list number) : Tracker.sumOf (v :: l) == v + Tracker.sumOf l.
Proof.
  unfold Tracker.sumOf at 1. simpl. rewrite sumOf_from. ring.
Qed.

Lemma sumOf_constant d (l : list number) :
  Forall (fun i => i == d) l -> Tracker.sumOf l == ofNat (length l) * d.
Proof.
  induction 1 as [| v l Hv Hl IH].
  - reflexivity.
  - rewrite sumOf_cons, IH, Hv. simpl length. rewrite ofNat_S. ring.
Qed.

Lemma ofNat_pos n : (0 < n)%nat -> 0 < ofNat n.
Proof.
  intros H. unfold ofNat. change 0 with (inject_Z 0). rewrite <- Zlt_Qlt. lia.
Qed.

Lemma mean_constant d (l : list number) :
  l <> [] -> Forall (fun i => i == d) l ->
  Tracker.sumOf l / js_length l == d.
Proof.
  intros Hne H. rewrite (sumOf_constant d l H).
  change (js_length l) with (ofNat (length l)).
  assert (Hpos : 0 < ofNat (length l)) by (apply ofNat_pos; destruct l; simpl; [congruence | lia]).
  field. intros E. rewrite E in Hpos. now apply Qlt_irrefl in Hpos.
Qed.

Lemma calculateVariance_constant d (l : list number) :
  l <> [] -> Forall (fun i => i == d) l -> Tracker.calculateVariance l == 0.
Proof.
  intros Hne H. unfold Tracker.calculateVariance. cbv zeta.
  pose proof (mean_constant d l Hne H) as Hm.
  set (mean := Tracker.sumOf l / js_length l) in *. clearbody mean.
  assert (Hz : Forall (fun i => i == 0)
                 (map (fun n => (n - mean) * (n - mean)) l)).
  { clear Hne. induction H as [| v l Hv Hl IH]; simpl; constructor.
    - rewrite Hv, Hm. ring.
    - exact IH. }
  rewrite (sumOf_constant 0 _ Hz). unfold Qdiv. ring.
Qed.

Lemma intervalsOf_length (ts : list number) :
  length (Tracker.intervalsOf ts) = (length ts - 1)%nat.
Proof.
  induction ts as [| a [| b ts] IH]; try reflexivity.
  change (Tracker.intervalsOf (a :: b :: ts))
    with ((b - a) :: Tracker.intervalsOf (b :: ts)).
  simpl length in *. lia.
Qed.

(** *** Patterns that were added *)

Lemma addSuspiciousPattern_in p st :
  p ∈ Tracker.suspiciousPatterns (Tracker.addSuspiciousPattern p st).
Proof.
  rewrite addSuspiciousPattern_patterns.
  destruct (arr_includes _ p) eqn:E.
  - now apply arr_includes_elem_of.
  - apply elem_of_app. right. apply list_elem_of_singleton. reflexivity.
Qed.

Lemma addSuspiciousPattern_still q p st :
  q ∈ Tracker.suspiciousPatterns st ->
  q ∈ Tracker.suspiciousPatterns (Tracker.addSuspiciousPattern p st).
Proof.
  intros H. rewrite addSuspiciousPattern_patterns.
  destruct (arr_includes _ p); [exact H |]. apply elem_of_app. now left.
Qed.

Lemma keeps_prefix l0 : keeps (fun l => l0 `prefix_of` l).
Proof.
  intros l p _ H. destruct (arr_includes l p); [exact H |].
  now apply prefix_app_r.
Qed.

Lemma keeps_elem q : keeps (fun l => q ∈ l).
Proof.
  intros l p _ H. destruct (arr_includes l p); [exact H |].
  apply elem_of_app. now left.
Qed.

Lemma analyzeKeystrokePattern_evenly d st :
  (10 <= length (Tracker.keystrokeTimings st))%nat ->
  evenlySpaced d (Tracker.lastN 10 (Tracker.keystrokeTimings st)) ->
  "consistent-keystroke-timing"
    ∈ Tracker.suspiciousPatterns (Tracker.analyzeKeystrokePattern st)
  /\ (d < 50 ->
      "inhuman-typing-speed"
        ∈ Tracker.suspiciousPatterns (Tracker.analyzeKeystrokePattern st)).
Proof.
  intros Hlen Hev. unfold Tracker.analyzeKeystrokePattern.
  destruct (Nat.ltb_spec (length (Tracker.keystrokeTimings st)) 10) as [Hlt | _]; [lia |].
  cbv zeta. unfold evenlySpaced in Hev.
  set (intervals := Tracker.intervalsOf (Tracker.lastN 10 (Tracker.keystrokeTimings st))) in *.
  assert (Hne : intervals <> []).
  { intros E. apply (f_equal length) in E. unfold intervals in E.
    rewrite intervalsOf_length, lastN_length in E.
    change (length (@nil number)) with 0%nat in E. lia. }
  rewrite (num_lt_proper _ 0 10 10 (calculateVariance_constant d intervals Hne Hev)
             (Qeq_refl 10)).
  rewrite (num_lt_proper _ d 50 50 (mean_constant d intervals Hne Hev) (Qeq_refl 50)).
  change (num_lt 0 10) with true. cbv iota.
  split.
  - apply addSuspiciousPattern_in.
  - intros Hd. apply num_lt_true in Hd. rewrite Hd.
    apply addSuspiciousPattern_still, addSuspiciousPattern_in.
Qed.

(** *** A page's events *)

Lemma run_app Math_sqrt (a b : list Tracker.Event) st :
  Tracker.run Math_sqrt (a ++ b) st = Tracker.run Math_sqrt b (Tracker.run Math_sqrt a st).
Proof. unfold Tracker.run. apply fold_left_app. Qed.

Lemma run_quiet Math_sqrt events : forall st,
  Tracker.suspiciousPatterns st = [] ->
  (length (Tracker.mousePath st) + length (Tracker.movesOf events) < 10)%nat ->
  (length (Tracker.keystrokeTimings st) + length (Tracker.keysOf events) < 10)%nat ->
  Tracker.suspiciousPatterns (Tracker.run Math_sqrt events st) = [].
Proof.
  induction events as [| e events IH]; intros st Hp Hm Hk.
  - exact Hp.
  - change (Tracker.run Math_sqrt (e :: events) st)
      with (Tracker.run Math_sqrt events (Tracker.handle Math_sqrt e st)).
    destruct e as [cx cy now now' | now now' | now | now].
    + change (Tracker.movesOf (Tracker.MouseMove cx cy now now' :: events))
        with (Tracker.mkPoint cx cy now' :: Tracker.movesOf events) in Hm.
      change (Tracker.keysOf (Tracker.MouseMove cx cy now now' :: events))
        with (Tracker.keysOf events) in Hk.
      simpl length in Hm.
      assert (Hh : Tracker.handle Math_sqrt (Tracker.MouseMove cx cy now now') st
                   = Tracker.mkState (Tracker.mouseMovements st + 1) (Tracker.keystrokes st)
                       (Tracker.scrollEvents st) (Tracker.startTime st) now
                       (Tracker.suspiciousPatterns st)
                       (Tracker.mousePath st ++ [Tracker.mkPoint cx cy now'])
                       (Tracker.keystrokeTimings st)).
      { unfold Tracker.handle. cbv zeta. rewrite length_app. simpl length.
        destruct (Nat.ltb_spec 100 (length (Tracker.mousePath st) + 1)) as [Hlt | _]; [lia |].
        unfold Tracker.analyzeMousePattern. cbn [Tracker.mousePath].
        rewrite length_app. simpl length.
        destruct (Nat.ltb_spec (length (Tracker.mousePath st) + 1) 10) as [_ | Hge]; [| lia].
        reflexivity. }
      rewrite Hh. apply IH; cbn [Tracker.suspiciousPatterns Tracker.mousePath
                                  Tracker.keystrokeTimings].
      * exact Hp.
      * rewrite length_app. simpl length. lia.
      * exact Hk.
    + change (Tracker.keysOf (Tracker.KeyDown now now' :: events))
        with (now' :: Tracker.keysOf events) in Hk.
      change (Tracker.movesOf (Tracker.KeyDown now now' :: events))
        with (Tracker.movesOf events) in Hm.
      simpl length in Hk.
      assert (Hh : Tracker.handle Math_sqrt (Tracker.KeyDown now now') st
                   = Tracker.mkState (Tracker.mouseMovements st) (Tracker.keystrokes st + 1)
                       (Tracker.scrollEvents st) (Tracker.startTime st) now
                       (Tracker.suspiciousPatterns st) (Tracker.mousePath st)
                       (Tracker.keystrokeTimings st ++ [now'])).
      { unfold Tracker.handle. cbv zeta. rewrite length_app. simpl length.
        destruct (Nat.ltb_spec 50 (length (Tracker.keystrokeTimings st) + 1)) as [Hlt | _];
          [lia |].
        unfold Tracker.analyzeKeystrokePattern. cbn [Tracker.keystrokeTimings].
        rewrite length_app. simpl length.
        destruct (Nat.ltb_spec (length (Tracker.keystrokeTimings st) + 1) 10) as [_ | Hge];
          [| lia].
        reflexivity. }
      rewrite Hh. apply IH; cbn [Tracker.suspiciousPatterns Tracker.mousePath
                                  Tracker.keystrokeTimings].
      * exact Hp.
      * exact Hm.
      * rewrite length_app. simpl length. lia.
    + apply IH; [exact Hp | exact Hm | exact Hk].
    + apply IH; [exact Hp | exact Hm | exact Hk].
Qed.

Lemma patterns_points_le (l : list string) s b :
  BehaviorAnalysis.suspiciousPatterns b = l ->
  (length l <= 5)%nat ->
  pointsOf stepPatterns (withBehavior b s) <= 150.
Proof.
  intros Hl Hlen. unfold pointsOf, stepPatterns. cbv zeta.
  cbn [behaviorAnalysis withBehavior]. rewrite Hl.
  rewrite !score_flag_if. cbn [score add init].
  assert (Hj : js_length l <= 5).
  { unfold js_length. change 5 with (inject_Z 5). rewrite <- Zle_Qle. lia. }
  destruct (arr_includes l "inhuman-mouse-speed");
    destruct (arr_includes l "inhuman-typing-speed");
    destruct (arr_includes l "consistent-keystroke-timing");
    destruct (arr_includes l "straight-mouse-lines"); lra.
Qed.

(** X22: however a page is used, the tracker reports each pattern once and
    only the five that it knows, so at most five. *)
Theorem tracker_patterns_known_once Math_sqrt events now now' :
  let st := Tracker.run Math_sqrt events (Tracker.create now now') in
  NoDup (Tracker.suspiciousPatterns st)
  /\ (forall p, p ∈ Tracker.suspiciousPatterns st -> p ∈ Tracker.knownPatterns)
  /\ (length (Tracker.suspiciousPatterns st) <= 5)%nat.
Proof.
  cbv zeta.
  destruct (run_keeps Math_sqrt _ events (Tracker.create now now') keeps_known_once)
    as [Hnd Hk].
  - split; [apply NoDup_nil_2 | intros p Hp; inversion Hp].
  - split; [exact Hnd | split; [exact Hk | now apply known_once_length]].
Qed.

(** X23: the tracker holds the last hundred mouse positions and the last
    fifty key times of the page, oldest first. *)
Theorem tracker_keeps_latest Math_sqrt events now now' :
  let st := Tracker.run Math_sqrt events (Tracker.create now now') in
  Tracker.mousePath st = Tracker.lastN 100 (Tracker.movesOf events)
  /\ Tracker.keystrokeTimings st = Tracker.lastN 50 (Tracker.keysOf events).
Proof.
  cbv zeta. split.
  - now rewrite (run_mousePath Math_sqrt events (Tracker.create now now') []).
  - now rewrite (run_keystrokeTimings Math_sqrt events (Tracker.create now now') []).
Qed.

(** X24: a pattern that was reported stays reported, in its place, whatever
    happens on the page afterwards. *)
Theorem tracker_patterns_only_grow Math_sqrt events st :
  Tracker.suspiciousPatterns st
    `prefix_of` Tracker.suspiciousPatterns (Tracker.run Math_sqrt events st).
Proof. apply run_keeps; [apply keeps_prefix | reflexivity]. Qed.

(** X25: with fewer than ten mouse moves and fewer than ten key presses the
    tracker reports no pattern. *)
Theorem tracker_quiet_below_ten Math_sqrt events now now' :
  (length (Tracker.movesOf events) < 10)%nat ->
  (length (Tracker.keysOf events) < 10)%nat ->
  Tracker.suspiciousPatterns (Tracker.run Math_sqrt events (Tracker.create now now')) = [].
Proof. intros Hm Hk. now apply run_quiet. Qed.

Lemma tracker_quiet_below_ten_witness :
  Tracker.suspiciousPatterns
    (Tracker.run (fun v => v)
       [Tracker.MouseMove 10 10 1000 1000; Tracker.KeyDown 1010 1010;
        Tracker.MouseMove 10 10 1020 1020; Tracker.Click 1030]
       (Tracker.create 0 0)) = [].
Proof. apply tracker_quiet_below_ten; vm_compute; lia. Defined.

(** X26: what the tracker hands to the calculator after some time on the
    page: the numbers of mouse moves, key presses and scrolls (clicks are
    not counted), the time since the start, and as interaction speed the
    quotient, as the doubles of the code make it, of their sum by the
    minutes on the page, themselves the quotient of the time by 60000. *)
Theorem tracker_analysis_counts Math_sqrt divide events t0 t0' now :
  t0 < now ->
  let moves := length (Tracker.movesOf events) in
  let keys := length (Tracker.keysOf events) in
  let scrolls := length (Tracker.scrollsOf events) in
  let speed := divide (ofNat (moves + keys + scrolls)) (divide (now - t0) 60000) in
  let st := Tracker.run Math_sqrt events (Tracker.create t0 t0') in
  Tracker.getAnalysis divide now st
  = Some (BehaviorAnalysis.mk (ofNat moves) (ofNat keys) (ofNat scrolls) (now - t0)
            (if Qeq_bool speed 0 then 0 else speed)
            (Tracker.suspiciousPatterns st)).
Proof.
  intros Ht. cbv zeta.
  destruct (run_counters Math_sqrt events (Tracker.create t0 t0') 0 0 0
              eq_refl eq_refl eq_refl) as (H1 & H2 & H3 & H4).
  cbn [Nat.add Tracker.create Tracker.startTime] in H1, H2, H3, H4.
  unfold Tracker.getAnalysis. cbv zeta. rewrite H1, H2, H3, H4, !ofNat_plus.
  assert (Hne : Qeq_bool (now - t0) 0 = false).
  { apply not_true_iff_false. intros E. apply Qeq_bool_iff in E. lra. }
  now rewrite Hne.
Qed.

Lemma tracker_analysis_counts_witness :
  Tracker.getAnalysis Qdiv 540
    (Tracker.run (fun v => v)
       [Tracker.MouseMove 10 10 100 100; Tracker.KeyDown 110 110;
        Tracker.Scroll 120; Tracker.Click 130]
       (Tracker.create 0 0))
  = Some (BehaviorAnalysis.mk (ofNat 1) (ofNat 1) (ofNat 1) (540 - 0)
            (ofNat 3 / ((540 - 0) / 60000)) []).
Proof.
  apply (tracker_analysis_counts (fun v => v) Qdiv
           [Tracker.MouseMove 10 10 100 100; Tracker.KeyDown 110 110;
            Tracker.Scroll 120; Tracker.Click 130] 0 0 540).
  reflexivity.
Defined.

(** X27: the patterns of a tracked page add at most 150 points in the
    calculator. *)
Theorem tracker_pattern_points_bounded Math_sqrt divide events t0 t0' now a s :
  Tracker.getAnalysis divide now (Tracker.run Math_sqrt events (Tracker.create t0 t0'))
  = Some a ->
  pointsOf stepPatterns (withBehavior a s) <= 150.
Proof.
  intros H. unfold Tracker.getAnalysis in H. cbv zeta in H.
  assert (Hp : BehaviorAnalysis.suspiciousPatterns a
               = Tracker.suspiciousPatterns
                   (Tracker.run Math_sqrt events (Tracker.create t0 t0'))).
  { destruct (Qeq_bool (now - _) 0);
      [destruct (Qeq_bool _ 0); [| discriminate H] |];
      now injection H as <-. }
  eapply patterns_points_le; [exact Hp |].
  destruct (run_keeps Math_sqrt _ events (Tracker.create t0 t0') keeps_known_once)
    as [Hnd Hk].
  - split; [apply NoDup_nil_2 | intros p Hin; inversion Hin].
  - now apply known_once_length.
Qed.

Lemma tracker_pattern_points_bounded_witness :
  exists a,
    Tracker.getAnalysis Qdiv 60000
      (Tracker.run (fun v => v)
         [Tracker.MouseMove 10 10 1000 1000; Tracker.KeyDown 1010 1010]
         (Tracker.create 0 0)) = Some a
    /\ pointsOf stepPatterns (withBehavior a Sample.lowConfidence) <= 150.
Proof.
  eexists. split; [vm_compute; reflexivity |].
  apply (tracker_pattern_points_bounded (fun v => v) Qdiv
           [Tracker.MouseMove 10 10 1000 1000; Tracker.KeyDown 1010 1010] 0 0 60000).
  vm_compute. reflexivity.
Defined.

(** X28: ten key presses at even intervals make the tracker report
    consistent keystroke timing, and with intervals under 50 ms inhuman
    typing speed as well; both stay reported afterwards. *)
Theorem steady_typing_is_flagged Math_sqrt before now now' after t0 t0' earlier ts d :
  Tracker.keysOf (before ++ [Tracker.KeyDown now now']) = earlier ++ ts ->
  length ts = 10%nat ->
  evenlySpaced d ts ->
  let st := Tracker.run Math_sqrt (before ++ Tracker.KeyDown now now' :: after)
              (Tracker.create t0 t0') in
  "consistent-keystroke-timing" ∈ Tracker.suspiciousPatterns st
  /\ (d < 50 -> "inhuman-typing-speed" ∈ Tracker.suspiciousPatterns st).
Proof.
  intros Hkeys Hlen Hev. cbv zeta.
  rewrite run_app.
  change (Tracker.run Math_sqrt (Tracker.KeyDown now now' :: after) ?s)
    with (Tracker.run Math_sqrt after (Tracker.handle Math_sqrt (Tracker.KeyDown now now') s)).
  set (st1 := Tracker.run Math_sqrt before (Tracker.create t0 t0')).
  pose proof (run_keystrokeTimings Math_sqrt [Tracker.KeyDown now now'] st1
                (Tracker.keysOf before)) as Ht.
  assert (H1 : Tracker.keystrokeTimings st1 = Tracker.lastN 50 (Tracker.keysOf before))
    by (unfold st1;
        now rewrite (run_keystrokeTimings Math_sqrt before (Tracker.create t0 t0') [])).
  specialize (Ht H1).
  assert (Hk : Tracker.keysOf before ++ Tracker.keysOf [Tracker.KeyDown now now']
               = earlier ++ ts).
  { rewrite <- Hkeys. unfold Tracker.keysOf. now rewrite omap_app. }
  rewrite Hk in Ht.
  change (Tracker.run Math_sqrt [Tracker.KeyDown now now'] st1)
    with (Tracker.handle Math_sqrt (Tracker.KeyDown now now') st1) in Ht.
  unfold Tracker.handle in Ht |- *. cbv zeta in Ht |- *.
  match type of Ht with
  | Tracker.keystrokeTimings (Tracker.analyzeKeystrokePattern ?s) = _ =>
    set (st2 := s) in *;
    destruct (analyzeKeystrokePattern_same st2) as (_ & _ & _ & _ & _ & Hsame)
  end.
  rewrite Hsame in Ht.
  destruct (analyzeKeystrokePattern_evenly d st2) as [Hc Hi].
  - rewrite Ht, lastN_length, length_app. lia.
  - rewrite Ht, lastN_lastN by lia. rewrite <- Hlen, lastN_app. exact Hev.
  - split.
    + apply run_keeps; [apply keeps_elem | exact Hc].
    + intros Hd. apply run_keeps; [apply keeps_elem | exact (Hi Hd)].
Qed.

Lemma steady_typing_is_flagged_witness :
  let st := Tracker.run (fun v => v)
              ([Tracker.KeyDown 0 0; Tracker.KeyDown 10 10; Tracker.KeyDown 20 20;
                Tracker.KeyDown 30 30; Tracker.KeyDown 40 40; Tracker.KeyDown 50 50;
                Tracker.KeyDown 60 60; Tracker.KeyDown 70 70; Tracker.KeyDown 80 80]
               ++ Tracker.KeyDown 90 90 :: [Tracker.Click 100])
              (Tracker.create 0 0) in
  "consistent-keystroke-timing" ∈ Tracker.suspiciousPatterns st
  /\ "inhuman-typing-speed" ∈ Tracker.suspiciousPatterns st.
Proof.
  cbv zeta.
  destruct (steady_typing_is_flagged (fun v => v)
              [Tracker.KeyDown 0 0; Tracker.KeyDown 10 10; Tracker.KeyDown 20 20;
               Tracker.KeyDown 30 30; Tracker.KeyDown 40 40; Tracker.KeyDown 50 50;
               Tracker.KeyDown 60 60; Tracker.KeyDown 70 70; Tracker.KeyDown 80 80]
              90 90 [Tracker.Click 100] 0 0 []
              [0; 10; 20; 30; 40; 50; 60; 70; 80; 90] 10) as [H1 H2].
  - reflexivity.
  - reflexivity.
  - vm_compute. repeat constructor.
  - split; [exact H1 | apply H2; reflexivity].
Defined.

(** *** Mouse positions on a line *)

Lemma area_on_line a b c (p1 p2 p3 : Tracker.Point) :
  ~ (a == 0 /\ b == 0) ->
  a * Tracker.x p1 + b * Tracker.y p1 == c ->
  a * Tracker.x p2 + b * Tracker.y p2 == c ->
  a * Tracker.x p3 + b * Tracker.y p3 == c ->
  (Tracker.x p2 - Tracker.x p1) * (Tracker.y p3 - Tracker.y p1)
  - (Tracker.x p3 - Tracker.x p1) * (Tracker.y p2 - Tracker.y p1) == 0.
Proof.
  intros Hab H1 H2 H3.
  set (det := (Tracker.x p2 - Tracker.x p1) * (Tracker.y p3 - Tracker.y p1)
              - (Tracker.x p3 - Tracker.x p1) * (Tracker.y p2 - Tracker.y p1)).
  assert (Hb : b * det == 0).
  { transitivity
      ((Tracker.x p2 - Tracker.x p1)
       * ((a * Tracker.x p3 + b * Tracker.y p3) - (a * Tracker.x p1 + b * Tracker.y p1))
       - (Tracker.x p3 - Tracker.x p1)
         * ((a * Tracker.x p2 + b * Tracker.y p2) - (a * Tracker.x p1 + b * Tracker.y p1))).
    - unfold det. ring.
    - rewrite H1, H2, H3. ring. }
  assert (Ha : a * det == 0).
  { transitivity
      ((Tracker.y p3 - Tracker.y p1)
       * ((a * Tracker.x p2 + b * Tracker.y p2) - (a * Tracker.x p1 + b * Tracker.y p1))
       - (Tracker.y p2 - Tracker.y p1)
         * ((a * Tracker.x p3 + b * Tracker.y p3) - (a * Tracker.x p1 + b * Tracker.y p1))).
    - unfold det. ring.
    - rewrite H1, H2, H3. ring. }
  apply Qmult_integral in Ha, Hb.
  destruct Ha as [Ha | Ha]; [| exact Ha].
  destruct Hb as [Hb | Hb]; [| exact Hb].
  exfalso. apply Hab. now split.
Qed.

Lemma detectStraightLines_on_line a b c (points : list Tracker.Point) :
  ~ (a == 0 /\ b == 0) -> onLine a b c points ->
  Tracker.detectStraightLines points = (length points - 2)%nat.
Proof.
  intros Hab. unfold onLine.
  induction points as [| p1 [| p2 [| p3 rest]] IH]; intros H; try reflexivity.
  change (Tracker.detectStraightLines (p1 :: p2 :: p3 :: rest))
    with ((if num_lt (Qabs ((Tracker.x p2 - Tracker.x p1) * (Tracker.y p3 - Tracker.y p1)
                            - (Tracker.x p3 - Tracker.x p1) * (Tracker.y p2 - Tracker.y p1))) 5
           then 1 else 0) + Tracker.detectStraightLines (p2 :: p3 :: rest))%nat.
  inversion H as [| ? ? H1 H']; subst. inversion H' as [| ? ? H2 H'']; subst.
  inversion H'' as [| ? ? H3 _]; subst.
  rewrite (IH H').
  rewrite (num_lt_proper _ 0 5 5); [| | reflexivity].
  - change (num_lt 0 5) with true. cbv iota. simpl length. lia.
  - rewrite (area_on_line a b c p1 p2 p3 Hab H1 H2 H3). reflexivity.
Qed.

Lemma analyzeMousePattern_on_line Math_sqrt a b c st :
  ~ (a == 0 /\ b == 0) ->
  (10 <= length (Tracker.mousePath st))%nat ->
  onLine a b c (Tracker.lastN 10 (Tracker.mousePath st)) ->
  "straight-mouse-lines"
    ∈ Tracker.suspiciousPatterns (Tracker.analyzeMousePattern Math_sqrt st).
Proof.
  intros Hab Hlen Hon. unfold Tracker.analyzeMousePattern.
  destruct (Nat.ltb_spec (length (Tracker.mousePath st)) 10) as [Hlt | _]; [lia |].
  cbv zeta. rewrite (detectStraightLines_on_line a b c _ Hab Hon), lastN_length.
  replace (Nat.min 10 (length (Tracker.mousePath st)) - 2)%nat with 8%nat by lia.
  change (5 <? 8)%nat with true. cbv iota.
  destruct (Tracker.detectRepetitiveMousePattern _ _); destruct (num_gt _ 2000);
    repeat first [apply addSuspiciousPattern_in | apply addSuspiciousPattern_still].
Qed.

(** X29: ten mouse positions in a row on one straight line make the tracker
    report straight mouse lines, and the report stays. *)
Theorem straight_mouse_path_is_flagged Math_sqrt before clientX clientY now now' after
    t0 t0' earlier points a b c :
  Tracker.movesOf (before ++ [Tracker.MouseMove clientX clientY now now'])
  = earlier ++ points ->
  length points = 10%nat ->
  ~ (a == 0 /\ b == 0) ->
  onLine a b c points ->
  "straight-mouse-lines"
    ∈ Tracker.suspiciousPatterns
        (Tracker.run Math_sqrt
           (before ++ Tracker.MouseMove clientX clientY now now' :: after)
           (Tracker.create t0 t0')).
Proof.
  intros Hmoves Hlen Hab Hon.
  rewrite run_app.
  change (Tracker.run Math_sqrt (Tracker.MouseMove clientX clientY now now' :: after) ?s)
    with (Tracker.run Math_sqrt after
            (Tracker.handle Math_sqrt (Tracker.MouseMove clientX clientY now now') s)).
  set (st1 := Tracker.run Math_sqrt before (Tracker.create t0 t0')).
  pose proof (run_mousePath Math_sqrt [Tracker.MouseMove clientX clientY now now'] st1
                (Tracker.movesOf before)) as Ht.
  assert (H1 : Tracker.mousePath st1 = Tracker.lastN 100 (Tracker.movesOf before))
    by (unfold st1;
        now rewrite (run_mousePath Math_sqrt before (Tracker.create t0 t0') [])).
  specialize (Ht H1).
  assert (Hk : Tracker.movesOf before
               ++ Tracker.movesOf [Tracker.MouseMove clientX clientY now now']
               = earlier ++ points).
  { rewrite <- Hmoves. unfold Tracker.movesOf. now rewrite omap_app. }
  rewrite Hk in Ht.
  change (Tracker.run Math_sqrt [Tracker.MouseMove clientX clientY now now'] st1)
    with (Tracker.handle Math_sqrt (Tracker.MouseMove clientX clientY now now') st1) in Ht.
  unfold Tracker.handle in Ht |- *. cbv zeta in Ht |- *.
  match type of Ht with
  | Tracker.mousePath (Tracker.analyzeMousePattern _ ?s) = _ =>
    set (st2 := s) in *;
    destruct (analyzeMousePattern_same Math_sqrt st2) as (_ & _ & _ & _ & Hsame & _)
  end.
  rewrite Hsame in Ht.
  apply run_keeps; [apply keeps_elem |].
  apply (analyzeMousePattern_on_line Math_sqrt a b c st2 Hab).
  - rewrite Ht, lastN_length, length_app. lia.
  - rewrite Ht, lastN_lastN by lia. rewrite <- Hlen, lastN_app. exact Hon.
Qed.

Lemma straight_mouse_path_is_flagged_witness :
  "straight-mouse-lines"
    ∈ Tracker.suspiciousPatterns
        (Tracker.run (fun v => v)
           ([Tracker.MouseMove 0 5 0 0; Tracker.MouseMove 3 5 10 10;
             Tracker.MouseMove 6 5 20 20; Tracker.MouseMove 9 5 30 30;
             Tracker.MouseMove 12 5 40 40; Tracker.MouseMove 15 5 50 50;
             Tracker.MouseMove 18 5 60 60; Tracker.MouseMove 21 5 70 70;
             Tracker.MouseMove 24 5 80 80]
            ++ Tracker.MouseMove 27 5 90 90 :: [Tracker.Scroll 100])
           (Tracker.create 0 0)).
Proof.
  apply (straight_mouse_path_is_flagged (fun v => v) _ 27 5 90 90 [Tracker.Scroll 100] 0 0 []
           [Tracker.mkPoint 0 5 0; Tracker.mkPoint 3 5 10; Tracker.mkPoint 6 5 20;
            Tracker.mkPoint 9 5 30; Tracker.mkPoint 12 5 40; Tracker.mkPoint 15 5 50;
            Tracker.mkPoint 18 5 60; Tracker.mkPoint 21 5 70; Tracker.mkPoint 24 5 80;
            Tracker.mkPoint 27 5 90] 0 1 5).
  - reflexivity.
  - reflexivity.
  - intros [_ H]. discriminate H.
  - vm_compute. repeat constructor.
Defined.
